(** * EHCI host controller driver (tinyusb/host/ehci/ehci.c)

    A shallow embedding of the queue-head / queue-element bookkeeping of the
    EHCI driver: descriptor initialisation, the per-device pools, the
    asynchronous and periodic list helpers, the pipe API, the interrupt
    handlers for async advance, completed transfers and transfer errors,
    and the polling loops of controller stop and reset.  The register
    accesses of the port API and of [hcd_isr] are outside the model.

    C values are modelled as [Z] with the wrap-around and bit-field
    truncation written out; arrays are lists read with [!!] and written
    with [<[i:=x]>]; a pointer into [ehci_data] is a path into the
    structure ([qhd_ptr], [qtd_ptr]) and NULL is [None].  An access the C
    standard leaves undefined (index outside an array, dereference of an
    address that is no queue head) makes the embedded function return
    [None]; so does a loop that runs out of fuel. *)

From Stdlib Require Import ZArith Lia Bool.
From stdpp Require Import base option list.

Local Open Scope Z_scope.

(** ** Machine integers and bit-fields *)

Definition uint32 (x : Z) : Z := x mod 2 ^ 32.
Definition uint8 (x : Z) : Z := x mod 2 ^ 8.

(** Assignment to an unsigned bit-field of width [w] keeps the low [w] bits. *)
Definition bitfield (w : Z) (x : Z) : Z := Z.land x (Z.ones w).

(** Modelled from the spec: common.h is not part of the sources; [align32]
    and [align4k] clear the low 5 and the low 12 bits of a 32-bit value
    (the spec writes the latter as [x & ~4095]). *)
Definition align32 (value : Z) : Z := Z.land value 0xFFFFFFE0.
Definition align4k (value : Z) : Z := Z.land value 0xFFFFF000.

(** ** Constants of the headers

    Modelled from the spec: ehci.h and the core headers are not part of the
    sources.  The encodings are those of EHCI section 3 (PID code, queue
    element type, endpoint speed) and of USB 2.0 chapter 9 (transfer type),
    which the spec says the layout follows bit for bit. *)

Definition EHCI_PID_OUT : Z := 0.
Definition EHCI_PID_IN : Z := 1.
Definition EHCI_PID_SETUP : Z := 2.

Definition EHCI_QUEUE_ELEMENT_ITD : Z := 0.
Definition EHCI_QUEUE_ELEMENT_QHD : Z := 1.
Definition EHCI_QUEUE_ELEMENT_SITD : Z := 2.
Definition EHCI_QUEUE_ELEMENT_FSTN : Z := 3.

Definition TUSB_XFER_CONTROL : Z := 0.
Definition TUSB_XFER_ISOCHRONOUS : Z := 1.
Definition TUSB_XFER_BULK : Z := 2.
Definition TUSB_XFER_INTERRUPT : Z := 3.

Definition TUSB_SPEED_FULL : Z := 0.
Definition TUSB_SPEED_LOW : Z := 1.
Definition TUSB_SPEED_HIGH : Z := 2.

Inductive tusb_error_t : Type :=
| TUSB_ERROR_NONE
| TUSB_ERROR_INVALID_PARA
| TUSB_ERROR_OSAL_TIMEOUT
| TUSB_ERROR_EHCI_NOT_ENOUGH_QTD.

Inductive tusb_device_state_t : Type :=
| TUSB_DEVICE_STATE_UNPLUG
| TUSB_DEVICE_STATE_ADDRESSED
| TUSB_DEVICE_STATE_CONFIGURED
| TUSB_DEVICE_STATE_MOUNTED.

(** ** Link words ([ehci_link_t])

    One 32-bit word: the union of [address] with the bit-fields
    [terminate] (bit 0) and [type] (bits 1..2).  [list_insert] relies on
    the overlap when it writes [address = new | (type << 1)]. *)

Definition link_terminate (l : Z) : Z := Z.land l 1.
Definition link_type (l : Z) : Z := Z.land (Z.shiftr l 1) 3.
Definition link_set_address (a : Z) (l : Z) : Z := uint32 a.
Definition link_set_terminate (b : Z) (l : Z) : Z :=
  Z.lor (Z.land l 0xFFFFFFFE) (Z.land b 1).
Definition link_set_type (t : Z) (l : Z) : Z :=
  Z.lor (Z.land l 0xFFFFFFF9) (Z.shiftl (Z.land t 3) 1).

(** ** Queue element transfer descriptor

    Modelled from the spec: ehci.h is not part of the sources.  The fields
    are those the spec lists for a qTD (next and alternate link, the
    status word, five buffer pointers, the driver's [used] mark); the
    widths of the bit-fields are those of EHCI section 3.5, and a setter
    truncates the value it stores to the width of its field. *)

Record ehci_qtd_t : Type := mk_qtd {
  qtd_next : Z;
  qtd_alternate : Z;
  pingstate_err : Z;
  xact_err : Z;
  babble_err : Z;
  buffer_err : Z;
  halted : Z;
  active : Z;
  pid : Z;
  cerr : Z;
  current_page : Z;
  int_on_complete : Z;
  total_bytes : Z;
  data_toggle : Z;
  buffer : list Z;
  qtd_used : Z
}.

(** [memclr_] of a qTD. *)
Definition qtd_zero : ehci_qtd_t :=
  {| qtd_next := 0; qtd_alternate := 0; pingstate_err := 0; xact_err := 0;
     babble_err := 0; buffer_err := 0; halted := 0; active := 0; pid := 0;
     cerr := 0; current_page := 0; int_on_complete := 0; total_bytes := 0;
     data_toggle := 0; buffer := [0; 0; 0; 0; 0]; qtd_used := 0 |}.

Definition set_qtd_next (v : Z) (q : ehci_qtd_t) : ehci_qtd_t :=
  {| qtd_next := v; qtd_alternate := qtd_alternate q;
     pingstate_err := pingstate_err q; xact_err := xact_err q;
     babble_err := babble_err q; buffer_err := buffer_err q;
     halted := halted q; active := active q; pid := pid q; cerr := cerr q;
     current_page := current_page q; int_on_complete := int_on_complete q;
     total_bytes := total_bytes q; data_toggle := data_toggle q;
     buffer := buffer q; qtd_used := qtd_used q |}.

Definition set_qtd_alternate (v : Z) (q : ehci_qtd_t) : ehci_qtd_t :=
  {| qtd_next := qtd_next q; qtd_alternate := v;
     pingstate_err := pingstate_err q; xact_err := xact_err q;
     babble_err := babble_err q; buffer_err := buffer_err q;
     halted := halted q; active := active q; pid := pid q; cerr := cerr q;
     current_page := current_page q; int_on_complete := int_on_complete q;
     total_bytes := total_bytes q; data_toggle := data_toggle q;
     buffer := buffer q; qtd_used := qtd_used q |}.

Definition set_pingstate_err (v : Z) (q : ehci_qtd_t) : ehci_qtd_t :=
  {| qtd_next := qtd_next q; qtd_alternate := qtd_alternate q;
     pingstate_err := bitfield 1 v; xact_err := xact_err q;
     babble_err := babble_err q; buffer_err := buffer_err q;
     halted := halted q; active := active q; pid := pid q; cerr := cerr q;
     current_page := current_page q; int_on_complete := int_on_complete q;
     total_bytes := total_bytes q; data_toggle := data_toggle q;
     buffer := buffer q; qtd_used := qtd_used q |}.

Definition set_halted (v : Z) (q : ehci_qtd_t) : ehci_qtd_t :=
  {| qtd_next := qtd_next q; qtd_alternate := qtd_alternate q;
     pingstate_err := pingstate_err q; xact_err := xact_err q;
     babble_err := babble_err q; buffer_err := buffer_err q;
     halted := bitfield 1 v; active := active q; pid := pid q; cerr := cerr q;
     current_page := current_page q; int_on_complete := int_on_complete q;
     total_bytes := total_bytes q; data_toggle := data_toggle q;
     buffer := buffer q; qtd_used := qtd_used q |}.

Definition set_active (v : Z) (q : ehci_qtd_t) : ehci_qtd_t :=
  {| qtd_next := qtd_next q; qtd_alternate := qtd_alternate q;
     pingstate_err := pingstate_err q; xact_err := xact_err q;
     babble_err := babble_err q; buffer_err := buffer_err q;
     halted := halted q; active := bitfield 1 v; pid := pid q; cerr := cerr q;
     current_page := current_page q; int_on_complete := int_on_complete q;
     total_bytes := total_bytes q; data_toggle := data_toggle q;
     buffer := buffer q; qtd_used := qtd_used q |}.

Definition set_pid (v : Z) (q : ehci_qtd_t) : ehci_qtd_t :=
  {| qtd_next := qtd_next q; qtd_alternate := qtd_alternate q;
     pingstate_err := pingstate_err q; xact_err := xact_err q;
     babble_err := babble_err q; buffer_err := buffer_err q;
     halted := halted q; active := active q; pid := bitfield 2 v;
     cerr := cerr q;
     current_page := current_page q; int_on_complete := int_on_complete q;
     total_bytes := total_bytes q; data_toggle := data_toggle q;
     buffer := buffer q; qtd_used := qtd_used q |}.

Definition set_cerr (v : Z) (q : ehci_qtd_t) : ehci_qtd_t :=
  {| qtd_next := qtd_next q; qtd_alternate := qtd_alternate q;
     pingstate_err := pingstate_err q; xact_err := xact_err q;
     babble_err := babble_err q; buffer_err := buffer_err q;
     halted := halted q; active := active q; pid := pid q;
     cerr := bitfield 2 v;
     current_page := current_page q; int_on_complete := int_on_complete q;
     total_bytes := total_bytes q; data_toggle := data_toggle q;
     buffer := buffer q; qtd_used := qtd_used q |}.

Definition set_int_on_complete (v : Z) (q : ehci_qtd_t) : ehci_qtd_t :=
  {| qtd_next := qtd_next q; qtd_alternate := qtd_alternate q;
     pingstate_err := pingstate_err q; xact_err := xact_err q;
     babble_err := babble_err q; buffer_err := buffer_err q;
     halted := halted q; active := active q; pid := pid q; cerr := cerr q;
     current_page := current_page q; int_on_complete := bitfield 1 v;
     total_bytes := total_bytes q; data_toggle := data_toggle q;
     buffer := buffer q; qtd_used := qtd_used q |}.

Definition set_total_bytes (v : Z) (q : ehci_qtd_t) : ehci_qtd_t :=
  {| qtd_next := qtd_next q; qtd_alternate := qtd_alternate q;
     pingstate_err := pingstate_err q; xact_err := xact_err q;
     babble_err := babble_err q; buffer_err := buffer_err q;
     halted := halted q; active := active q; pid := pid q; cerr := cerr q;
     current_page := current_page q; int_on_complete := int_on_complete q;
     total_bytes := bitfield 15 v; data_toggle := data_toggle q;
     buffer := buffer q; qtd_used := qtd_used q |}.

Definition set_data_toggle (v : Z) (q : ehci_qtd_t) : ehci_qtd_t :=
  {| qtd_next := qtd_next q; qtd_alternate := qtd_alternate q;
     pingstate_err := pingstate_err q; xact_err := xact_err q;
     babble_err := babble_err q; buffer_err := buffer_err q;
     halted := halted q; active := active q; pid := pid q; cerr := cerr q;
     current_page := current_page q; int_on_complete := int_on_complete q;
     total_bytes := total_bytes q; data_toggle := bitfield 1 v;
     buffer := buffer q; qtd_used := qtd_used q |}.

Definition set_buffer (v : list Z) (q : ehci_qtd_t) : ehci_qtd_t :=
  {| qtd_next := qtd_next q; qtd_alternate := qtd_alternate q;
     pingstate_err := pingstate_err q; xact_err := xact_err q;
     babble_err := babble_err q; buffer_err := buffer_err q;
     halted := halted q; active := active q; pid := pid q; cerr := cerr q;
     current_page := current_page q; int_on_complete := int_on_complete q;
     total_bytes := total_bytes q; data_toggle := data_toggle q;
     buffer := v; qtd_used := qtd_used q |}.

Definition set_qtd_used (v : Z) (q : ehci_qtd_t) : ehci_qtd_t :=
  {| qtd_next := qtd_next q; qtd_alternate := qtd_alternate q;
     pingstate_err := pingstate_err q; xact_err := xact_err q;
     babble_err := babble_err q; buffer_err := buffer_err q;
     halted := halted q; active := active q; pid := pid q; cerr := cerr q;
     current_page := current_page q; int_on_complete := int_on_complete q;
     total_bytes := total_bytes q; data_toggle := data_toggle q;
     buffer := buffer q; qtd_used := bitfield 1 v |}.

(** One turn of the page loop of [qtd_init]:
    [buffer[i] |= align4k(buffer[i-1]) + 4096] in 32-bit arithmetic. *)
Definition qtd_init_page (b : list Z) (i : nat) : list Z :=
  match b !! i, b !! (i - 1)%nat with
  | Some cur, Some prev => <[i := Z.lor cur (uint32 (align4k prev + 4096))]> b
  | _, _ => b
  end.

(** The value [qtd_init] leaves in [*p_qtd]: the structure is cleared first,
    so it does not depend on what the slot held. *)
Definition qtd_init_value (data_ptr total_bytes : Z) : ehci_qtd_t :=
  let q := qtd_zero in
  let q := set_qtd_used 1 q in
  let q := set_qtd_next (link_set_terminate 1 (qtd_next q)) q in
  let q := set_qtd_alternate (link_set_terminate 1 (qtd_alternate q)) q in
  let q := set_active 1 q in
  let q := set_cerr 3 q in
  let q := set_data_toggle 0 q in
  let q := set_total_bytes total_bytes q in
  let q := set_buffer (<[0%nat := data_ptr]> (buffer q)) q in
  fold_left (fun q i => set_buffer (qtd_init_page (buffer q) i) q)
            [1; 2; 3; 4]%nat q.


(** ** Pointers into [ehci_data]

    [AsyncHead h] is [&ehci_data.async_head[h]], [ControlQhd d] is
    [&ehci_data.device[d].control.qhd], [PoolQhd d i] is
    [&ehci_data.device[d].qhd[i]]; likewise for the qTD arrays. *)

Inductive qhd_ptr : Type :=
| AsyncHead (h : nat)
| PeriodHead (h : nat)
| ControlQhd (d : nat)
| PoolQhd (d i : nat).

Inductive qtd_ptr : Type :=
| Addr0Qtd (i : nat)
| ControlQtd (d i : nat)
| PoolQtd (d i : nat).

#[global] Instance qhd_ptr_eq_dec : EqDecision qhd_ptr.
Proof. solve_decision. Defined.

#[global] Instance qtd_ptr_eq_dec : EqDecision qtd_ptr.
Proof. solve_decision. Defined.

(** [p + k] on a pointer into one of the qTD arrays. *)
Definition qtd_ptr_add (p : qtd_ptr) (k : nat) : qtd_ptr :=
  match p with
  | Addr0Qtd i => Addr0Qtd (i + k)
  | ControlQtd d i => ControlQtd d (i + k)
  | PoolQtd d i => PoolQtd d (i + k)
  end.

(** ** Queue head

    Modelled from the spec: ehci.h is not part of the sources.  The
    hardware part follows EHCI section 3.6 (horizontal link, endpoint
    characteristics and capabilities, current qTD, overlay), followed by
    the driver's own fields [used], [is_removing], [pid_non_control],
    [class_code] and the two ends of the qTD list. *)

Record ehci_qhd_t : Type := mk_qhd {
  qhd_next : Z;
  device_address : Z;
  non_hs_period_inactive_next_xact : Z;
  endpoint_number : Z;
  endpoint_speed : Z;
  data_toggle_control : Z;
  head_list_flag : Z;
  max_package_size : Z;
  non_hs_control_endpoint : Z;
  nak_count_reload : Z;
  interrupt_smask : Z;
  non_hs_interrupt_cmask : Z;
  hub_address : Z;
  hub_port : Z;
  mult : Z;
  qtd_addr : Z;
  qtd_overlay : ehci_qtd_t;
  qhd_used : Z;
  is_removing : Z;
  pid_non_control : Z;
  class_code : Z;
  p_qtd_list_head : option qtd_ptr;
  p_qtd_list_tail : option qtd_ptr
}.

(** [memclr_] of a queue head. *)
Definition qhd_zero : ehci_qhd_t :=
  {| qhd_next := 0; device_address := 0;
     non_hs_period_inactive_next_xact := 0; endpoint_number := 0;
     endpoint_speed := 0; data_toggle_control := 0; head_list_flag := 0;
     max_package_size := 0; non_hs_control_endpoint := 0;
     nak_count_reload := 0; interrupt_smask := 0;
     non_hs_interrupt_cmask := 0; hub_address := 0; hub_port := 0;
     mult := 0; qtd_addr := 0; qtd_overlay := qtd_zero; qhd_used := 0;
     is_removing := 0; pid_non_control := 0; class_code := 0;
     p_qtd_list_head := None; p_qtd_list_tail := None |}.

Definition set_qhd_next (v : Z) (q : ehci_qhd_t) : ehci_qhd_t :=
  {| qhd_next := v; device_address := device_address q;
     non_hs_period_inactive_next_xact := non_hs_period_inactive_next_xact q;
     endpoint_number := endpoint_number q;
     endpoint_speed := endpoint_speed q;
     data_toggle_control := data_toggle_control q;
     head_list_flag := head_list_flag q;
     max_package_size := max_package_size q;
     non_hs_control_endpoint := non_hs_control_endpoint q;
     nak_count_reload := nak_count_reload q;
     interrupt_smask := interrupt_smask q;
     non_hs_interrupt_cmask := non_hs_interrupt_cmask q;
     hub_address := hub_address q; hub_port := hub_port q; mult := mult q;
     qtd_addr := qtd_addr q; qtd_overlay := qtd_overlay q;
     qhd_used := qhd_used q; is_removing := is_removing q;
     pid_non_control := pid_non_control q; class_code := class_code q;
     p_qtd_list_head := p_qtd_list_head q;
     p_qtd_list_tail := p_qtd_list_tail q |}.

Definition set_qtd_overlay (v : ehci_qtd_t) (q : ehci_qhd_t) : ehci_qhd_t :=
  {| qhd_next := qhd_next q; device_address := device_address q;
     non_hs_period_inactive_next_xact := non_hs_period_inactive_next_xact q;
     endpoint_number := endpoint_number q;
     endpoint_speed := endpoint_speed q;
     data_toggle_control := data_toggle_control q;
     head_list_flag := head_list_flag q;
     max_package_size := max_package_size q;
     non_hs_control_endpoint := non_hs_control_endpoint q;
     nak_count_reload := nak_count_reload q;
     interrupt_smask := interrupt_smask q;
     non_hs_interrupt_cmask := non_hs_interrupt_cmask q;
     hub_address := hub_address q; hub_port := hub_port q; mult := mult q;
     qtd_addr := qtd_addr q; qtd_overlay := v;
     qhd_used := qhd_used q; is_removing := is_removing q;
     pid_non_control := pid_non_control q; class_code := class_code q;
     p_qtd_list_head := p_qtd_list_head q;
     p_qtd_list_tail := p_qtd_list_tail q |}.

Definition set_qhd_used (v : Z) (q : ehci_qhd_t) : ehci_qhd_t :=
  {| qhd_next := qhd_next q; device_address := device_address q;
     non_hs_period_inactive_next_xact := non_hs_period_inactive_next_xact q;
     endpoint_number := endpoint_number q;
     endpoint_speed := endpoint_speed q;
     data_toggle_control := data_toggle_control q;
     head_list_flag := head_list_flag q;
     max_package_size := max_package_size q;
     non_hs_control_endpoint := non_hs_control_endpoint q;
     nak_count_reload := nak_count_reload q;
     interrupt_smask := interrupt_smask q;
     non_hs_interrupt_cmask := non_hs_interrupt_cmask q;
     hub_address := hub_address q; hub_port := hub_port q; mult := mult q;
     qtd_addr := qtd_addr q; qtd_overlay := qtd_overlay q;
     qhd_used := uint8 v; is_removing := is_removing q;
     pid_non_control := pid_non_control q; class_code := class_code q;
     p_qtd_list_head := p_qtd_list_head q;
     p_qtd_list_tail := p_qtd_list_tail q |}.

Definition set_is_removing (v : Z) (q : ehci_qhd_t) : ehci_qhd_t :=
  {| qhd_next := qhd_next q; device_address := device_address q;
     non_hs_period_inactive_next_xact := non_hs_period_inactive_next_xact q;
     endpoint_number := endpoint_number q;
     endpoint_speed := endpoint_speed q;
     data_toggle_control := data_toggle_control q;
     head_list_flag := head_list_flag q;
     max_package_size := max_package_size q;
     non_hs_control_endpoint := non_hs_control_endpoint q;
     nak_count_reload := nak_count_reload q;
     interrupt_smask := interrupt_smask q;
     non_hs_interrupt_cmask := non_hs_interrupt_cmask q;
     hub_address := hub_address q; hub_port := hub_port q; mult := mult q;
     qtd_addr := qtd_addr q; qtd_overlay := qtd_overlay q;
     qhd_used := qhd_used q; is_removing := uint8 v;
     pid_non_control := pid_non_control q; class_code := class_code q;
     p_qtd_list_head := p_qtd_list_head q;
     p_qtd_list_tail := p_qtd_list_tail q |}.

Definition set_class_code (v : Z) (q : ehci_qhd_t) : ehci_qhd_t :=
  {| qhd_next := qhd_next q; device_address := device_address q;
     non_hs_period_inactive_next_xact := non_hs_period_inactive_next_xact q;
     endpoint_number := endpoint_number q;
     endpoint_speed := endpoint_speed q;
     data_toggle_control := data_toggle_control q;
     head_list_flag := head_list_flag q;
     max_package_size := max_package_size q;
     non_hs_control_endpoint := non_hs_control_endpoint q;
     nak_count_reload := nak_count_reload q;
     interrupt_smask := interrupt_smask q;
     non_hs_interrupt_cmask := non_hs_interrupt_cmask q;
     hub_address := hub_address q; hub_port := hub_port q; mult := mult q;
     qtd_addr := qtd_addr q; qtd_overlay := qtd_overlay q;
     qhd_used := qhd_used q; is_removing := is_removing q;
     pid_non_control := pid_non_control q; class_code := uint8 v;
     p_qtd_list_head := p_qtd_list_head q;
     p_qtd_list_tail := p_qtd_list_tail q |}.

Definition set_p_qtd_list_head (v : option qtd_ptr) (q : ehci_qhd_t)
  : ehci_qhd_t :=
  {| qhd_next := qhd_next q; device_address := device_address q;
     non_hs_period_inactive_next_xact := non_hs_period_inactive_next_xact q;
     endpoint_number := endpoint_number q;
     endpoint_speed := endpoint_speed q;
     data_toggle_control := data_toggle_control q;
     head_list_flag := head_list_flag q;
     max_package_size := max_package_size q;
     non_hs_control_endpoint := non_hs_control_endpoint q;
     nak_count_reload := nak_count_reload q;
     interrupt_smask := interrupt_smask q;
     non_hs_interrupt_cmask := non_hs_interrupt_cmask q;
     hub_address := hub_address q; hub_port := hub_port q; mult := mult q;
     qtd_addr := qtd_addr q; qtd_overlay := qtd_overlay q;
     qhd_used := qhd_used q; is_removing := is_removing q;
     pid_non_control := pid_non_control q; class_code := class_code q;
     p_qtd_list_head := v;
     p_qtd_list_tail := p_qtd_list_tail q |}.

Definition set_p_qtd_list_tail (v : option qtd_ptr) (q : ehci_qhd_t)
  : ehci_qhd_t :=
  {| qhd_next := qhd_next q; device_address := device_address q;
     non_hs_period_inactive_next_xact := non_hs_period_inactive_next_xact q;
     endpoint_number := endpoint_number q;
     endpoint_speed := endpoint_speed q;
     data_toggle_control := data_toggle_control q;
     head_list_flag := head_list_flag q;
     max_package_size := max_package_size q;
     non_hs_control_endpoint := non_hs_control_endpoint q;
     nak_count_reload := nak_count_reload q;
     interrupt_smask := interrupt_smask q;
     non_hs_interrupt_cmask := non_hs_interrupt_cmask q;
     hub_address := hub_address q; hub_port := hub_port q; mult := mult q;
     qtd_addr := qtd_addr q; qtd_overlay := qtd_overlay q;
     qhd_used := qhd_used q; is_removing := is_removing q;
     pid_non_control := pid_non_control q; class_code := class_code q;
     p_qtd_list_head := p_qtd_list_head q;
     p_qtd_list_tail := v |}.

Definition set_head_list_flag (v : Z) (q : ehci_qhd_t) : ehci_qhd_t :=
  {| qhd_next := qhd_next q;
     device_address := device_address q;
     non_hs_period_inactive_next_xact := non_hs_period_inactive_next_xact q;
     endpoint_number := endpoint_number q;
     endpoint_speed := endpoint_speed q;
     data_toggle_control := data_toggle_control q;
     head_list_flag := bitfield 1 v;
     max_package_size := max_package_size q;
     non_hs_control_endpoint := non_hs_control_endpoint q;
     nak_count_reload := nak_count_reload q;
     interrupt_smask := interrupt_smask q;
     non_hs_interrupt_cmask := non_hs_interrupt_cmask q;
     hub_address := hub_address q;
     hub_port := hub_port q;
     mult := mult q;
     qtd_addr := qtd_addr q;
     qtd_overlay := qtd_overlay q;
     qhd_used := qhd_used q;
     is_removing := is_removing q;
     pid_non_control := pid_non_control q;
     class_code := class_code q;
     p_qtd_list_head := p_qtd_list_head q;
     p_qtd_list_tail := p_qtd_list_tail q |}.

Definition set_interrupt_smask (v : Z) (q : ehci_qhd_t) : ehci_qhd_t :=
  {| qhd_next := qhd_next q;
     device_address := device_address q;
     non_hs_period_inactive_next_xact := non_hs_period_inactive_next_xact q;
     endpoint_number := endpoint_number q;
     endpoint_speed := endpoint_speed q;
     data_toggle_control := data_toggle_control q;
     head_list_flag := head_list_flag q;
     max_package_size := max_package_size q;
     non_hs_control_endpoint := non_hs_control_endpoint q;
     nak_count_reload := nak_count_reload q;
     interrupt_smask := bitfield 8 v;
     non_hs_interrupt_cmask := non_hs_interrupt_cmask q;
     hub_address := hub_address q;
     hub_port := hub_port q;
     mult := mult q;
     qtd_addr := qtd_addr q;
     qtd_overlay := qtd_overlay q;
     qhd_used := qhd_used q;
     is_removing := is_removing q;
     pid_non_control := pid_non_control q;
     class_code := class_code q;
     p_qtd_list_head := p_qtd_list_head q;
     p_qtd_list_tail := p_qtd_list_tail q |}.

(** ** The driver's data and the device table *)

(** [ehci_data.device[d]]: the control queue head with its three qTDs, and
    the two pools. *)
Record ehci_device_t : Type := mk_device {
  control_qhd : ehci_qhd_t;
  control_qtd : list ehci_qtd_t;
  dev_qhd : list ehci_qhd_t;
  dev_qtd : list ehci_qtd_t
}.

Record ehci_data_t : Type := mk_ehci_data {
  async_head : list ehci_qhd_t;
  addr0_qtd : list ehci_qtd_t;
  period_head : list ehci_qhd_t;
  device : list ehci_device_t
}.

(** The fields of [usbh_devices[]] the driver reads or writes. *)
Record usbh_device_info_t : Type := mk_usbh_device {
  core_id : Z;
  hub_addr : Z;
  hub_port_of : Z;
  speed : Z;
  state : tusb_device_state_t
}.

Record hcd_state : Type := mk_state {
  ehci_data : ehci_data_t;
  usbh_devices : list usbh_device_info_t
}.

Definition set_ehci_data (e : ehci_data_t) (s : hcd_state) : hcd_state :=
  {| ehci_data := e; usbh_devices := usbh_devices s |}.

Definition set_usbh_devices (u : list usbh_device_info_t) (s : hcd_state)
  : hcd_state :=
  {| ehci_data := ehci_data s; usbh_devices := u |}.

Definition set_state (v : tusb_device_state_t) (d : usbh_device_info_t)
  : usbh_device_info_t :=
  {| core_id := core_id d; hub_addr := hub_addr d;
     hub_port_of := hub_port_of d; speed := speed d; state := v |}.

Definition set_control_qhd (q : ehci_qhd_t) (d : ehci_device_t)
  : ehci_device_t :=
  {| control_qhd := q; control_qtd := control_qtd d; dev_qhd := dev_qhd d;
     dev_qtd := dev_qtd d |}.

Definition set_control_qtd (l : list ehci_qtd_t) (d : ehci_device_t)
  : ehci_device_t :=
  {| control_qhd := control_qhd d; control_qtd := l; dev_qhd := dev_qhd d;
     dev_qtd := dev_qtd d |}.

Definition set_dev_qhd (l : list ehci_qhd_t) (d : ehci_device_t)
  : ehci_device_t :=
  {| control_qhd := control_qhd d; control_qtd := control_qtd d;
     dev_qhd := l; dev_qtd := dev_qtd d |}.

Definition set_dev_qtd (l : list ehci_qtd_t) (d : ehci_device_t)
  : ehci_device_t :=
  {| control_qhd := control_qhd d; control_qtd := control_qtd d;
     dev_qhd := dev_qhd d; dev_qtd := l |}.

Definition set_async_head (l : list ehci_qhd_t) (e : ehci_data_t)
  : ehci_data_t :=
  {| async_head := l; addr0_qtd := addr0_qtd e;
     period_head := period_head e; device := device e |}.

Definition set_addr0_qtd (l : list ehci_qtd_t) (e : ehci_data_t)
  : ehci_data_t :=
  {| async_head := async_head e; addr0_qtd := l;
     period_head := period_head e; device := device e |}.

Definition set_period_head (l : list ehci_qhd_t) (e : ehci_data_t)
  : ehci_data_t :=
  {| async_head := async_head e; addr0_qtd := addr0_qtd e;
     period_head := l; device := device e |}.

Definition set_device (l : list ehci_device_t) (e : ehci_data_t)
  : ehci_data_t :=
  {| async_head := async_head e; addr0_qtd := addr0_qtd e;
     period_head := period_head e; device := l |}.

(** *** Reading and writing through a pointer *)

Definition load_qhd (e : ehci_data_t) (p : qhd_ptr) : option ehci_qhd_t :=
  match p with
  | AsyncHead h => async_head e !! h
  | PeriodHead h => period_head e !! h
  | ControlQhd d => control_qhd <$> device e !! d
  | PoolQhd d i => device e !! d ≫= fun dv => dev_qhd dv !! i
  end.

Definition store_qhd (e : ehci_data_t) (p : qhd_ptr) (q : ehci_qhd_t)
  : ehci_data_t :=
  match p with
  | AsyncHead h => set_async_head (<[h := q]> (async_head e)) e
  | PeriodHead h => set_period_head (<[h := q]> (period_head e)) e
  | ControlQhd d => set_device (alter (set_control_qhd q) d (device e)) e
  | PoolQhd d i =>
      set_device
        (alter (fun dv => set_dev_qhd (<[i := q]> (dev_qhd dv)) dv) d
               (device e)) e
  end.

Definition load_qtd (e : ehci_data_t) (p : qtd_ptr) : option ehci_qtd_t :=
  match p with
  | Addr0Qtd i => addr0_qtd e !! i
  | ControlQtd d i => device e !! d ≫= fun dv => control_qtd dv !! i
  | PoolQtd d i => device e !! d ≫= fun dv => dev_qtd dv !! i
  end.

Definition store_qtd (e : ehci_data_t) (p : qtd_ptr) (q : ehci_qtd_t)
  : ehci_data_t :=
  match p with
  | Addr0Qtd i => set_addr0_qtd (<[i := q]> (addr0_qtd e)) e
  | ControlQtd d i =>
      set_device
        (alter (fun dv => set_control_qtd (<[i := q]> (control_qtd dv)) dv) d
               (device e)) e
  | PoolQtd d i =>
      set_device
        (alter (fun dv => set_dev_qtd (<[i := q]> (dev_qtd dv)) dv) d
               (device e)) e
  end.

(** A write through a pointer that designates no object is undefined. *)
Definition modify_qhd (s : hcd_state) (p : qhd_ptr)
  (f : ehci_qhd_t -> ehci_qhd_t) : option hcd_state :=
  q ← load_qhd (ehci_data s) p;
  Some (set_ehci_data (store_qhd (ehci_data s) p (f q)) s).

Definition modify_qtd (s : hcd_state) (p : qtd_ptr)
  (f : ehci_qtd_t -> ehci_qtd_t) : option hcd_state :=
  q ← load_qtd (ehci_data s) p;
  Some (set_ehci_data (store_qtd (ehci_data s) p (f q)) s).

(** ** Configuration and memory placement *)

(** The compile-time constants of the configuration headers, which are not
    part of the sources, taken as parameters.  The driver counts through
    the pools with [uint8_t] counters and stores the device address in a
    7-bit field; [cfg_ok] records that the constants fit them. *)
Record hcd_config : Type := mk_config {
  CONTROLLER_HOST_NUMBER : nat;
  TUSB_CFG_HOST_DEVICE_MAX : nat;
  EHCI_MAX_QHD : nat;
  EHCI_MAX_QTD : nat;
  EHCI_PERIODIC_LIST : bool;
  TUSB_CFG_CONTROLLER0_HOST : bool;
  TUSB_CFG_CONTROLLER1_HOST : bool
}.

Definition cfg_ok (cfg : hcd_config) : Prop :=
  (TUSB_CFG_HOST_DEVICE_MAX cfg < 128 ∧ EHCI_MAX_QHD cfg < 256 ∧
   EHCI_MAX_QTD cfg < 256)%nat.

Definition valid_qhd_ptr (cfg : hcd_config) (p : qhd_ptr) : Prop :=
  match p with
  | AsyncHead h | PeriodHead h => (h < CONTROLLER_HOST_NUMBER cfg)%nat
  | ControlQhd d => (d < TUSB_CFG_HOST_DEVICE_MAX cfg)%nat
  | PoolQhd d i =>
      (d < TUSB_CFG_HOST_DEVICE_MAX cfg)%nat ∧ (i < EHCI_MAX_QHD cfg)%nat
  end.

Definition valid_qtd_ptr (cfg : hcd_config) (p : qtd_ptr) : Prop :=
  match p with
  | Addr0Qtd i => (i < 3)%nat
  | ControlQtd d i => (d < TUSB_CFG_HOST_DEVICE_MAX cfg)%nat ∧ (i < 3)%nat
  | PoolQtd d i =>
      (d < TUSB_CFG_HOST_DEVICE_MAX cfg)%nat ∧ (i < EHCI_MAX_QTD cfg)%nat
  end.

#[global] Instance valid_qhd_ptr_dec cfg p : Decision (valid_qhd_ptr cfg p).
Proof. destruct p; simpl; apply _. Defined.

#[global] Instance valid_qtd_ptr_dec cfg p : Decision (valid_qtd_ptr cfg p).
Proof. destruct p; simpl; apply _. Defined.

(** Where the linker puts [ehci_data]: the 32-bit address of every queue
    head and qTD.  The structure types are 32-byte aligned, and distinct
    objects have distinct addresses. *)
Class Layout (cfg : hcd_config) : Type := mk_layout {
  qhd_address : qhd_ptr -> Z;
  qtd_address : qtd_ptr -> Z;
  qhd_address_range :
    forall p, valid_qhd_ptr cfg p -> 0 < qhd_address p < 2 ^ 32;
  qhd_address_aligned :
    forall p, valid_qhd_ptr cfg p -> Z.land (qhd_address p) 31 = 0;
  qhd_address_inj :
    forall p p', valid_qhd_ptr cfg p -> valid_qhd_ptr cfg p' ->
                 qhd_address p = qhd_address p' -> p = p';
  qtd_address_range :
    forall p, valid_qtd_ptr cfg p -> 0 < qtd_address p < 2 ^ 32;
  qtd_address_aligned :
    forall p, valid_qtd_ptr cfg p -> Z.land (qtd_address p) 31 = 0
}.

(** Every queue head of [ehci_data], in declaration order. *)
Definition all_qhd_ptrs (cfg : hcd_config) : list qhd_ptr :=
  (AsyncHead <$> seq 0 (CONTROLLER_HOST_NUMBER cfg)) ++
  (PeriodHead <$> seq 0 (CONTROLLER_HOST_NUMBER cfg)) ++
  (seq 0 (TUSB_CFG_HOST_DEVICE_MAX cfg) ≫= fun d =>
     ControlQhd d :: (PoolQhd d <$> seq 0 (EHCI_MAX_QHD cfg))).

(** Every qTD of [ehci_data], in declaration order. *)
Definition all_qtd_ptrs (cfg : hcd_config) : list qtd_ptr :=
  (Addr0Qtd <$> seq 0 3) ++
  (seq 0 (TUSB_CFG_HOST_DEVICE_MAX cfg) ≫= fun d =>
     (ControlQtd d <$> seq 0 3) ++ (PoolQtd d <$> seq 0 (EHCI_MAX_QTD cfg))).

(** The array sizes of a state agree with the configuration. *)
Definition device_ok (cfg : hcd_config) (dv : ehci_device_t) : Prop :=
  length (control_qtd dv) = 3%nat ∧
  length (dev_qhd dv) = EHCI_MAX_QHD cfg ∧
  length (dev_qtd dv) = EHCI_MAX_QTD cfg.

Definition state_ok (cfg : hcd_config) (s : hcd_state) : Prop :=
  cfg_ok cfg ∧
  length (async_head (ehci_data s)) = CONTROLLER_HOST_NUMBER cfg ∧
  length (addr0_qtd (ehci_data s)) = 3%nat ∧
  length (period_head (ehci_data s)) = CONTROLLER_HOST_NUMBER cfg ∧
  length (device (ehci_data s)) = TUSB_CFG_HOST_DEVICE_MAX cfg ∧
  Forall (device_ok cfg) (device (ehci_data s)) ∧
  length (usbh_devices s) = S (TUSB_CFG_HOST_DEVICE_MAX cfg).

(** ** Requests, descriptors and pipe handles *)

(** A control request as [hcd_pipe_control_xfer] sees it: the address of the
    request block and the two fields it reads. *)
Record tusb_std_request_t : Type := mk_request {
  request_address : Z;
  bmRequestType_direction : Z;
  wLength : Z
}.

Record tusb_descriptor_endpoint_t : Type := mk_endpoint_desc {
  bEndpointAddress : Z;
  bmAttributes_xfer : Z;
  wMaxPacketSize_size : Z
}.

Record pipe_handle_t : Type := mk_pipe_handle {
  hdl_dev_addr : Z;
  hdl_xfer_type : Z;
  hdl_index : Z
}.

Definition null_handle : pipe_handle_t :=
  {| hdl_dev_addr := 0; hdl_xfer_type := 0; hdl_index := 0 |}.

(** The calls of the stack's callback [usbh_isr(pipe_hdl, class_code,
    event)] made by the interrupt handler, in the order they are made.
    The callback belongs to the layer above; it is recorded, not run. *)
Inductive tusb_bus_event_t : Type :=
| BUS_EVENT_XFER_COMPLETE
| BUS_EVENT_XFER_ERROR.

Record usbh_isr_call : Type := mk_usbh_isr_call {
  isr_pipe_hdl : pipe_handle_t;
  isr_class_code : Z;
  isr_event : tusb_bus_event_t
}.

(** The pool scans of [qhd_find_free] and [qtd_find_free]:
    [while (index < MAX && pool[index].used) index++], started at [index]
    with [remaining = MAX - index]; the result is the final [index]. *)
Fixpoint scan_used (used_at : nat -> option Z) (index remaining : nat)
  : option nat :=
  match remaining with
  | O => Some index
  | S r =>
      u ← used_at index;
      if u =? 0 then Some index else scan_used used_at (S index) r
  end.

(** ** The driver *)

Section Driver.

Context (cfg : hcd_config) {L : Layout cfg}.

(** The cast [(ehci_qhd_t* ) address]: the queue head placed there. *)
Definition qhd_of_address (a : Z) : option qhd_ptr :=
  list_find (fun p => qhd_address p = a) (all_qhd_ptrs cfg) ≫= fun r =>
  Some r.2.

Definition hostid_to_data_idx (hostid : Z) : nat :=
  if (CONTROLLER_HOST_NUMBER cfg =? 1)%nat && TUSB_CFG_CONTROLLER1_HOST cfg
  then 0%nat else Z.to_nat hostid.

Definition get_async_head (hostid : Z) : qhd_ptr :=
  AsyncHead (hostid_to_data_idx hostid).

Definition get_period_head (hostid : Z) : qhd_ptr :=
  PeriodHead (hostid_to_data_idx hostid).

Definition get_control_qhd (s : hcd_state) (dev_addr : Z) : option qhd_ptr :=
  if dev_addr =? 0
  then d ← usbh_devices s !! Z.to_nat dev_addr;
       Some (get_async_head (core_id d))
  else Some (ControlQhd (Z.to_nat (dev_addr - 1))).

Definition get_control_qtds (dev_addr : Z) : qtd_ptr :=
  if dev_addr =? 0 then Addr0Qtd 0 else ControlQtd (Z.to_nat (dev_addr - 1)) 0.

Definition qhd_find_free (s : hcd_state) (dev_addr : Z)
  : option (option qhd_ptr) :=
  let relative_address := Z.to_nat (uint8 (dev_addr - 1)) in
  index ← scan_used
            (fun i => qhd_used <$>
                      load_qhd (ehci_data s) (PoolQhd relative_address i))
            0 (EHCI_MAX_QHD cfg);
  Some (if decide (index < EHCI_MAX_QHD cfg)%nat
        then Some (PoolQhd relative_address index) else None).

(** [p_qhd - ehci_data.device[p_qhd->device_address-1].qhd]: defined only
    when [p_qhd] points into that very pool. *)
Definition qhd_get_index (s : hcd_state) (p_qhd : qhd_ptr) : option Z :=
  q ← load_qhd (ehci_data s) p_qhd;
  match p_qhd with
  | PoolQhd d i =>
      if decide (0 <= device_address q - 1 ∧
                 Z.to_nat (device_address q - 1) = d)
      then Some (uint8 (Z.of_nat i)) else None
  | _ => None
  end.

Definition qhd_get_from_pipe_handle (pipe_hdl : pipe_handle_t)
  : option qhd_ptr :=
  if decide (0 <= hdl_dev_addr pipe_hdl - 1)
  then Some (PoolQhd (Z.to_nat (hdl_dev_addr pipe_hdl - 1))
                     (Z.to_nat (hdl_index pipe_hdl)))
  else None.

Definition qtd_find_free (s : hcd_state) (dev_addr : Z)
  : option (option qtd_ptr) :=
  if decide (0 <= dev_addr - 1) then
    let d := Z.to_nat (dev_addr - 1) in
    index ← scan_used
              (fun i => qtd_used <$> load_qtd (ehci_data s) (PoolQtd d i))
              0 (EHCI_MAX_QTD cfg);
    Some (if decide (index < EHCI_MAX_QTD cfg)%nat
          then Some (PoolQtd d index) else None)
  else None.

Definition qtd_insert_to_qhd (s : hcd_state) (p_qhd : qhd_ptr)
  (p_qtd_new : qtd_ptr) : option hcd_state :=
  q ← load_qhd (ehci_data s) p_qhd;
  match p_qtd_list_head q with
  | None =>
      modify_qhd s p_qhd (fun q =>
        set_qtd_overlay
          (set_qtd_next
             (link_set_address (qtd_address p_qtd_new)
                               (qtd_next (qtd_overlay q)))
             (qtd_overlay q))
          (set_p_qtd_list_head (Some p_qtd_new)
             (set_p_qtd_list_tail (Some p_qtd_new) q)))
  | Some _ =>
      p_tail ← p_qtd_list_tail q;
      s1 ← modify_qtd s p_tail (fun t =>
              set_qtd_next
                (link_set_address (qtd_address p_qtd_new) (qtd_next t)) t);
      modify_qhd s1 p_qhd (set_p_qtd_list_tail (Some p_qtd_new))
  end.

(** The value [qhd_init] leaves in [*p_qhd], from its old content [old]
    and the device table entry [dev] of [dev_addr]: address 0 uses the
    asynchronous head, which is always on the list and is not cleared. *)
Definition qhd_init_value (old : ehci_qhd_t) (dev : usbh_device_info_t)
  (dev_addr max_packet_size endpoint_addr xfer_type : Z) : ehci_qhd_t :=
  let q := if dev_addr =? 0 then old else qhd_zero in
  let is_control := xfer_type =? TUSB_XFER_CONTROL in
  let is_interrupt := xfer_type =? TUSB_XFER_INTERRUPT in
  let is_high := speed dev =? TUSB_SPEED_HIGH in
  {| qhd_next := qhd_next q;
     device_address := bitfield 7 dev_addr;
     non_hs_period_inactive_next_xact := 0;
     endpoint_number := bitfield 4 (Z.land endpoint_addr 0x0F);
     endpoint_speed := bitfield 2 (speed dev);
     data_toggle_control := if is_control then 1 else 0;
     head_list_flag := if dev_addr =? 0 then 1 else 0;
     max_package_size := bitfield 11 max_packet_size;
     non_hs_control_endpoint :=
       if is_control && negb is_high then 1 else 0;
     nak_count_reload := 0;
     interrupt_smask :=
       if is_interrupt then (if is_high then 0xFF else 0x01) else 0;
     non_hs_interrupt_cmask := if is_interrupt then 28 else 0;
     hub_address := bitfield 7 (hub_addr dev);
     hub_port := bitfield 7 (hub_port_of dev);
     mult := 1;
     qtd_addr := qtd_addr q;
     qtd_overlay :=
       set_qtd_alternate
         (link_set_terminate 1 (qtd_alternate (qtd_overlay q)))
         (set_qtd_next (link_set_terminate 1 (qtd_next (qtd_overlay q)))
            (set_halted 0 (qtd_overlay q)));
     qhd_used := 1;
     is_removing := 0;
     pid_non_control :=
       if Z.land endpoint_addr 0x80 =? 0 then EHCI_PID_OUT else EHCI_PID_IN;
     class_code := class_code q;
     p_qtd_list_head := None;
     p_qtd_list_tail := None |}.

Definition qhd_init (s : hcd_state) (p_qhd : qhd_ptr)
  (dev_addr max_packet_size endpoint_addr xfer_type : Z) : option hcd_state :=
  dev ← usbh_devices s !! Z.to_nat dev_addr;
  modify_qhd s p_qhd (fun old =>
    qhd_init_value old dev dev_addr max_packet_size endpoint_addr xfer_type).

Definition qtd_init (s : hcd_state) (p_qtd : qtd_ptr)
  (data_ptr total_bytes : Z) : option hcd_state :=
  modify_qtd s p_qtd (fun _ => qtd_init_value data_ptr total_bytes).

(** The two link pointers are the [next] words of the queue heads they are
    cast from. *)
Definition list_insert (s : hcd_state) (current new : qhd_ptr)
  (new_type : Z) : option hcd_state :=
  c ← load_qhd (ehci_data s) current;
  s1 ← modify_qhd s new (fun n =>
          set_qhd_next (link_set_address (qhd_next c) (qhd_next n)) n);
  modify_qhd s1 current (fun c =>
    set_qhd_next
      (link_set_address (Z.lor (qhd_address new) (Z.shiftl new_type 1))
                        (qhd_next c)) c).

(** The walk of [list_find_previous_qhd]; [fuel] bounds the number of
    loop tests, and the result is the [p_prev_qhd] the loop stops at. *)
Fixpoint list_find_previous_qhd_walk (fuel : nat) (s : hcd_state)
  (p_head p_qhd p_prev_qhd : qhd_ptr) : option qhd_ptr :=
  match fuel with
  | O => None
  | S fuel' =>
      prev ← load_qhd (ehci_data s) p_prev_qhd;
      if decide (align32 (qhd_next prev) ≠ qhd_address p_head ∧
                 align32 (qhd_next prev) ≠ qhd_address p_qhd)
      then p_next ← qhd_of_address (align32 (qhd_next prev));
           list_find_previous_qhd_walk fuel' s p_head p_qhd p_next
      else Some p_prev_qhd
  end.

Definition list_find_previous_qhd (fuel : nat) (s : hcd_state)
  (p_head p_qhd : qhd_ptr) : option (option qhd_ptr) :=
  p_prev_qhd ← list_find_previous_qhd_walk fuel s p_head p_qhd p_head;
  prev ← load_qhd (ehci_data s) p_prev_qhd;
  Some (if decide (align32 (qhd_next prev) ≠ qhd_address p_head)
        then Some p_prev_qhd else None).

Definition list_remove_qhd (fuel : nat) (s : hcd_state)
  (p_head p_qhd_remove : qhd_ptr) : option (tusb_error_t * hcd_state) :=
  r ← list_find_previous_qhd fuel s p_head p_qhd_remove;
  match r with
  | None => Some (TUSB_ERROR_INVALID_PARA, s)
  | Some p_prev_qhd =>
      rem ← load_qhd (ehci_data s) p_qhd_remove;
      s1 ← modify_qhd s p_prev_qhd (fun p =>
              set_qhd_next (link_set_address (qhd_next rem) (qhd_next p)) p);
      s2 ← modify_qhd s1 p_qhd_remove (fun r =>
              set_qhd_next
                (link_set_address (qhd_address p_head) (qhd_next r)) r);
      s3 ← modify_qhd s2 p_qhd_remove (fun r =>
              set_qhd_next
                (link_set_type EHCI_QUEUE_ELEMENT_QHD (qhd_next r)) r);
      Some (TUSB_ERROR_NONE, s3)
  end.

(** *** Controller API

    The part of [hcd_controller_init] that writes [ehci_data]; the
    operational registers and the periodic frame list are not part of the
    state modelled here. *)

Definition hcd_controller_init (s : hcd_state) (hostid : Z)
  : option (tusb_error_t * hcd_state) :=
  let async_head := get_async_head hostid in
  s ← modify_qhd s async_head (fun _ => qhd_zero);
  s ← modify_qhd s async_head (fun q =>
         set_qhd_next
           (link_set_address (qhd_address async_head) (qhd_next q)) q);
  s ← modify_qhd s async_head (fun q =>
         set_qhd_next (link_set_type EHCI_QUEUE_ELEMENT_QHD (qhd_next q)) q);
  s ← modify_qhd s async_head (set_head_list_flag 1);
  s ← modify_qhd s async_head (fun q =>
         set_qtd_overlay (set_halted 1 (qtd_overlay q)) q);
  s ← modify_qhd s async_head (fun q =>
         set_qtd_overlay
           (set_qtd_next (link_set_terminate 1 (qtd_next (qtd_overlay q)))
                         (qtd_overlay q)) q);
  s ← (if EHCI_PERIODIC_LIST cfg then
         let period_head := get_period_head hostid in
         s ← modify_qhd s period_head (set_interrupt_smask 1);
         s ← modify_qhd s period_head (fun q =>
                set_qhd_next (link_set_terminate 1 (qhd_next q)) q);
         modify_qhd s period_head (fun q =>
           set_qtd_overlay (set_halted 1 (qtd_overlay q)) q)
       else Some s);
  Some (TUSB_ERROR_NONE, s).

(** [memclr_(&ehci_data, sizeof(ehci_data_t))]. *)
Definition ehci_data_zero : ehci_data_t :=
  {| async_head := replicate (CONTROLLER_HOST_NUMBER cfg) qhd_zero;
     addr0_qtd := replicate 3 qtd_zero;
     period_head := replicate (CONTROLLER_HOST_NUMBER cfg) qhd_zero;
     device :=
       replicate (TUSB_CFG_HOST_DEVICE_MAX cfg)
         {| control_qhd := qhd_zero;
            control_qtd := replicate 3 qtd_zero;
            dev_qhd := replicate (EHCI_MAX_QHD cfg) qhd_zero;
            dev_qtd := replicate (EHCI_MAX_QTD cfg) qtd_zero |} |}.

Definition hcd_init (s : hcd_state) : option (tusb_error_t * hcd_state) :=
  let s := set_ehci_data ehci_data_zero s in
  '(e, s) ← (if TUSB_CFG_CONTROLLER0_HOST cfg then hcd_controller_init s 0
             else Some (TUSB_ERROR_NONE, s));
  match e with
  | TUSB_ERROR_NONE =>
      '(e, s) ← (if TUSB_CFG_CONTROLLER1_HOST cfg
                 then hcd_controller_init s 1
                 else Some (TUSB_ERROR_NONE, s));
      match e with
      | TUSB_ERROR_NONE => Some (TUSB_ERROR_NONE, s)
      | _ => Some (e, s)
      end
  | _ => Some (e, s)
  end.

(** *** Control pipe API *)

Definition hcd_pipe_control_open (s : hcd_state) (dev_addr max_packet_size : Z)
  : option (tusb_error_t * hcd_state) :=
  p_qhd ← get_control_qhd s dev_addr;
  s ← qhd_init s p_qhd dev_addr max_packet_size 0 TUSB_XFER_CONTROL;
  s ← (if dev_addr =? 0 then Some s
       else d ← usbh_devices s !! Z.to_nat dev_addr;
            list_insert s (get_async_head (core_id d)) p_qhd
                        EHCI_QUEUE_ELEMENT_QHD);
  Some (TUSB_ERROR_NONE, s).

Definition hcd_pipe_control_xfer (s : hcd_state) (dev_addr : Z)
  (p_request : tusb_std_request_t) (data : Z)
  : option (tusb_error_t * hcd_state) :=
  p_qhd ← get_control_qhd s dev_addr;
  let p_setup := get_control_qtds dev_addr in
  let p_data := qtd_ptr_add p_setup 1 in
  let p_status := qtd_ptr_add p_setup 2 in
  (* SETUP phase *)
  s ← qtd_init s p_setup (request_address p_request) 8;
  s ← modify_qtd s p_setup (set_pid EHCI_PID_SETUP);
  s ← modify_qtd s p_setup (fun q =>
         set_qtd_next (link_set_address (qtd_address p_data) (qtd_next q)) q);
  (* DATA phase *)
  '(s, p_data) ←
     (if 0 <? wLength p_request then
        s ← qtd_init s p_data data (wLength p_request);
        s ← modify_qtd s p_data (set_data_toggle 1);
        s ← modify_qtd s p_data
              (set_pid (if bmRequestType_direction p_request =? 0
                        then EHCI_PID_OUT else EHCI_PID_IN));
        Some (s, p_data)
      else Some (s, p_setup));
  s ← modify_qtd s p_data (fun q =>
         set_qtd_next (link_set_address (qtd_address p_status) (qtd_next q)) q);
  (* STATUS phase *)
  s ← qtd_init s p_status 0 0;
  s ← modify_qtd s p_status (set_int_on_complete 1);
  s ← modify_qtd s p_status (set_data_toggle 1);
  s ← modify_qtd s p_status
        (set_pid (if bmRequestType_direction p_request =? 0
                  then EHCI_PID_IN else EHCI_PID_OUT));
  s ← modify_qtd s p_status (fun q =>
         set_qtd_next (link_set_terminate 1 (qtd_next q)) q);
  (* attach the TD list to the control endpoint *)
  s ← modify_qhd s p_qhd (set_p_qtd_list_head (Some p_setup));
  s ← modify_qhd s p_qhd (set_p_qtd_list_tail (Some p_status));
  s ← modify_qhd s p_qhd (fun q =>
         set_qtd_overlay
           (set_qtd_next
              (link_set_address (qtd_address p_setup)
                                (qtd_next (qtd_overlay q)))
              (qtd_overlay q)) q);
  Some (TUSB_ERROR_NONE, s).

Definition hcd_pipe_control_close (fuel : nat) (s : hcd_state) (dev_addr : Z)
  : option (tusb_error_t * hcd_state) :=
  p_qhd ← get_control_qhd s dev_addr;
  s ← modify_qhd s p_qhd (set_is_removing 1);
  if dev_addr =? 0 then Some (TUSB_ERROR_NONE, s)
  else
    d ← usbh_devices s !! Z.to_nat dev_addr;
    list_remove_qhd fuel s (get_async_head (core_id d)) p_qhd.

(** *** Bulk and interrupt pipe API *)

Definition hcd_pipe_open (s : hcd_state) (dev_addr : Z)
  (p_endpoint_desc : tusb_descriptor_endpoint_t) (class_code : Z)
  : option (pipe_handle_t * hcd_state) :=
  if negb (0 <? dev_addr) then Some (null_handle, s)
  else if bmAttributes_xfer p_endpoint_desc =? TUSB_XFER_ISOCHRONOUS
  then Some (null_handle, s)
  else
    r ← qhd_find_free s dev_addr;
    match r with
    | None => Some (null_handle, s)
    | Some p_qhd =>
        s ← qhd_init s p_qhd dev_addr (wMaxPacketSize_size p_endpoint_desc)
                     (bEndpointAddress p_endpoint_desc)
                     (bmAttributes_xfer p_endpoint_desc);
        s ← modify_qhd s p_qhd (set_class_code class_code);
        d ← usbh_devices s !! Z.to_nat dev_addr;
        (* [list_head] stays uninitialised for any other transfer type *)
        list_head ←
          (if bmAttributes_xfer p_endpoint_desc =? TUSB_XFER_BULK
           then Some (get_async_head (core_id d))
           else if bmAttributes_xfer p_endpoint_desc =? TUSB_XFER_INTERRUPT
           then Some (get_period_head (core_id d))
           else None);
        s ← list_insert s list_head p_qhd EHCI_QUEUE_ELEMENT_QHD;
        index ← qhd_get_index s p_qhd;
        Some ({| hdl_dev_addr := dev_addr;
                 hdl_xfer_type := bmAttributes_xfer p_endpoint_desc;
                 hdl_index := index |}, s)
    end.

Definition hcd_pipe_xfer (s : hcd_state) (pipe_hdl : pipe_handle_t)
  (buffer total_bytes : Z) (int_on_complete : bool)
  : option (tusb_error_t * hcd_state) :=
  p_qhd ← qhd_get_from_pipe_handle pipe_hdl;
  r ← qtd_find_free s (hdl_dev_addr pipe_hdl);
  match r with
  | None => Some (TUSB_ERROR_EHCI_NOT_ENOUGH_QTD, s)
  | Some p_qtd =>
      s ← qtd_init s p_qtd buffer total_bytes;
      qhd ← load_qhd (ehci_data s) p_qhd;
      s ← modify_qtd s p_qtd (set_pid (pid_non_control qhd));
      s ← modify_qtd s p_qtd
            (set_int_on_complete (if int_on_complete then 1 else 0));
      (* PING for high-speed bulk OUT, EHCI section 4.11 *)
      qhd ← load_qhd (ehci_data s) p_qhd;
      qtd ← load_qtd (ehci_data s) p_qtd;
      s ← (if (hdl_xfer_type pipe_hdl =? TUSB_XFER_BULK) &&
              (endpoint_speed qhd =? TUSB_SPEED_HIGH) &&
              (pid qtd =? EHCI_PID_OUT)
           then modify_qtd s p_qtd (set_pingstate_err 1)
           else Some s);
      s ← qtd_insert_to_qhd s p_qhd p_qtd;
      Some (TUSB_ERROR_NONE, s)
  end.

Definition hcd_pipe_close (fuel : nat) (s : hcd_state)
  (pipe_hdl : pipe_handle_t) : option (tusb_error_t * hcd_state) :=
  if negb (0 <? hdl_dev_addr pipe_hdl) then Some (TUSB_ERROR_INVALID_PARA, s)
  else if hdl_xfer_type pipe_hdl =? TUSB_XFER_ISOCHRONOUS
  then Some (TUSB_ERROR_INVALID_PARA, s)
  else
    p_qhd ← qhd_get_from_pipe_handle pipe_hdl;
    s ← modify_qhd s p_qhd (set_is_removing 1);
    d ← usbh_devices s !! Z.to_nat (hdl_dev_addr pipe_hdl);
    if hdl_xfer_type pipe_hdl =? TUSB_XFER_BULK
    then list_remove_qhd fuel s (get_async_head (core_id d)) p_qhd
    else list_remove_qhd fuel s (get_period_head (core_id d)) p_qhd.

(** *** Interrupt handler: async advance *)

(** [for (i = start; i < start + count; i++) body(i)]. *)
Fixpoint for_loop (start count : nat)
  (body : nat -> hcd_state -> option hcd_state) (s : hcd_state)
  : option hcd_state :=
  match count with
  | O => Some s
  | S count' => s' ← body start s; for_loop (S start) count' body s'
  end.

(** The body of the device loop of [async_advance_isr]. *)
Definition async_advance_device (relative_dev_addr : nat) (s : hcd_state)
  : option hcd_state :=
  p_control_qhd ← load_qhd (ehci_data s) (ControlQhd relative_dev_addr);
  if is_removing p_control_qhd =? 0 then Some s
  else
    s ← modify_qhd s (ControlQhd relative_dev_addr) (set_is_removing 0);
    s ← modify_qhd s (ControlQhd relative_dev_addr) (set_qhd_used 0);
    d ← usbh_devices s !! S relative_dev_addr;
    let s :=
      set_usbh_devices
        (<[S relative_dev_addr := set_state TUSB_DEVICE_STATE_UNPLUG d]>
           (usbh_devices s)) s in
    s ← for_loop 0 (EHCI_MAX_QHD cfg) (fun i s =>
           s ← modify_qhd s (PoolQhd relative_dev_addr i) (set_qhd_used 0);
           modify_qhd s (PoolQhd relative_dev_addr i) (set_is_removing 0)) s;
    for_loop 0 (EHCI_MAX_QTD cfg) (fun i s =>
      modify_qtd s (PoolQtd relative_dev_addr i) (set_qtd_used 0)) s.

Definition async_advance_isr (s : hcd_state) (async_head : qhd_ptr)
  : option hcd_state :=
  h ← load_qhd (ehci_data s) async_head;
  s ← (if is_removing h =? 0 then Some s
       else
         s ← modify_qhd s async_head (set_is_removing 0);
         s ← modify_qhd s async_head (set_p_qtd_list_tail None);
         s ← modify_qhd s async_head (set_p_qtd_list_head None);
         modify_qhd s async_head (fun h =>
           set_qtd_overlay (set_halted 1 (qtd_overlay h)) h));
  for_loop 0 (TUSB_CFG_HOST_DEVICE_MAX cfg) async_advance_device s.

(** *** Interrupt handler: completed transfers and transfer errors *)

(** The cast [(ehci_qtd_t* ) align32(address)]: NULL for address 0, else
    the qTD placed there. *)
Definition qtd_of_address (a : Z) : option qtd_ptr :=
  list_find (fun p => qtd_address p = a) (all_qtd_ptrs cfg) ≫= fun r =>
  Some r.2.

Definition qtd_ptr_of_link (l : Z) : option (option qtd_ptr) :=
  if align32 l =? 0 then Some None
  else p ← qtd_of_address (align32 l); Some (Some p).

Definition qtd_remove_1st_from_qhd (s : hcd_state) (p_qhd : qhd_ptr)
  : option hcd_state :=
  q ← load_qhd (ehci_data s) p_qhd;
  if decide (p_qtd_list_head q = p_qtd_list_tail q) then
    s ← modify_qhd s p_qhd (set_p_qtd_list_tail None);
    modify_qhd s p_qhd (set_p_qtd_list_head None)
  else
    p_head ← p_qtd_list_head q;
    td ← load_qtd (ehci_data s) p_head;
    p_next ← qtd_ptr_of_link (qtd_next td);
    modify_qhd s p_qhd (set_p_qtd_list_head p_next).

(** The pipe handle the handler builds for [p_qhd]: the device address
    alone for a control endpoint, else [xfer_type] and the pool index. *)
Definition isr_pipe_handle (s : hcd_state) (p_qhd : qhd_ptr) (xfer_type : Z)
  : option pipe_handle_t :=
  q ← load_qhd (ehci_data s) p_qhd;
  if endpoint_number q =? 0
  then Some {| hdl_dev_addr := device_address q; hdl_xfer_type := 0;
               hdl_index := 0 |}
  else index ← qhd_get_index s p_qhd;
       Some {| hdl_dev_addr := device_address q; hdl_xfer_type := xfer_type;
               hdl_index := index |}.

(** [while (p_qhd->p_qtd_list_head != NULL &&
            !p_qhd->p_qtd_list_head->active) ...]: frees the qTDs from the
    head of the list up to the first active one. *)
Fixpoint retire_qtds (fuel : nat) (xfer_type : Z) (s : hcd_state)
  (p_qhd : qhd_ptr) : option (hcd_state * list usbh_isr_call) :=
  match fuel with
  | O => None
  | S fuel' =>
      q ← load_qhd (ehci_data s) p_qhd;
      match p_qtd_list_head q with
      | None => Some (s, [])
      | Some p_td =>
          td ← load_qtd (ehci_data s) p_td;
          if active td =? 0 then
            calls ← (if int_on_complete td =? 0 then Some []
                     else pipe_hdl ← isr_pipe_handle s p_qhd xfer_type;
                          Some [ {| isr_pipe_hdl := pipe_hdl;
                                    isr_class_code := class_code q;
                                    isr_event := BUS_EVENT_XFER_COMPLETE |} ]);
            s ← modify_qtd s p_td (set_qtd_used 0);
            s ← qtd_remove_1st_from_qhd s p_qhd;
            '(s, rest) ← retire_qtds fuel' xfer_type s p_qhd;
            Some (s, calls ++ rest)
          else Some (s, [])
      end
  end.

(** What both list walks do with one queue head. *)
Definition process_qhd_isr (td_fuel : nat) (xfer_type : Z) (s : hcd_state)
  (p_qhd : qhd_ptr) : option (hcd_state * list usbh_isr_call) :=
  q ← load_qhd (ehci_data s) p_qhd;
  if halted (qtd_overlay q) =? 0
  then retire_qtds td_fuel xfer_type s p_qhd
  else Some (s, []).

(** The [do ... while] of [async_list_process_isr], entered at [p_qhd]
    with the counter [max_loop]. *)
Fixpoint async_list_process_isr_loop (fuel td_fuel : nat) (s : hcd_state)
  (async_head p_qhd : qhd_ptr) (max_loop : Z)
  : option (hcd_state * list usbh_isr_call) :=
  match fuel with
  | O => None
  | S fuel' =>
      '(s, calls) ← process_qhd_isr td_fuel TUSB_XFER_BULK s p_qhd;
      q ← load_qhd (ehci_data s) p_qhd;
      p_next ← qhd_of_address (align32 (qhd_next q));
      let max_loop := uint8 (max_loop + 1) in
      if decide (p_next ≠ async_head ∧
                 max_loop <= Z.of_nat (EHCI_MAX_QHD cfg))
      then '(s, rest) ← async_list_process_isr_loop fuel' td_fuel s
                          async_head p_next max_loop;
           Some (s, calls ++ rest)
      else Some (s, calls)
  end.

Definition async_list_process_isr (fuel td_fuel : nat) (s : hcd_state)
  (async_head : qhd_ptr) : option (hcd_state * list usbh_isr_call) :=
  async_list_process_isr_loop fuel td_fuel s async_head async_head 0.

(** The [while] loop of [period_list_process_isr], entered with
    [next_item] and the counter [max_loop].  [EHCI_MAX_ITD] and
    [EHCI_MAX_SITD] are constants of ehci.h, which is not part of the
    sources: they are parameters here.  An element that is not a queue
    head fails the [ASSERT], which returns from the handler. *)
Fixpoint period_list_process_isr_loop (fuel td_fuel : nat)
  (EHCI_MAX_ITD EHCI_MAX_SITD : nat) (s : hcd_state) (next_item : Z)
  (max_loop : Z) : option (hcd_state * list usbh_isr_call) :=
  match fuel with
  | O => None
  | S fuel' =>
      if (link_terminate next_item =? 0) &&
         (max_loop <? Z.of_nat (EHCI_MAX_QHD cfg + EHCI_MAX_ITD
                                + EHCI_MAX_SITD))
      then
        if link_type next_item =? EHCI_QUEUE_ELEMENT_QHD then
          p_qhd_int ← qhd_of_address (align32 next_item);
          '(s, calls) ← process_qhd_isr td_fuel TUSB_XFER_INTERRUPT s
                          p_qhd_int;
          q ← load_qhd (ehci_data s) p_qhd_int;
          '(s, rest) ← period_list_process_isr_loop fuel' td_fuel
                          EHCI_MAX_ITD EHCI_MAX_SITD s (qhd_next q)
                          (uint8 (max_loop + 1));
          Some (s, calls ++ rest)
        else Some (s, [])
      else Some (s, [])
  end.

Definition period_list_process_isr (fuel td_fuel : nat)
  (EHCI_MAX_ITD EHCI_MAX_SITD : nat) (s : hcd_state) (period_head : qhd_ptr)
  : option (hcd_state * list usbh_isr_call) :=
  h ← load_qhd (ehci_data s) period_head;
  period_list_process_isr_loop fuel td_fuel EHCI_MAX_ITD EHCI_MAX_SITD s
    (qhd_next h) 0.

(** The body of the loop of [xfer_error_isr]: the call of [usbh_isr] made
    for [p_qhd], if its overlay shows an error. *)
Definition xfer_error_qhd (s : hcd_state) (p_qhd : qhd_ptr)
  : option (list usbh_isr_call) :=
  q ← load_qhd (ehci_data s) p_qhd;
  if negb (buffer_err (qtd_overlay q) =? 0) ||
     negb (babble_err (qtd_overlay q) =? 0) ||
     negb (xact_err (qtd_overlay q) =? 0) ||
     (negb (device_address q =? 0) && negb (halted (qtd_overlay q) =? 0))
  then pipe_hdl ← isr_pipe_handle s p_qhd TUSB_XFER_BULK;
       Some [ {| isr_pipe_hdl := pipe_hdl;
                 isr_class_code := class_code q;
                 isr_event := BUS_EVENT_XFER_ERROR |} ]
  else Some [].

(** The walk of [xfer_error_isr] over the asynchronous list; it only
    reads the queue heads. *)
Fixpoint xfer_error_isr_loop (fuel : nat) (s : hcd_state)
  (async_head p_qhd : qhd_ptr) : option (list usbh_isr_call) :=
  match fuel with
  | O => None
  | S fuel' =>
      calls ← xfer_error_qhd s p_qhd;
      q ← load_qhd (ehci_data s) p_qhd;
      p_next ← qhd_of_address (align32 (qhd_next q));
      if decide (p_next ≠ async_head)
      then rest ← xfer_error_isr_loop fuel' s async_head p_next;
           Some (calls ++ rest)
      else Some calls
  end.

Definition xfer_error_isr (fuel : nat) (s : hcd_state) (hostid : Z)
  : option (list usbh_isr_call) :=
  xfer_error_isr_loop fuel s (get_async_head hostid) (get_async_head hostid).

End Driver.

(** ** Controller stop and reset

    The two functions write a command bit ([run_stop = 0], [reset = 1])
    and then poll a register bit of the controller under a timeout.  The
    hardware and the timer (timeout_timer.h is not part of
    the sources) are the environment: [usb_sts_hc_halted k] and
    [usb_cmd_reset k] are the values of the k-th read of the polled bit
    after the command bit was written, and [timer_expired msec k] is the
    answer of the k-th call of [timeout_expired] on a timer set to [msec]
    milliseconds. *)

Record hw_env : Type := mk_hw_env {
  usb_sts_hc_halted : nat -> Z;
  usb_cmd_reset : nat -> Z;
  timer_expired : Z -> nat -> bool
}.

Record timeout_timer_t : Type := mk_timeout { interval : Z }.

Definition timeout_set (msec : Z) : timeout_timer_t := {| interval := msec |}.

Definition timeout_expired (env : hw_env) (tt : timeout_timer_t) (k : nat)
  : bool :=
  timer_expired env (interval tt) k.

(** [while (busy && !timeout_expired(&timeout)) {}] from its [i]-th turn
    on; the result is the number of calls of [timeout_expired] the loop
    has made when it exits. *)
Fixpoint wait_while (fuel : nat) (busy expired : nat -> bool) (i : nat)
  : option nat :=
  match fuel with
  | O => None
  | S fuel' =>
      if busy i
      then if expired i then Some (S i)
           else wait_while fuel' busy expired (S i)
      else Some i
  end.

Definition hcd_controller_stop (fuel : nat) (env : hw_env)
  : option tusb_error_t :=
  let timeout := timeout_set 2 in
  c ← wait_while fuel (fun i => usb_sts_hc_halted env i =? 0)
                 (timeout_expired env timeout) 0;
  Some (if timeout_expired env timeout c
        then TUSB_ERROR_OSAL_TIMEOUT else TUSB_ERROR_NONE).

Definition hcd_controller_reset (fuel : nat) (env : hw_env)
  : option tusb_error_t :=
  let timeout := timeout_set 2 in
  c ← wait_while fuel (fun i => negb (usb_cmd_reset env i =? 0))
                 (timeout_expired env timeout) 0;
  Some (if timeout_expired env timeout c
        then TUSB_ERROR_OSAL_TIMEOUT else TUSB_ERROR_NONE).

(** ** A concrete configuration

    Two controllers, two device slots, pools of two queue heads and three
    qTDs, with [ehci_data] placed at the start of the USB RAM bank
    (0x2000C000): queue heads take 64 bytes and qTDs 32, in the order of
    the fields of [ehci_data_t]. *)

Definition lpc_cfg : hcd_config :=
  {| CONTROLLER_HOST_NUMBER := 2; TUSB_CFG_HOST_DEVICE_MAX := 2;
     EHCI_MAX_QHD := 2; EHCI_MAX_QTD := 3; EHCI_PERIODIC_LIST := true;
     TUSB_CFG_CONTROLLER0_HOST := true; TUSB_CFG_CONTROLLER1_HOST := true |}.

Definition lpc_device_base (d : nat) : Z := 0x2000C000 + 352 + 448 * Z.of_nat d.

Definition lpc_qhd_address (p : qhd_ptr) : Z :=
  match p with
  | AsyncHead h => 0x2000C000 + 64 * Z.of_nat h
  | PeriodHead h => 0x2000C000 + 224 + 64 * Z.of_nat h
  | ControlQhd d => lpc_device_base d
  | PoolQhd d i => lpc_device_base d + 160 + 64 * Z.of_nat i
  end.

Definition lpc_qtd_address (p : qtd_ptr) : Z :=
  match p with
  | Addr0Qtd i => 0x2000C000 + 128 + 32 * Z.of_nat i
  | ControlQtd d i => lpc_device_base d + 64 + 32 * Z.of_nat i
  | PoolQtd d i => lpc_device_base d + 288 + 32 * Z.of_nat i
  end.

#[global, refine] Instance lpc_layout : Layout lpc_cfg :=
  {| qhd_address := lpc_qhd_address; qtd_address := lpc_qtd_address |}.
Proof.
  - intros [h|h|d|d i]; cbn; unfold lpc_device_base;
      change (2 ^ 32) with 4294967296; lia.
  - intros p Hp.
    destruct p as [h|h|d|d i]; cbn in Hp;
      repeat match goal with
             | n : nat |- _ => destruct n as [|n]; [|try (exfalso; lia)]
             end; reflexivity.
  - intros [h|h|d|d i] [h'|h'|d'|d' i']; cbn; unfold lpc_device_base;
      intros; try lia; f_equal; lia.
  - intros [i|d i|d i]; cbn; unfold lpc_device_base;
      change (2 ^ 32) with 4294967296; lia.
  - intros p Hp.
    destruct p as [i|d i|d i]; cbn in Hp;
      repeat match goal with
             | n : nat |- _ => destruct n as [|n]; [|try (exfalso; lia)]
             end; reflexivity.
Defined.

(** The state [hcd_init] leaves behind in the data structures: everything
    cleared, then each asynchronous head made a one-element circular list,
    halted and flagged as head of the list, and each periodic head a
    halted, terminated dummy. *)
Definition lpc_async_head0 (h : nat) : ehci_qhd_t :=
  set_qtd_overlay
    (set_qtd_next (link_set_terminate 1 0) (set_halted 1 qtd_zero))
    (set_head_list_flag 1
       (set_qhd_next (Z.lor (lpc_qhd_address (AsyncHead h)) 2) qhd_zero)).

Definition lpc_period_head0 : ehci_qhd_t :=
  set_qtd_overlay (set_halted 1 qtd_zero)
    (set_qhd_next 1 (set_interrupt_smask 1 qhd_zero)).

Definition lpc_device0 : ehci_device_t :=
  {| control_qhd := qhd_zero; control_qtd := [qtd_zero; qtd_zero; qtd_zero];
     dev_qhd := [qhd_zero; qhd_zero];
     dev_qtd := [qtd_zero; qtd_zero; qtd_zero] |}.

Definition lpc_usbh_device (sp : Z) : usbh_device_info_t :=
  {| core_id := 0; hub_addr := 0; hub_port_of := 0; speed := sp;
     state := TUSB_DEVICE_STATE_UNPLUG |}.

Definition lpc_state0 : hcd_state :=
  {| ehci_data :=
       {| async_head := [lpc_async_head0 0; lpc_async_head0 1];
          addr0_qtd := [qtd_zero; qtd_zero; qtd_zero];
          period_head := [lpc_period_head0; lpc_period_head0];
          device := [lpc_device0; lpc_device0] |};
     usbh_devices :=
       [lpc_usbh_device TUSB_SPEED_FULL; lpc_usbh_device TUSB_SPEED_HIGH;
        lpc_usbh_device TUSB_SPEED_FULL] |}.


(** Device address 1 with its control pipe open and a high-speed bulk OUT
    pipe (endpoint 2, class code 8) opened on it. *)
Definition lpc_bulk_out_desc : tusb_descriptor_endpoint_t :=
  {| bEndpointAddress := 0x02; bmAttributes_xfer := TUSB_XFER_BULK;
     wMaxPacketSize_size := 512 |}.

Definition lpc_state_control : hcd_state :=
  default lpc_state0 (snd <$> hcd_pipe_control_open lpc_cfg lpc_state0 1 64).

Definition lpc_bulk_handle : pipe_handle_t :=
  {| hdl_dev_addr := 1; hdl_xfer_type := TUSB_XFER_BULK; hdl_index := 0 |}.

Definition lpc_state_bulk : hcd_state :=
  default lpc_state0
    (snd <$> hcd_pipe_open lpc_cfg lpc_state_control 1 lpc_bulk_out_desc 8).

(** The same, with the control pipe of device address 1 closed. *)
Definition lpc_state_closing : hcd_state :=
  default lpc_state0
    (snd <$> hcd_pipe_control_close lpc_cfg 8 lpc_state_bulk 1).

(** [lpc_state0] with every qTD of the pool of device address 1 in use. *)
Definition lpc_state_full : hcd_state :=
  set_ehci_data
    (set_device
       (alter (fun dv => set_dev_qtd (set_qtd_used 1 <$> dev_qtd dv) dv)
              0%nat (device (ehci_data lpc_state0)))
       (ehci_data lpc_state0))
    lpc_state0.

(** [lpc_state0] with every queue head of the pool of device address 1 in
    use. *)
Definition lpc_state_qhd_full : hcd_state :=
  set_ehci_data
    (set_device
       (alter (fun dv => set_dev_qhd (set_qhd_used 1 <$> dev_qhd dv) dv)
              0%nat (device (ehci_data lpc_state0)))
       (ehci_data lpc_state0))
    lpc_state0.

(** ** Total updates

    [upd_qtd s p f] is the state after [*p = f( *p)] when [p] designates a
    qTD of [s]; [modify_qtd] is this update guarded by the validity of the
    pointer. *)

Definition upd_qtd (s : hcd_state) (p : qtd_ptr)
  (f : ehci_qtd_t -> ehci_qtd_t) : hcd_state :=
  match load_qtd (ehci_data s) p with
  | Some q => set_ehci_data (store_qtd (ehci_data s) p (f q)) s
  | None => s
  end.

Definition upd_qhd (s : hcd_state) (p : qhd_ptr)
  (f : ehci_qhd_t -> ehci_qhd_t) : hcd_state :=
  match load_qhd (ehci_data s) p with
  | Some q => set_ehci_data (store_qhd (ehci_data s) p (f q)) s
  | None => s
  end.

(** Device address 1 with its control pipe open and an interrupt IN pipe
    (endpoint 1, class code 3) opened on it. *)
Definition lpc_int_in_desc : tusb_descriptor_endpoint_t :=
  {| bEndpointAddress := 0x81; bmAttributes_xfer := TUSB_XFER_INTERRUPT;
     wMaxPacketSize_size := 8 |}.

Definition lpc_int_handle : pipe_handle_t :=
  {| hdl_dev_addr := 1; hdl_xfer_type := TUSB_XFER_INTERRUPT;
     hdl_index := 0 |}.

Definition lpc_state_int : hcd_state :=
  default lpc_state0
    (snd <$> hcd_pipe_open lpc_cfg lpc_state_control 1 lpc_int_in_desc 3).

(** [lpc_state_bulk] with a 512-byte transfer queued on the bulk pipe,
    and the same once the controller has finished its qTD. *)
Definition lpc_state_xfer : hcd_state :=
  default lpc_state0
    (snd <$> hcd_pipe_xfer lpc_cfg lpc_state_bulk lpc_bulk_handle
                           0x10000000 512 true).

Definition lpc_state_xfer_done : hcd_state :=
  upd_qtd lpc_state_xfer (PoolQtd 0 0) (set_active 0).

(** A controller that halts at the fourth poll, never leaves reset, and a
    timer that reports expiry from its sixth check on. *)
Definition slow_env : hw_env :=
  {| usb_sts_hc_halted := fun k => if (k <? 3)%nat then 0 else 1;
     usb_cmd_reset := fun _ => 1;
     timer_expired := fun msec k => (5 <=? k)%nat |}.

(** ** Predicates of the statements *)

(** Device slot [d] has been reclaimed in [s']. *)
Definition device_freed (s' : hcd_state) (d : nat) : Prop :=
  (exists c', load_qhd (ehci_data s') (ControlQhd d) = Some c' ∧
              qhd_used c' = 0 ∧ is_removing c' = 0) ∧
  (exists dev, usbh_devices s' !! S d = Some dev ∧
               state dev = TUSB_DEVICE_STATE_UNPLUG) ∧
  (forall i q, load_qhd (ehci_data s') (PoolQhd d i) = Some q ->
               qhd_used q = 0 ∧ is_removing q = 0) ∧
  (forall i t, load_qtd (ehci_data s') (PoolQtd d i) = Some t ->
               qtd_used t = 0).

(** Nothing of device slot [d] differs between [s] and [s']. *)
Definition device_untouched (s s' : hcd_state) (d : nat) : Prop :=
  load_qhd (ehci_data s') (ControlQhd d)
    = load_qhd (ehci_data s) (ControlQhd d) ∧
  (forall i, load_qhd (ehci_data s') (PoolQhd d i)
             = load_qhd (ehci_data s) (PoolQhd d i)) ∧
  (forall i, load_qtd (ehci_data s') (ControlQtd d i)
             = load_qtd (ehci_data s) (ControlQtd d i)) ∧
  (forall i, load_qtd (ehci_data s') (PoolQtd d i)
             = load_qtd (ehci_data s) (PoolQtd d i)) ∧
  usbh_devices s' !! S d = usbh_devices s !! S d.

(** The list heads, the address-0 qTDs and the address-0 table entry are
    the same in [s] and [s']. *)
Definition heads_untouched (s s' : hcd_state) : Prop :=
  (forall h, load_qhd (ehci_data s') (AsyncHead h)
             = load_qhd (ehci_data s) (AsyncHead h)) ∧
  (forall h, load_qhd (ehci_data s') (PeriodHead h)
             = load_qhd (ehci_data s) (PeriodHead h)) ∧
  (forall i, load_qtd (ehci_data s') (Addr0Qtd i)
             = load_qtd (ehci_data s) (Addr0Qtd i)) ∧
  usbh_devices s' !! 0%nat = usbh_devices s !! 0%nat.

(** Every queue head has the same horizontal link word in [s'] as in
    [s]. *)
Definition same_links (s s' : hcd_state) : Prop :=
  forall p, qhd_next <$> load_qhd (ehci_data s') p
            = qhd_next <$> load_qhd (ehci_data s) p.

(** [s'] differs from [s] in horizontal link words only. *)
Definition only_links (s s' : hcd_state) : Prop :=
  (forall p q, load_qhd (ehci_data s) p = Some q ->
     exists nx, load_qhd (ehci_data s') p = Some (set_qhd_next nx q)) ∧
  (forall p, load_qtd (ehci_data s') p = load_qtd (ehci_data s) p) ∧
  usbh_devices s' = usbh_devices s.

Section AsyncListPredicates.

Context (cfg : hcd_config) {L : Layout cfg}.

(** The horizontal link of [p] points at [q]. *)
Definition qhd_link (s : hcd_state) (p q : qhd_ptr) : Prop :=
  exists h, load_qhd (ehci_data s) p = Some h ∧
            align32 (qhd_next h) = qhd_address q.

(** Following the links from [from] visits [path] and then arrives at
    [to]. *)
Fixpoint qhd_chain (s : hcd_state) (from : qhd_ptr) (path : list qhd_ptr)
  (to : qhd_ptr) : Prop :=
  match path with
  | [] => qhd_link s from to
  | p :: rest => qhd_link s from p ∧ qhd_chain s p rest to
  end.

(** A circular list rooted at [head]: the links lead from [head] through
    the distinct queue heads of [path] and back to [head]. *)
Definition circular_list (s : hcd_state) (head : qhd_ptr)
  (path : list qhd_ptr) : Prop :=
  NoDup (head :: path) ∧ qhd_chain s head path head.

(** The last queue head of [from :: path]. *)
Fixpoint last_node (from : qhd_ptr) (path : list qhd_ptr) : qhd_ptr :=
  match path with
  | [] => from
  | p :: rest => last_node p rest
  end.

End AsyncListPredicates.

(** ** What the interrupt handlers see *)

Section IsrPredicates.

Context (cfg : hcd_config) {L : Layout cfg}.

(** What the handlers keep: the horizontal links, the array sizes and the
    device table. *)
Definition isr_kept (s s' : hcd_state) : Prop :=
  same_links s s' ∧ (state_ok cfg s -> state_ok cfg s') ∧
  usbh_devices s' = usbh_devices s.

(** The queue heads of [l] processed one after the other, the calls of
    [usbh_isr] in the order they are made. *)
Fixpoint process_qhd_list (td_fuel : nat) (xfer_type : Z) (s : hcd_state)
  (l : list qhd_ptr) : option (hcd_state * list usbh_isr_call) :=
  match l with
  | [] => Some (s, [])
  | p :: rest =>
      '(s, calls) ← process_qhd_isr cfg td_fuel xfer_type s p;
      '(s, more) ← process_qhd_list td_fuel xfer_type s rest;
      Some (s, calls ++ more)
  end.

(** The error calls for the queue heads of [l], in order. *)
Fixpoint xfer_error_list (s : hcd_state) (l : list qhd_ptr)
  : option (list usbh_isr_call) :=
  match l with
  | [] => Some []
  | p :: rest =>
      calls ← xfer_error_qhd s p;
      more ← xfer_error_list s rest;
      Some (calls ++ more)
  end.

(** The next pointer of qTD [a] leads to qTD [b]. *)
Definition qtd_link (s : hcd_state) (a b : qtd_ptr) : Prop :=
  exists t, load_qtd (ehci_data s) a = Some t ∧
            qtd_ptr_of_link cfg (qtd_next t) = Some (Some b).

Fixpoint qtd_chain (s : hcd_state) (a : qtd_ptr) (l : list qtd_ptr) : Prop :=
  match l with
  | [] => True
  | b :: rest => qtd_link s a b ∧ qtd_chain s b rest
  end.

(** The qTD list of queue head [p_qhd] is [l]: its head and tail pointers
    are the first and the last qTD of [l] (NULL for the empty list), and
    the qTDs of [l] are distinct and linked in this order. *)
Definition qtd_list (s : hcd_state) (p_qhd : qhd_ptr) (l : list qtd_ptr)
  : Prop :=
  exists q,
    load_qhd (ehci_data s) p_qhd = Some q ∧
    p_qtd_list_head q = head l ∧
    p_qtd_list_tail q = last l ∧
    NoDup l ∧
    Forall (fun t => is_Some (load_qtd (ehci_data s) t)) l ∧
    match l with [] => True | a :: rest => qtd_chain s a rest end.

(** The link of [p] is a live link of type QHD to [q]. *)
Definition period_link (s : hcd_state) (p q : qhd_ptr) : Prop :=
  exists h, load_qhd (ehci_data s) p = Some h ∧
            link_terminate (qhd_next h) = 0 ∧
            link_type (qhd_next h) = EHCI_QUEUE_ELEMENT_QHD ∧
            align32 (qhd_next h) = qhd_address q.

(** The links lead from [from] through [path], whose last queue head (or
    [from] itself) ends the list with the terminate bit. *)
Fixpoint period_chain (s : hcd_state) (from : qhd_ptr) (path : list qhd_ptr)
  : Prop :=
  match path with
  | [] => exists h, load_qhd (ehci_data s) from = Some h ∧
                    link_terminate (qhd_next h) = 1
  | p :: rest => period_link s from p ∧ period_chain s p rest
  end.

(** The periodic list rooted at [head]: the distinct queue heads of
    [path], then the end of the list. *)
Definition period_list (s : hcd_state) (head : qhd_ptr)
  (path : list qhd_ptr) : Prop :=
  NoDup (head :: path) ∧ period_chain s head path.

(** The completion calls made for the qTDs of [l]: one for each qTD
    whose [int_on_complete] is set. *)
Definition completion_calls (s : hcd_state) (pipe_hdl : pipe_handle_t)
  (code : Z) (l : list qtd_ptr) : list usbh_isr_call :=
  l ≫= fun t =>
    match load_qtd (ehci_data s) t with
    | Some td =>
        if int_on_complete td =? 0 then []
        else [ {| isr_pipe_hdl := pipe_hdl; isr_class_code := code;
                  isr_event := BUS_EVENT_XFER_COMPLETE |} ]
    | None => []
    end.

End IsrPredicates.

(** * Properties *)

(** ** Reading after writing *)

Lemma load_store_qtd_eq e p q :
  is_Some (load_qtd e p) -> load_qtd (store_qtd e p q) p = Some q.
Proof.
  destruct p as [i|d i|d i]; simpl; intros [x Hx].
  - apply list_lookup_insert_eq. by eapply lookup_lt_Some.
  - rewrite list_lookup_alter_eq.
    destruct (device e !! d) as [dv|]; simpl in *; [|done].
    apply list_lookup_insert_eq. by eapply lookup_lt_Some.
  - rewrite list_lookup_alter_eq.
    destruct (device e !! d) as [dv|]; simpl in *; [|done].
    apply list_lookup_insert_eq. by eapply lookup_lt_Some.
Qed.

Lemma load_store_qtd_ne e p q p' :
  p ≠ p' -> load_qtd (store_qtd e p q) p' = load_qtd e p'.
Proof.
  intros Hne.
  destruct p as [i|d i|d i], p' as [i'|d' i'|d' i']; simpl; try done.
  - apply list_lookup_insert_ne. congruence.
  - destruct (decide (d = d')) as [->|Hd].
    + rewrite list_lookup_alter_eq. destruct (device e !! d'); simpl; [|done].
      apply list_lookup_insert_ne. congruence.
    + by rewrite list_lookup_alter_ne.
  - destruct (decide (d = d')) as [->|Hd].
    + rewrite list_lookup_alter_eq. by destruct (device e !! d').
    + by rewrite list_lookup_alter_ne.
  - destruct (decide (d = d')) as [->|Hd].
    + rewrite list_lookup_alter_eq. by destruct (device e !! d').
    + by rewrite list_lookup_alter_ne.
  - destruct (decide (d = d')) as [->|Hd].
    + rewrite list_lookup_alter_eq. destruct (device e !! d'); simpl; [|done].
      apply list_lookup_insert_ne. congruence.
    + by rewrite list_lookup_alter_ne.
Qed.

Lemma load_qhd_store_qtd e p q p' :
  load_qhd (store_qtd e p q) p' = load_qhd e p'.
Proof.
  destruct p as [i|d i|d i], p' as [h|h|d'|d' i']; simpl; try done;
    (destruct (decide (d = d')) as [->|Hd];
     [rewrite list_lookup_alter_eq; by destruct (device e !! d')
     |by rewrite list_lookup_alter_ne]).
Qed.

Lemma load_store_qhd_eq e p q :
  is_Some (load_qhd e p) -> load_qhd (store_qhd e p q) p = Some q.
Proof.
  destruct p as [h|h|d|d i]; simpl; intros [x Hx].
  - apply list_lookup_insert_eq. by eapply lookup_lt_Some.
  - apply list_lookup_insert_eq. by eapply lookup_lt_Some.
  - rewrite list_lookup_alter_eq.
    by destruct (device e !! d) as [dv|].
  - rewrite list_lookup_alter_eq.
    destruct (device e !! d) as [dv|]; simpl in *; [|done].
    apply list_lookup_insert_eq. by eapply lookup_lt_Some.
Qed.

Lemma load_store_qhd_ne e p q p' :
  p ≠ p' -> load_qhd (store_qhd e p q) p' = load_qhd e p'.
Proof.
  intros Hne.
  destruct p as [h|h|d|d i], p' as [h'|h'|d'|d' i']; simpl; try done;
    try (apply list_lookup_insert_ne; congruence);
    (destruct (decide (d = d')) as [->|Hd];
     [rewrite list_lookup_alter_eq; destruct (device e !! d'); simpl;
      try done; try congruence;
      apply list_lookup_insert_ne; congruence
     |by rewrite list_lookup_alter_ne]).
Qed.

Lemma load_qtd_store_qhd e p q p' :
  load_qtd (store_qhd e p q) p' = load_qtd e p'.
Proof.
  destruct p as [h|h|d|d i], p' as [i'|d' i'|d' i']; simpl; try done;
    (destruct (decide (d = d')) as [->|Hd];
     [rewrite list_lookup_alter_eq; by destruct (device e !! d')
     |by rewrite list_lookup_alter_ne]).
Qed.

Lemma modify_qtd_Some s p f :
  is_Some (load_qtd (ehci_data s) p) ->
  modify_qtd s p f = Some (upd_qtd s p f).
Proof. intros [q Hq]. unfold modify_qtd, upd_qtd. by rewrite Hq. Qed.

Lemma modify_qhd_Some s p f :
  is_Some (load_qhd (ehci_data s) p) ->
  modify_qhd s p f = Some (upd_qhd s p f).
Proof. intros [q Hq]. unfold modify_qhd, upd_qhd. by rewrite Hq. Qed.

Lemma modify_qtd_inv s p f s' :
  modify_qtd s p f = Some s' ->
  is_Some (load_qtd (ehci_data s) p) ∧ s' = upd_qtd s p f.
Proof.
  unfold modify_qtd, upd_qtd.
  destruct (load_qtd (ehci_data s) p); simpl; intros [= <-]; eauto.
Qed.

Lemma modify_qhd_inv s p f s' :
  modify_qhd s p f = Some s' ->
  is_Some (load_qhd (ehci_data s) p) ∧ s' = upd_qhd s p f.
Proof.
  unfold modify_qhd, upd_qhd.
  destruct (load_qhd (ehci_data s) p); simpl; intros [= <-]; eauto.
Qed.

Lemma load_qtd_upd_qtd s p f p' :
  load_qtd (ehci_data (upd_qtd s p f)) p' =
  if decide (p = p') then f <$> load_qtd (ehci_data s) p'
  else load_qtd (ehci_data s) p'.
Proof.
  unfold upd_qtd. destruct (decide (p = p')) as [<-|Hne].
  - destruct (load_qtd (ehci_data s) p) eqn:E; simpl; [|by rewrite E].
    apply load_store_qtd_eq. eauto.
  - destruct (load_qtd (ehci_data s) p); simpl; [|done].
    by apply load_store_qtd_ne.
Qed.

Lemma load_qhd_upd_qhd s p f p' :
  load_qhd (ehci_data (upd_qhd s p f)) p' =
  if decide (p = p') then f <$> load_qhd (ehci_data s) p'
  else load_qhd (ehci_data s) p'.
Proof.
  unfold upd_qhd. destruct (decide (p = p')) as [<-|Hne].
  - destruct (load_qhd (ehci_data s) p) eqn:E; simpl; [|by rewrite E].
    apply load_store_qhd_eq. eauto.
  - destruct (load_qhd (ehci_data s) p); simpl; [|done].
    by apply load_store_qhd_ne.
Qed.

Lemma load_qhd_upd_qtd s p f p' :
  load_qhd (ehci_data (upd_qtd s p f)) p' = load_qhd (ehci_data s) p'.
Proof.
  unfold upd_qtd. destruct (load_qtd (ehci_data s) p); simpl; [|done].
  apply load_qhd_store_qtd.
Qed.

Lemma load_qtd_upd_qhd s p f p' :
  load_qtd (ehci_data (upd_qhd s p f)) p' = load_qtd (ehci_data s) p'.
Proof.
  unfold upd_qhd. destruct (load_qhd (ehci_data s) p); simpl; [|done].
  apply load_qtd_store_qhd.
Qed.

Lemma usbh_devices_upd_qtd s p f :
  usbh_devices (upd_qtd s p f) = usbh_devices s.
Proof. unfold upd_qtd. by destruct (load_qtd (ehci_data s) p). Qed.

Lemma usbh_devices_upd_qhd s p f :
  usbh_devices (upd_qhd s p f) = usbh_devices s.
Proof. unfold upd_qhd. by destruct (load_qhd (ehci_data s) p). Qed.

Lemma is_Some_load_qtd_upd_qtd s p f p' :
  is_Some (load_qtd (ehci_data (upd_qtd s p f)) p') <->
  is_Some (load_qtd (ehci_data s) p').
Proof.
  rewrite load_qtd_upd_qtd. destruct (decide (p = p')); [|done].
  by rewrite fmap_is_Some.
Qed.

Lemma is_Some_load_qhd_upd_qhd s p f p' :
  is_Some (load_qhd (ehci_data (upd_qhd s p f)) p') <->
  is_Some (load_qhd (ehci_data s) p').
Proof.
  rewrite load_qhd_upd_qhd. destruct (decide (p = p')); [|done].
  by rewrite fmap_is_Some.
Qed.

(** ** Bit-level facts *)

Lemma bitfield_small w x : 0 <= w -> 0 <= x < 2 ^ w -> bitfield w x = x.
Proof.
  intros Hw Hx. unfold bitfield. rewrite Z.land_ones by done.
  by apply Z.mod_small.
Qed.

Lemma uint32_range x : 0 <= uint32 x < 2 ^ 32.
Proof. unfold uint32. apply Z.mod_pos_bound. lia. Qed.

Lemma uint32_small x : 0 <= x < 2 ^ 32 -> uint32 x = x.
Proof. intros. unfold uint32. by apply Z.mod_small. Qed.

Lemma align4k_lnot x :
  0 <= x < 2 ^ 32 -> align4k x = Z.land x (Z.lnot 0xFFF).
Proof.
  intros Hx. unfold align4k.
  change 0xFFFFF000 with (Z.land (Z.ones 32) (Z.lnot 0xFFF)).
  rewrite Z.land_assoc, Z.land_ones by lia.
  by rewrite Z.mod_small.
Qed.

Example qtd_init_pages_example :
  buffer (qtd_init_value 0x20001234 512) =
  [0x20001234; 0x20002000; 0x20003000; 0x20004000; 0x20005000].
Proof. reflexivity. Qed.

Example qtd_init_pages_wrap :
  buffer (qtd_init_value 0xFFFFF000 0) =
  [0xFFFFF000; 0; 0x1000; 0x2000; 0x3000].
Proof. reflexivity. Qed.

Lemma qtd_init_value_buffer p n :
  buffer (qtd_init_value p n) =
  let b1 := uint32 (align4k p + 4096) in
  let b2 := uint32 (align4k b1 + 4096) in
  let b3 := uint32 (align4k b2 + 4096) in
  let b4 := uint32 (align4k b3 + 4096) in
  [p; b1; b2; b3; b4].
Proof. reflexivity. Qed.

(** C5. A qTD initialised by [qtd_init] with data pointer [p] and length
    [n] of at most 20 KiB has [used = 1], [active = 1], [cerr = 3],
    [total_bytes = n], [buffer[0] = p], and for each page [i] in 1..4
    [buffer[i] = (buffer[i-1] & ~0xFFF) + 0x1000], computed as the code
    does in 32-bit arithmetic; the sum is the plain integer sum whenever
    it stays below [2^32]. *)
Theorem qtd_init_fields s p_qtd p n :
  is_Some (load_qtd (ehci_data s) p_qtd) ->
  0 <= p < 2 ^ 32 ->
  0 <= n <= 20 * 1024 ->
  exists s' q,
    qtd_init s p_qtd p n = Some s' ∧
    load_qtd (ehci_data s') p_qtd = Some q ∧
    qtd_used q = 1 ∧ active q = 1 ∧ cerr q = 3 ∧ total_bytes q = n ∧
    buffer q !! 0%nat = Some p ∧
    forall i, (1 <= i <= 4)%nat ->
      exists prev,
        buffer q !! (i - 1)%nat = Some prev ∧
        buffer q !! i = Some (uint32 (Z.land prev (Z.lnot 0xFFF) + 0x1000)) ∧
        (Z.land prev (Z.lnot 0xFFF) + 0x1000 < 2 ^ 32 ->
         buffer q !! i = Some (Z.land prev (Z.lnot 0xFFF) + 0x1000)).
Proof.
  intros Hp Hrange Hn.
  exists (upd_qtd s p_qtd (fun _ => qtd_init_value p n)), (qtd_init_value p n).
  split; [by apply modify_qtd_Some|].
  split.
  { rewrite load_qtd_upd_qtd, decide_True by done.
    destruct Hp as [q0 ->]. done. }
  split; [done|]. split; [done|]. split; [done|].
  split.
  { cbn. apply bitfield_small; lia. }
  rewrite qtd_init_value_buffer. cbv zeta.
  split; [done|].
  assert (Hstep : forall prev, 0 <= prev < 2 ^ 32 ->
            Some (uint32 (align4k prev + 4096)) =
            Some (uint32 (Z.land prev (Z.lnot 0xFFF) + 0x1000)) ∧
            (Z.land prev (Z.lnot 0xFFF) + 0x1000 < 2 ^ 32 ->
             Some (uint32 (align4k prev + 4096)) =
             Some (Z.land prev (Z.lnot 0xFFF) + 0x1000))).
  { intros prev Hprev. rewrite align4k_lnot by done. split; [done|].
    intros Hlt. f_equal. apply uint32_small. split; [|done].
    assert (0 <= Z.land prev (Z.lnot 0xFFF)) by (apply Z.land_nonneg; lia).
    lia. }
  intros i Hi.
  destruct i as [|[|[|[|[|i]]]]]; try lia; cbn [lookup list_lookup Nat.sub];
    eexists; (split; [reflexivity|]); apply Hstep;
    first [exact Hrange | apply uint32_range].
Qed.

(** Witness for C5: a 512-byte buffer at 0x20001234 written to the first
    pool qTD of device slot 0. *)
Lemma qtd_init_fields_witness :
  exists s' q,
    qtd_init lpc_state0 (PoolQtd 0 0) 0x20001234 512 = Some s' ∧
    load_qtd (ehci_data s') (PoolQtd 0 0) = Some q ∧
    qtd_used q = 1 ∧ active q = 1 ∧ cerr q = 3 ∧ total_bytes q = 512 ∧
    buffer q !! 0%nat = Some 0x20001234 ∧
    forall i, (1 <= i <= 4)%nat ->
      exists prev,
        buffer q !! (i - 1)%nat = Some prev ∧
        buffer q !! i = Some (uint32 (Z.land prev (Z.lnot 0xFFF) + 0x1000)) ∧
        (Z.land prev (Z.lnot 0xFFF) + 0x1000 < 2 ^ 32 ->
         buffer q !! i = Some (Z.land prev (Z.lnot 0xFFF) + 0x1000)).
Proof.
  apply (qtd_init_fields lpc_state0 (PoolQtd 0 0) 0x20001234 512).
  - eexists; reflexivity.
  - lia.
  - lia.
Defined.

(** ** Valid pointers are the ones that can be dereferenced *)

Lemma load_qhd_is_Some cfg s p :
  state_ok cfg s ->
  is_Some (load_qhd (ehci_data s) p) <-> valid_qhd_ptr cfg p.
Proof.
  intros (_ & Ha & _ & Hp & Hd & Hdev & _).
  destruct p as [h|h|d|d i]; simpl.
  - rewrite lookup_lt_is_Some. by rewrite Ha.
  - rewrite lookup_lt_is_Some. by rewrite Hp.
  - rewrite fmap_is_Some, lookup_lt_is_Some. by rewrite Hd.
  - rewrite <- Hd. split.
    + intros [q Hq]. destruct (device (ehci_data s) !! d) as [dv|] eqn:E;
        simpl in Hq; [|done].
      split; [by eapply lookup_lt_Some|].
      destruct (Forall_lookup_1 _ _ _ _ Hdev E) as (_ & <- & _).
      by eapply lookup_lt_Some.
    + intros [H1 H2]. apply lookup_lt_is_Some in H1 as [dv E]. rewrite E.
      simpl. apply lookup_lt_is_Some.
      destruct (Forall_lookup_1 _ _ _ _ Hdev E) as (_ & -> & _). done.
Qed.

Lemma load_qtd_is_Some cfg s p :
  state_ok cfg s ->
  is_Some (load_qtd (ehci_data s) p) <-> valid_qtd_ptr cfg p.
Proof.
  intros (_ & _ & Ha & _ & Hd & Hdev & _).
  destruct p as [i|d i|d i]; simpl.
  - rewrite lookup_lt_is_Some. by rewrite Ha.
  - rewrite <- Hd. split.
    + intros [q Hq]. destruct (device (ehci_data s) !! d) as [dv|] eqn:E;
        simpl in Hq; [|done].
      split; [by eapply lookup_lt_Some|].
      destruct (Forall_lookup_1 _ _ _ _ Hdev E) as (<- & _ & _).
      by eapply lookup_lt_Some.
    + intros [H1 H2]. apply lookup_lt_is_Some in H1 as [dv E]. rewrite E.
      simpl. apply lookup_lt_is_Some.
      destruct (Forall_lookup_1 _ _ _ _ Hdev E) as (-> & _ & _). done.
  - rewrite <- Hd. split.
    + intros [q Hq]. destruct (device (ehci_data s) !! d) as [dv|] eqn:E;
        simpl in Hq; [|done].
      split; [by eapply lookup_lt_Some|].
      destruct (Forall_lookup_1 _ _ _ _ Hdev E) as (_ & _ & <-).
      by eapply lookup_lt_Some.
    + intros [H1 H2]. apply lookup_lt_is_Some in H1 as [dv E]. rewrite E.
      simpl. apply lookup_lt_is_Some.
      destruct (Forall_lookup_1 _ _ _ _ Hdev E) as (_ & _ & ->). done.
Qed.

Lemma valid_control_qtds cfg dev_addr k :
  0 <= dev_addr <= Z.of_nat (TUSB_CFG_HOST_DEVICE_MAX cfg) ->
  (k < 3)%nat ->
  valid_qtd_ptr cfg (qtd_ptr_add (get_control_qtds dev_addr) k).
Proof.
  intros Hd Hk. unfold get_control_qtds.
  destruct (Z.eqb_spec dev_addr 0); simpl; [done|]. lia.
Qed.

(** ** Symbolic execution of the straight-line code *)

Lemma load_qtd_upd_qtd_eq s p f :
  load_qtd (ehci_data (upd_qtd s p f)) p = f <$> load_qtd (ehci_data s) p.
Proof. by rewrite load_qtd_upd_qtd, decide_True. Qed.

Lemma load_qtd_upd_qtd_ne s p f p' :
  p ≠ p' ->
  load_qtd (ehci_data (upd_qtd s p f)) p' = load_qtd (ehci_data s) p'.
Proof. intros. by rewrite load_qtd_upd_qtd, decide_False. Qed.

Lemma load_qhd_upd_qhd_eq s p f :
  load_qhd (ehci_data (upd_qhd s p f)) p = f <$> load_qhd (ehci_data s) p.
Proof. by rewrite load_qhd_upd_qhd, decide_True. Qed.

Lemma load_qhd_upd_qhd_ne s p f p' :
  p ≠ p' ->
  load_qhd (ehci_data (upd_qhd s p f)) p' = load_qhd (ehci_data s) p'.
Proof. intros. by rewrite load_qhd_upd_qhd, decide_False. Qed.

Create Rewrite HintDb hcd.

#[global] Hint Rewrite load_qtd_upd_qtd_eq load_qhd_upd_qhd_eq
  load_qhd_upd_qtd load_qtd_upd_qhd usbh_devices_upd_qtd
  usbh_devices_upd_qhd : hcd.
#[global] Hint Rewrite load_qtd_upd_qtd_ne load_qhd_upd_qhd_ne
  using congruence : hcd.

(** Discharges [is_Some (load ...)] in a state built from updates. *)
Ltac solve_valid :=
  autorewrite with hcd;
  repeat match goal with
         | H : ?x = Some _ |- context [?x] => rewrite H
         end;
  cbn [fmap option_fmap option_map];
  first [ by eauto | by apply fmap_is_Some; eauto ].

(** Runs the next guarded write of the goal. *)
Ltac exec_write :=
  first [ rewrite modify_qtd_Some by solve_valid
        | rewrite modify_qhd_Some by solve_valid ];
  cbn [mbind option_bind].

Lemma qtd_ptr_add_0 p : qtd_ptr_add p 0 = p.
Proof. destruct p; simpl; f_equal; lia. Qed.

Lemma control_qtds_distinct dev_addr j k :
  j ≠ k ->
  qtd_ptr_add (get_control_qtds dev_addr) j ≠
  qtd_ptr_add (get_control_qtds dev_addr) k.
Proof.
  intros Hjk. unfold get_control_qtds.
  destruct (dev_addr =? 0); simpl; intros [=]; lia.
Qed.

Section ControlTransfer.

Context (cfg : hcd_config) {L : Layout cfg}.

(** C1. A control transfer with a data stage ([wLength > 0]) lays out three
    qTDs: SETUP with [pid = SETUP], [data_toggle = 0], [total_bytes = 8];
    DATA with [data_toggle = 1] and [pid = IN] when the direction bit of
    the request is set, [OUT] otherwise; STATUS of length zero with
    [data_toggle = 1], the opposite [pid], [int_on_complete = 1] and
    [next.terminate = 1]; and the overlay of the queue head points at the
    SETUP qTD. *)
Theorem hcd_pipe_control_xfer_three_phase s dev_addr req data p_qhd :
  state_ok cfg s ->
  0 <= dev_addr <= Z.of_nat (TUSB_CFG_HOST_DEVICE_MAX cfg) ->
  get_control_qhd cfg s dev_addr = Some p_qhd ->
  valid_qhd_ptr cfg p_qhd ->
  0 < wLength req ->
  let p_setup := get_control_qtds dev_addr in
  exists s' setup data_td status qhd,
    hcd_pipe_control_xfer cfg s dev_addr req data
      = Some (TUSB_ERROR_NONE, s') ∧
    load_qtd (ehci_data s') p_setup = Some setup ∧
    load_qtd (ehci_data s') (qtd_ptr_add p_setup 1) = Some data_td ∧
    load_qtd (ehci_data s') (qtd_ptr_add p_setup 2) = Some status ∧
    load_qhd (ehci_data s') p_qhd = Some qhd ∧
    (pid setup = EHCI_PID_SETUP ∧ data_toggle setup = 0 ∧
     total_bytes setup = 8) ∧
    (data_toggle data_td = 1 ∧
     pid data_td = if bmRequestType_direction req =? 0
                   then EHCI_PID_OUT else EHCI_PID_IN) ∧
    (total_bytes status = 0 ∧ data_toggle status = 1 ∧
     pid status = (if bmRequestType_direction req =? 0
                   then EHCI_PID_IN else EHCI_PID_OUT) ∧
     int_on_complete status = 1 ∧ link_terminate (qtd_next status) = 1) ∧
    qtd_next (qtd_overlay qhd) = qtd_address p_setup.
Proof.
  intros Hok Hdev Hget Hvq Hlen p_setup.
  pose proof (valid_control_qtds cfg dev_addr 0 Hdev ltac:(lia)) as V0.
  pose proof (valid_control_qtds cfg dev_addr 1 Hdev ltac:(lia)) as V1.
  pose proof (valid_control_qtds cfg dev_addr 2 Hdev ltac:(lia)) as V2.
  rewrite qtd_ptr_add_0 in V0.
  pose proof (control_qtds_distinct dev_addr 0 1 ltac:(lia)) as D01.
  pose proof (control_qtds_distinct dev_addr 0 2 ltac:(lia)) as D02.
  pose proof (control_qtds_distinct dev_addr 1 2 ltac:(lia)) as D12.
  rewrite qtd_ptr_add_0 in D01, D02.
  pose proof (qtd_address_range _ V0) as R0.
  apply (load_qtd_is_Some cfg s _ Hok) in V0 as [q0 E0].
  apply (load_qtd_is_Some cfg s _ Hok) in V1 as [q1 E1].
  apply (load_qtd_is_Some cfg s _ Hok) in V2 as [q2 E2].
  apply (load_qhd_is_Some cfg s _ Hok) in Hvq as [h Eh].
  unfold hcd_pipe_control_xfer, qtd_init. rewrite Hget.
  fold p_setup in E0, E1, E2, D01, D02, D12, R0 |- *.
  set (p_data := qtd_ptr_add p_setup 1) in *.
  set (p_status := qtd_ptr_add p_setup 2) in *.
  clearbody p_setup p_data p_status.
  rewrite (proj2 (Z.ltb_lt 0 (wLength req)) Hlen).
  cbn [mbind option_bind].
  repeat exec_write.
  eexists _, _, _, _, _. split; [reflexivity|].
  split; [autorewrite with hcd; rewrite E0; reflexivity|].
  split; [autorewrite with hcd; rewrite E1; reflexivity|].
  split; [autorewrite with hcd; rewrite E2; reflexivity|].
  split; [autorewrite with hcd; rewrite Eh; reflexivity|].
  split; [done|].
  split; [by destruct (bmRequestType_direction req =? 0)|].
  split; [by destruct (bmRequestType_direction req =? 0)|].
  cbn. by apply uint32_small; lia.
Qed.

(** C10. A control transfer without data stage ([wLength = 0]) initialises
    no DATA qTD: the SETUP qTD links straight to the STATUS qTD, the qTD
    list of the queue head runs from the SETUP qTD to the STATUS qTD, and
    the middle control qTD of the device is left as it was. *)
Theorem hcd_pipe_control_xfer_no_data s dev_addr req data p_qhd :
  state_ok cfg s ->
  0 <= dev_addr <= Z.of_nat (TUSB_CFG_HOST_DEVICE_MAX cfg) ->
  get_control_qhd cfg s dev_addr = Some p_qhd ->
  valid_qhd_ptr cfg p_qhd ->
  wLength req = 0 ->
  let p_setup := get_control_qtds dev_addr in
  let p_middle := qtd_ptr_add p_setup 1 in
  let p_status := qtd_ptr_add p_setup 2 in
  exists s' setup qhd,
    hcd_pipe_control_xfer cfg s dev_addr req data
      = Some (TUSB_ERROR_NONE, s') ∧
    load_qtd (ehci_data s') p_setup = Some setup ∧
    load_qhd (ehci_data s') p_qhd = Some qhd ∧
    qtd_next setup = qtd_address p_status ∧
    p_qtd_list_head qhd = Some p_setup ∧
    p_qtd_list_tail qhd = Some p_status ∧
    load_qtd (ehci_data s') p_middle = load_qtd (ehci_data s) p_middle.
Proof.
  intros Hok Hdev Hget Hvq Hlen p_setup p_middle p_status.
  pose proof (valid_control_qtds cfg dev_addr 0 Hdev ltac:(lia)) as V0.
  pose proof (valid_control_qtds cfg dev_addr 2 Hdev ltac:(lia)) as V2.
  rewrite qtd_ptr_add_0 in V0.
  pose proof (control_qtds_distinct dev_addr 0 1 ltac:(lia)) as D01.
  pose proof (control_qtds_distinct dev_addr 0 2 ltac:(lia)) as D02.
  pose proof (control_qtds_distinct dev_addr 2 1 ltac:(lia)) as D21.
  rewrite qtd_ptr_add_0 in D01, D02.
  pose proof (qtd_address_range _ V2) as R2.
  apply (load_qtd_is_Some cfg s _ Hok) in V0 as [q0 E0].
  apply (load_qtd_is_Some cfg s _ Hok) in V2 as [q2 E2].
  apply (load_qhd_is_Some cfg s _ Hok) in Hvq as [h Eh].
  unfold hcd_pipe_control_xfer, qtd_init. rewrite Hget, Hlen.
  fold p_setup p_middle p_status in E0, E2, D01, D02, D21, R2 |- *.
  clearbody p_setup p_middle p_status.
  cbn [mbind option_bind Z.ltb Z.compare].
  repeat exec_write.
  eexists _, _, _. split; [reflexivity|].
  split; [autorewrite with hcd; rewrite E0; reflexivity|].
  split; [autorewrite with hcd; rewrite Eh; reflexivity|].
  split; [cbn; by apply uint32_small; lia|].
  split; [done|]. split; [done|].
  by autorewrite with hcd.
Qed.

End ControlTransfer.

(** ** Witnesses on the concrete configuration *)

Lemma lpc_state0_ok : state_ok lpc_cfg lpc_state0.
Proof.
  repeat split; try (cbn; lia).
  repeat constructor.
Qed.

(** Witness for C1: GET_DESCRIPTOR (device to host, 18 bytes) on device
    address 1. *)
Lemma hcd_pipe_control_xfer_three_phase_witness :
  exists s' setup data_td status,
    hcd_pipe_control_xfer lpc_cfg lpc_state0 1
      {| request_address := 0x10000100; bmRequestType_direction := 1;
         wLength := 18 |} 0x10000200 = Some (TUSB_ERROR_NONE, s') ∧
    load_qtd (ehci_data s') (ControlQtd 0 0) = Some setup ∧
    load_qtd (ehci_data s') (ControlQtd 0 1) = Some data_td ∧
    load_qtd (ehci_data s') (ControlQtd 0 2) = Some status ∧
    pid setup = EHCI_PID_SETUP ∧ pid data_td = EHCI_PID_IN ∧
    pid status = EHCI_PID_OUT.
Proof.
  destruct (hcd_pipe_control_xfer_three_phase lpc_cfg lpc_state0 1
              {| request_address := 0x10000100; bmRequestType_direction := 1;
                 wLength := 18 |} 0x10000200 (ControlQhd 0))
    as (s' & setup & data_td & status & qhd & H & Hs & Hd & Hst & _ &
        (Hp1 & _) & (_ & Hp2) & (_ & _ & Hp3 & _) & _).
  - exact lpc_state0_ok.
  - cbn; lia.
  - reflexivity.
  - cbn; lia.
  - cbn; lia.
  - exists s', setup, data_td, status. repeat split; assumption.
Defined.

(** Witness for C10: SET_ADDRESS (no data stage) on device address 0. *)
Lemma hcd_pipe_control_xfer_no_data_witness :
  exists s' setup qhd,
    hcd_pipe_control_xfer lpc_cfg lpc_state0 0
      {| request_address := 0x10000100; bmRequestType_direction := 0;
         wLength := 0 |} 0 = Some (TUSB_ERROR_NONE, s') ∧
    load_qtd (ehci_data s') (Addr0Qtd 0) = Some setup ∧
    load_qhd (ehci_data s') (AsyncHead 0) = Some qhd ∧
    qtd_next setup = qtd_address (Addr0Qtd 2) ∧
    p_qtd_list_head qhd = Some (Addr0Qtd 0) ∧
    p_qtd_list_tail qhd = Some (Addr0Qtd 2) ∧
    load_qtd (ehci_data s') (Addr0Qtd 1) = Some qtd_zero.
Proof.
  apply (hcd_pipe_control_xfer_no_data lpc_cfg lpc_state0 0
           {| request_address := 0x10000100; bmRequestType_direction := 0;
              wLength := 0 |} 0 (AsyncHead 0)).
  - exact lpc_state0_ok.
  - cbn; lia.
  - reflexivity.
  - cbn; lia.
  - reflexivity.
Defined.

Example hcd_init_lpc :
  hcd_init lpc_cfg lpc_state0 = Some (TUSB_ERROR_NONE, lpc_state0).
Proof. vm_compute. reflexivity. Qed.

(** ** Pool scans *)

Lemma scan_used_exhausted used_at remaining : forall index,
  (forall i, (index <= i < index + remaining)%nat ->
             exists u, used_at i = Some u ∧ u ≠ 0) ->
  scan_used used_at index remaining = Some (index + remaining)%nat.
Proof.
  induction remaining as [|r IH]; intros index Hall; simpl.
  - f_equal. lia.
  - destruct (Hall index ltac:(lia)) as (u & -> & Hu). simpl.
    destruct (Z.eqb_spec u 0); [done|].
    rewrite IH; [f_equal; lia|]. intros i Hi. apply Hall. lia.
Qed.

Lemma scan_used_found used_at remaining : forall index k,
  scan_used used_at index remaining = Some k ->
  (k < index + remaining)%nat ->
  used_at k = Some 0.
Proof.
  induction remaining as [|r IH]; intros index k; simpl.
  - intros [= <-]. lia.
  - destruct (used_at index) as [u|] eqn:E; simpl; [|done].
    destruct (Z.eqb_spec u 0) as [->|Hne].
    + by intros [= <-].
    + intros Hk Hlt. apply (IH (S index)); [done|lia].
Qed.

Section PipeTransfer.

Context (cfg : hcd_config) {L : Layout cfg}.

(** C6. When every qTD of the pool of the device that owns the pipe handle
    is in use, [hcd_pipe_xfer] returns [TUSB_ERROR_EHCI_NOT_ENOUGH_QTD]
    and the state it returns is the state it was given: the queue head
    of the handle, like everything else, is unchanged. *)
Theorem hcd_pipe_xfer_pool_exhausted s pipe_hdl buffer total_bytes ioc :
  state_ok cfg s ->
  1 <= hdl_dev_addr pipe_hdl <= Z.of_nat (TUSB_CFG_HOST_DEVICE_MAX cfg) ->
  (forall i t,
      load_qtd (ehci_data s)
               (PoolQtd (Z.to_nat (hdl_dev_addr pipe_hdl - 1)) i) = Some t ->
      qtd_used t ≠ 0) ->
  hcd_pipe_xfer cfg s pipe_hdl buffer total_bytes ioc
    = Some (TUSB_ERROR_EHCI_NOT_ENOUGH_QTD, s).
Proof.
  intros Hok Hdev Hused.
  unfold hcd_pipe_xfer, qhd_get_from_pipe_handle, qtd_find_free.
  rewrite !decide_True by lia. cbn [mbind option_bind].
  rewrite scan_used_exhausted.
  - cbn [mbind option_bind]. rewrite decide_False by lia. done.
  - intros i Hi.
    assert (Hv : valid_qtd_ptr cfg
                   (PoolQtd (Z.to_nat (hdl_dev_addr pipe_hdl - 1)) i))
      by (simpl; lia).
    apply (load_qtd_is_Some cfg s _ Hok) in Hv as [t Ht].
    rewrite Ht. simpl. eauto.
Qed.

(** C8. [hcd_pipe_xfer] on a valid handle with a free qTD in the pool:
    the allocated qTD carries the [pid] of the queue head, becomes the tail
    of the qTD list of the queue head (behind the old tail, or as the
    whole list and the overlay's next when the list was empty), and has
    the PING bit set exactly when the handle is BULK, the queue head is
    high-speed and its [pid_non_control] is OUT; in every other case the
    bit stays 0. *)
Theorem hcd_pipe_xfer_ping s pipe_hdl buffer total_bytes ioc p_qhd qhd p_qtd :
  state_ok cfg s ->
  qhd_get_from_pipe_handle pipe_hdl = Some p_qhd ->
  load_qhd (ehci_data s) p_qhd = Some qhd ->
  pid_non_control qhd = EHCI_PID_OUT ∨ pid_non_control qhd = EHCI_PID_IN ->
  qtd_find_free cfg s (hdl_dev_addr pipe_hdl) = Some (Some p_qtd) ->
  (p_qtd_list_head qhd ≠ None ->
   exists p_tail, p_qtd_list_tail qhd = Some p_tail ∧
                  valid_qtd_ptr cfg p_tail) ->
  exists s' qtd qhd',
    hcd_pipe_xfer cfg s pipe_hdl buffer total_bytes ioc
      = Some (TUSB_ERROR_NONE, s') ∧
    load_qtd (ehci_data s') p_qtd = Some qtd ∧
    load_qhd (ehci_data s') p_qhd = Some qhd' ∧
    pid qtd = pid_non_control qhd ∧
    pingstate_err qtd =
      (if (hdl_xfer_type pipe_hdl =? TUSB_XFER_BULK) &&
          (endpoint_speed qhd =? TUSB_SPEED_HIGH) &&
          (pid_non_control qhd =? EHCI_PID_OUT)
       then 1 else 0) ∧
    p_qtd_list_tail qhd' = Some p_qtd ∧
    (p_qtd_list_head qhd = None ->
     p_qtd_list_head qhd' = Some p_qtd ∧
     qtd_next (qtd_overlay qhd') = qtd_address p_qtd) ∧
    (forall p_tail,
        p_qtd_list_head qhd ≠ None -> p_qtd_list_tail qhd = Some p_tail ->
        p_qtd_list_head qhd' = p_qtd_list_head qhd ∧
        exists tail, load_qtd (ehci_data s') p_tail = Some tail ∧
                     qtd_next tail = qtd_address p_qtd).
Proof.
  intros Hok Hget Hq Hpid Hfree Htail.
  assert (Hv : is_Some (load_qtd (ehci_data s) p_qtd)).
  { unfold qtd_find_free in Hfree. case_decide; [|done].
    destruct (scan_used _ _ _) as [k|] eqn:Hscan; [|done]. simpl in Hfree.
    case_decide; [|done]. injection Hfree as <-.
    apply scan_used_found in Hscan; [|lia].
    apply fmap_Some in Hscan as (t & -> & _). eauto. }
  pose proof (qtd_address_range _ (proj1 (load_qtd_is_Some cfg s _ Hok) Hv))
    as Hrange.
  destruct Hv as [t0 Ht0].
  unfold hcd_pipe_xfer, qtd_init. rewrite Hget, Hfree.
  cbn [mbind option_bind]. exec_write.
  autorewrite with hcd. rewrite Hq. cbn [mbind option_bind].
  repeat exec_write.
  autorewrite with hcd. rewrite Hq, Ht0.
  cbn [mbind option_bind fmap option_fmap option_map].
  assert (Hp : forall v q, pid (set_int_on_complete v
                                  (set_pid (pid_non_control qhd) q))
                           = pid_non_control qhd).
  { intros v q. cbn. by destruct Hpid as [-> | ->]. }
  rewrite Hp.
  destruct ((hdl_xfer_type pipe_hdl =? TUSB_XFER_BULK) &&
            (endpoint_speed qhd =? TUSB_SPEED_HIGH) &&
            (pid_non_control qhd =? EHCI_PID_OUT)) eqn:Hping;
    cbn [mbind option_bind]; unfold qtd_insert_to_qhd;
    autorewrite with hcd; rewrite Hq; cbn [mbind option_bind];
    destruct (p_qtd_list_head qhd) as [p_head|] eqn:Hhead.
  all: try (destruct Htail as (p_tail & Htl & Hvt); [done|];
            apply (load_qtd_is_Some cfg s _ Hok) in Hvt as [tl Etl];
            rewrite Htl; cbn [mbind option_bind];
            destruct (decide (p_tail = p_qtd)) as [->|Hne]).
  all: repeat exec_write.
  all: eexists _, _, _; (split; [reflexivity|]).
  all: (split; [autorewrite with hcd; rewrite Ht0; reflexivity|]).
  all: (split; [autorewrite with hcd; rewrite Hq; reflexivity|]).
  all: (split; [cbn; by destruct Hpid as [-> | ->]|]).
  all: (split; [reflexivity|]).
  all: (split; [reflexivity|]).
  all: split;
    [intros Hn; first [done | split; [done|cbn; by apply uint32_small; lia]]|].
  all: intros p_tail' Hnn Htl'; first [done | injection Htl' as <-].
  all: (split; [done|]).
  all: eexists;
    (split; [autorewrite with hcd; rewrite ?Ht0, ?Etl; reflexivity|]).
  all: cbn; by apply uint32_small; lia.
Qed.

(** C9. The handle returned by a successful [hcd_pipe_open] round-trips:
    [qhd_get_from_pipe_handle] maps it to the queue head that
    [qhd_find_free] allocated and [qhd_init] initialised, and its [index]
    is [qhd_get_index] of that queue head. *)
Theorem hcd_pipe_open_handle_roundtrip s dev_addr desc cc h s' :
  state_ok cfg s ->
  0 <= dev_addr < 256 ->
  hcd_pipe_open cfg s dev_addr desc cc = Some (h, s') ->
  h ≠ null_handle ->
  exists p_qhd q,
    qhd_find_free cfg s dev_addr = Some (Some p_qhd) ∧
    qhd_get_from_pipe_handle h = Some p_qhd ∧
    qhd_get_index s' p_qhd = Some (hdl_index h) ∧
    load_qhd (ehci_data s') p_qhd = Some q ∧
    qhd_used q = 1 ∧ device_address q = dev_addr ∧ class_code q = uint8 cc ∧
    endpoint_number q = Z.land (bEndpointAddress desc) 0x0F.
Proof.
  intros Hok Hdev Hopen Hnull.
  unfold hcd_pipe_open in Hopen.
  destruct (0 <? dev_addr) eqn:Hpos; simpl in Hopen; [|congruence].
  apply Z.ltb_lt in Hpos.
  destruct (bmAttributes_xfer desc =? TUSB_XFER_ISOCHRONOUS);
    [congruence|].
  apply bind_Some in Hopen as (r & Hfind & Hopen).
  destruct r as [p_qhd|]; [|congruence].
  apply bind_Some in Hopen as (s1 & Hinit & Hopen).
  apply bind_Some in Hopen as (s2 & Hcc & Hopen).
  apply bind_Some in Hopen as (d & Hd & Hopen).
  apply bind_Some in Hopen as (list_head & Hhead & Hopen).
  apply bind_Some in Hopen as (s3 & Hins & Hopen).
  apply bind_Some in Hopen as (index & Hidx & Hopen).
  injection Hopen as <- <-.
  (* the allocated queue head *)
  unfold qhd_find_free in Hfind.
  apply bind_Some in Hfind as (k & Hscan & Hfind).
  case_decide as Hk; [|done].
  assert (p_qhd = PoolQhd (Z.to_nat (uint8 (dev_addr - 1))) k) as ->
    by congruence.
  clear Hfind.
  (* the writes *)
  unfold qhd_init in Hinit.
  apply bind_Some in Hinit as (dev & Hdv & Hinit).
  apply modify_qhd_inv in Hinit as [[old Hold] ->].
  apply modify_qhd_inv in Hcc as [_ ->].
  unfold list_insert in Hins.
  apply bind_Some in Hins as (c & Hc & Hins).
  apply bind_Some in Hins as (s2' & Hnew & Hins).
  apply modify_qhd_inv in Hnew as [_ ->].
  apply modify_qhd_inv in Hins as [_ ->].
  assert (Hne : list_head ≠ PoolQhd (Z.to_nat (uint8 (dev_addr - 1))) k).
  { destruct (bmAttributes_xfer desc =? TUSB_XFER_BULK);
      [by injection Hhead as <-|].
    destruct (bmAttributes_xfer desc =? TUSB_XFER_INTERRUPT);
      [by injection Hhead as <-|done]. }
  set (p_qhd := PoolQhd (Z.to_nat (uint8 (dev_addr - 1))) k) in *.
  match goal with
  | H : qhd_get_index ?st _ = _ |- _ => set (s3 := st) in *
  end.
  assert (Hload : exists nx,
    load_qhd (ehci_data s3) p_qhd =
    Some (set_qhd_next nx
            (set_class_code cc
               (qhd_init_value old dev dev_addr (wMaxPacketSize_size desc)
                  (bEndpointAddress desc) (bmAttributes_xfer desc))))).
  { eexists. subst s3. autorewrite with hcd. rewrite Hold. reflexivity. }
  destruct Hload as [nx Hload].
  unfold qhd_get_index in Hidx. rewrite Hload in Hidx.
  subst p_qhd. cbn [mbind option_bind] in Hidx.
  case_decide as Hda; [|done]. injection Hidx as <-.
  cbn [device_address set_qhd_next set_class_code qhd_init_value] in Hda.
  destruct Hda as [Hda1 Hda2].
  assert (Hu8 : uint8 (dev_addr - 1) = dev_addr - 1).
  { unfold uint8. apply Z.mod_small. lia. }
  rewrite Hu8 in *.
  assert (Hbf : bitfield 7 dev_addr = dev_addr) by lia.
  destruct Hok as ((_ & Hmq & _) & _).
  assert (Hk8 : uint8 (Z.of_nat k) = Z.of_nat k).
  { unfold uint8. apply Z.mod_small. lia. }
  eexists _, _. split.
  { unfold qhd_find_free. rewrite Hu8, Hscan. cbn [mbind option_bind].
    rewrite decide_True by done. reflexivity. }
  split.
  { unfold qhd_get_from_pipe_handle. cbn [hdl_dev_addr hdl_index].
    rewrite decide_True by lia. rewrite Hk8, Nat2Z.id. reflexivity. }
  split.
  { unfold qhd_get_index. rewrite Hload. cbn [mbind option_bind].
    rewrite decide_True; [done|].
    cbn [device_address set_qhd_next set_class_code qhd_init_value]. lia. }
  split; [exact Hload|].
  split; [done|]. split; [exact Hbf|]. split; [done|].
  cbn [endpoint_number set_qhd_next set_class_code qhd_init_value].
  apply bitfield_small; [lia|].
  change 15 with (Z.ones 4). rewrite Z.land_ones by lia.
  apply Z.mod_pos_bound. lia.
Qed.

End PipeTransfer.

(** ** Updates keep the array sizes *)

Lemma state_ok_upd_qhd cfg s p f : state_ok cfg s -> state_ok cfg (upd_qhd s p f).
Proof.
  intros (Hc & Ha & H0 & Hp & Hd & Hdev & Hu). unfold upd_qhd.
  destruct (load_qhd (ehci_data s) p) as [q|]; [|done].
  destruct p as [h|h|d|d i]; split_and!; simpl;
    rewrite ?length_insert, ?length_alter; try done;
    apply Forall_alter; try done;
    intros dv _ (H1 & H2 & H3); split_and!; simpl;
    rewrite ?length_insert; done.
Qed.

Lemma state_ok_upd_qtd cfg s p f : state_ok cfg s -> state_ok cfg (upd_qtd s p f).
Proof.
  intros (Hc & Ha & H0 & Hp & Hd & Hdev & Hu). unfold upd_qtd.
  destruct (load_qtd (ehci_data s) p) as [q|]; [|done].
  destruct p as [i|d i|d i]; split_and!; simpl;
    rewrite ?length_insert, ?length_alter; try done;
    apply Forall_alter; try done;
    intros dv _ (H1 & H2 & H3); split_and!; simpl;
    rewrite ?length_insert; done.
Qed.

Lemma state_ok_set_usbh_devices cfg s i d :
  state_ok cfg s ->
  state_ok cfg (set_usbh_devices (<[i := d]> (usbh_devices s)) s).
Proof.
  intros (Hc & Ha & H0 & Hp & Hd & Hdev & Hu).
  split_and!; simpl; rewrite ?length_insert; done.
Qed.

(** ** The async-advance handler *)

Lemma device_untouched_refl s d : device_untouched s s d.
Proof. by repeat split. Qed.

Lemma device_untouched_trans s1 s2 s3 d :
  device_untouched s1 s2 d -> device_untouched s2 s3 d ->
  device_untouched s1 s3 d.
Proof.
  intros (A1 & A2 & A3 & A4 & A5) (B1 & B2 & B3 & B4 & B5).
  split_and!; intros; congruence.
Qed.

Lemma device_freed_untouched s s' d :
  device_freed s d -> device_untouched s s' d -> device_freed s' d.
Proof.
  intros (F1 & F2 & F3 & F4) (B1 & B2 & B3 & B4 & B5).
  split_and!.
  - by rewrite B1.
  - by rewrite B5.
  - intros i q. rewrite B2. apply F3.
  - intros i t. rewrite B4. apply F4.
Qed.

Lemma free_qhd_loop d count : forall start s,
  (forall i, (start <= i < start + count)%nat ->
             is_Some (load_qhd (ehci_data s) (PoolQhd d i))) ->
  exists s',
    for_loop start count (fun i s =>
      s ← modify_qhd s (PoolQhd d i) (set_qhd_used 0);
      modify_qhd s (PoolQhd d i) (set_is_removing 0)) s = Some s' ∧
    (forall cfg, state_ok cfg s -> state_ok cfg s') ∧
    usbh_devices s' = usbh_devices s ∧
    (forall p, load_qtd (ehci_data s') p = load_qtd (ehci_data s) p) ∧
    (forall i, (start <= i < start + count)%nat ->
       load_qhd (ehci_data s') (PoolQhd d i) =
       (fun q => set_is_removing 0 (set_qhd_used 0 q)) <$>
       load_qhd (ehci_data s) (PoolQhd d i)) ∧
    (forall p, (forall i, (start <= i < start + count)%nat -> p ≠ PoolQhd d i) ->
       load_qhd (ehci_data s') p = load_qhd (ehci_data s) p).
Proof.
  induction count as [|n IH]; intros start s Hvalid; cbn [for_loop].
  - exists s. split_and!; try done. intros; lia.
  - pose proof (Hvalid start ltac:(lia)) as Hs.
    repeat exec_write.
    set (s1 := upd_qhd (upd_qhd s (PoolQhd d start) (set_qhd_used 0))
                       (PoolQhd d start) (set_is_removing 0)).
    destruct (IH (S start) s1) as (s' & Hrun & Hok & Hu & Hqtd & Hin & Hout).
    { intros i Hi. subst s1.
      rewrite !is_Some_load_qhd_upd_qhd. apply Hvalid. lia. }
    exists s'. split; [done|]. split_and!.
    + intros cfg Hc. apply Hok. subst s1. by do 2 apply state_ok_upd_qhd.
    + rewrite Hu. subst s1. by autorewrite with hcd.
    + intros p. rewrite Hqtd. subst s1. by autorewrite with hcd.
    + intros i Hi. destruct (decide (i = start)) as [->|Hne].
      * rewrite Hout by (intros j Hj [=]; lia).
        subst s1. autorewrite with hcd.
        by destruct (load_qhd (ehci_data s) (PoolQhd d start)).
      * rewrite Hin by lia. subst s1. autorewrite with hcd. done.
    + intros p Hp. rewrite Hout by (intros i Hi; apply Hp; lia).
      subst s1. rewrite !load_qhd_upd_qhd_ne; [done| |];
        intros <-; by apply (Hp start ltac:(lia)).
Qed.

Lemma free_qtd_loop d count : forall start s,
  (forall i, (start <= i < start + count)%nat ->
             is_Some (load_qtd (ehci_data s) (PoolQtd d i))) ->
  exists s',
    for_loop start count (fun i s =>
      modify_qtd s (PoolQtd d i) (set_qtd_used 0)) s = Some s' ∧
    (forall cfg, state_ok cfg s -> state_ok cfg s') ∧
    usbh_devices s' = usbh_devices s ∧
    (forall p, load_qhd (ehci_data s') p = load_qhd (ehci_data s) p) ∧
    (forall i, (start <= i < start + count)%nat ->
       load_qtd (ehci_data s') (PoolQtd d i) =
       set_qtd_used 0 <$> load_qtd (ehci_data s) (PoolQtd d i)) ∧
    (forall p, (forall i, (start <= i < start + count)%nat -> p ≠ PoolQtd d i) ->
       load_qtd (ehci_data s') p = load_qtd (ehci_data s) p).
Proof.
  induction count as [|n IH]; intros start s Hvalid; cbn [for_loop].
  - exists s. split_and!; try done. intros; lia.
  - pose proof (Hvalid start ltac:(lia)) as Hs.
    repeat exec_write.
    set (s1 := upd_qtd s (PoolQtd d start) (set_qtd_used 0)).
    destruct (IH (S start) s1) as (s' & Hrun & Hok & Hu & Hqhd & Hin & Hout).
    { intros i Hi. subst s1.
      rewrite !is_Some_load_qtd_upd_qtd. apply Hvalid. lia. }
    exists s'. split; [done|]. split_and!.
    + intros cfg Hc. apply Hok. subst s1. by apply state_ok_upd_qtd.
    + rewrite Hu. subst s1. by autorewrite with hcd.
    + intros p. rewrite Hqhd. subst s1. by autorewrite with hcd.
    + intros i Hi. destruct (decide (i = start)) as [->|Hne].
      * rewrite Hout by (intros j Hj [=]; lia).
        subst s1. by autorewrite with hcd.
      * rewrite Hin by lia. subst s1. autorewrite with hcd. done.
    + intros p Hp. rewrite Hout by (intros i Hi; apply Hp; lia).
      subst s1. rewrite !load_qtd_upd_qtd_ne; [done|];
        intros <-; by apply (Hp start ltac:(lia)).
Qed.

Lemma heads_untouched_refl s : heads_untouched s s.
Proof. by repeat split. Qed.

Lemma heads_untouched_trans s1 s2 s3 :
  heads_untouched s1 s2 -> heads_untouched s2 s3 -> heads_untouched s1 s3.
Proof.
  intros (A1 & A2 & A3 & A4) (B1 & B2 & B3 & B4).
  split_and!; intros; congruence.
Qed.

Lemma async_advance_device_spec cfg d s :
  state_ok cfg s ->
  (d < TUSB_CFG_HOST_DEVICE_MAX cfg)%nat ->
  exists s',
    async_advance_device cfg d s = Some s' ∧
    state_ok cfg s' ∧
    (forall c, load_qhd (ehci_data s) (ControlQhd d) = Some c ->
               (is_removing c ≠ 0 -> device_freed s' d) ∧
               (is_removing c = 0 -> s' = s)) ∧
    (forall d', d' ≠ d -> device_untouched s s' d') ∧
    heads_untouched s s'.
Proof.
  intros Hok Hd. unfold async_advance_device.
  assert (Hc : is_Some (load_qhd (ehci_data s) (ControlQhd d)))
    by (by apply (load_qhd_is_Some cfg s _ Hok)).
  destruct Hc as [c Hc]. rewrite Hc. cbn [mbind option_bind].
  destruct (Z.eqb_spec (is_removing c) 0) as [Hz|Hnz].
  { exists s. split; [done|]. split; [done|].
    split; [by intros c' [= <-]|].
    split; [intros; apply device_untouched_refl|apply heads_untouched_refl]. }
  repeat exec_write.
  set (s1 := upd_qhd (upd_qhd s (ControlQhd d) (set_is_removing 0))
                     (ControlQhd d) (set_qhd_used 0)).
  assert (Hok1 : state_ok cfg s1) by (by do 2 apply state_ok_upd_qhd).
  assert (Hlen : (S d < length (usbh_devices s1))%nat).
  { destruct Hok1 as (_ & _ & _ & _ & _ & _ & ->). lia. }
  destruct (lookup_lt_is_Some_2 _ _ Hlen) as [dev Hdev].
  rewrite Hdev. cbn [mbind option_bind].
  set (s2 := set_usbh_devices _ s1).
  assert (Hok2 : state_ok cfg s2) by (by apply state_ok_set_usbh_devices).
  destruct (free_qhd_loop d (EHCI_MAX_QHD cfg) 0 s2)
    as (s3 & Hrun3 & Hok3 & Hu3 & Hqtd3 & Hin3 & Hout3).
  { intros i Hi. apply (load_qhd_is_Some cfg s2 _ Hok2). simpl. lia. }
  rewrite Hrun3. cbn [mbind option_bind].
  specialize (Hok3 cfg Hok2).
  destruct (free_qtd_loop d (EHCI_MAX_QTD cfg) 0 s3)
    as (s4 & Hrun4 & Hok4 & Hu4 & Hqhd4 & Hin4 & Hout4).
  { intros i Hi. apply (load_qtd_is_Some cfg s3 _ Hok3). simpl. lia. }
  rewrite Hrun4. specialize (Hok4 cfg Hok3).
  exists s4. split; [done|]. split; [done|].
  assert (Hq2 : forall p, load_qhd (ehci_data s2) p =
                          load_qhd (ehci_data s1) p) by done.
  assert (Ht2 : forall p, load_qtd (ehci_data s2) p =
                          load_qtd (ehci_data s) p).
  { intros p. subst s2 s1. cbn [ehci_data set_usbh_devices].
    by autorewrite with hcd. }
  split_and!.
  - intros c' [= <-]. split; [|done]. intros _. split_and!.
    + eexists. split.
      * rewrite Hqhd4, Hout3 by done. rewrite Hq2. subst s1.
        autorewrite with hcd. rewrite Hc. reflexivity.
      * done.
    + exists (set_state TUSB_DEVICE_STATE_UNPLUG dev). split; [|done].
      rewrite Hu4, Hu3. subst s2. cbn [usbh_devices set_usbh_devices].
      by apply list_lookup_insert_eq.
    + intros i q Hq. rewrite Hqhd4 in Hq.
      assert (Hi : (i < EHCI_MAX_QHD cfg)%nat).
      { assert (Hv : is_Some (load_qhd (ehci_data s3) (PoolQhd d i))) by eauto.
        apply (load_qhd_is_Some cfg s3 _ Hok3) in Hv. simpl in Hv. lia. }
      rewrite Hin3 in Hq by lia.
      apply fmap_Some in Hq as (q0 & _ & ->). done.
    + intros i t Ht.
      assert (Hi : (i < EHCI_MAX_QTD cfg)%nat).
      { assert (Hv : is_Some (load_qtd (ehci_data s4) (PoolQtd d i))) by eauto.
        apply (load_qtd_is_Some cfg s4 _ Hok4) in Hv. simpl in Hv. lia. }
      rewrite Hin4 in Ht by lia.
      apply fmap_Some in Ht as (t0 & _ & ->). done.
  - intros d' Hne. split_and!.
    + rewrite Hqhd4, Hout3 by done. rewrite Hq2. subst s1.
      by rewrite !load_qhd_upd_qhd_ne by congruence.
    + intros i. rewrite Hqhd4, Hout3 by (intros; congruence).
      rewrite Hq2. subst s1. by rewrite !load_qhd_upd_qhd_ne by congruence.
    + intros i. rewrite Hout4, Hqtd3 by done. apply Ht2.
    + intros i. rewrite Hout4, Hqtd3 by (intros; congruence). apply Ht2.
    + rewrite Hu4, Hu3. subst s2 s1. cbn [usbh_devices set_usbh_devices].
      rewrite list_lookup_insert_ne by congruence.
      by autorewrite with hcd.
  - split_and!.
    + intros h. rewrite Hqhd4, Hout3 by done. rewrite Hq2. subst s1.
      by rewrite !load_qhd_upd_qhd_ne by congruence.
    + intros h. rewrite Hqhd4, Hout3 by done. rewrite Hq2. subst s1.
      by rewrite !load_qhd_upd_qhd_ne by congruence.
    + intros i. rewrite Hout4, Hqtd3 by done. apply Ht2.
    + rewrite Hu4, Hu3. subst s2 s1. cbn [usbh_devices set_usbh_devices].
      rewrite list_lookup_insert_ne by congruence.
      by autorewrite with hcd.
Qed.

Lemma device_loop_spec cfg count : forall start s,
  state_ok cfg s ->
  (start + count <= TUSB_CFG_HOST_DEVICE_MAX cfg)%nat ->
  exists s',
    for_loop start count (async_advance_device cfg) s = Some s' ∧
    state_ok cfg s' ∧
    (forall d c, (start <= d < start + count)%nat ->
       load_qhd (ehci_data s) (ControlQhd d) = Some c ->
       (is_removing c ≠ 0 -> device_freed s' d) ∧
       (is_removing c = 0 -> device_untouched s s' d)) ∧
    (forall d, ¬ (start <= d < start + count)%nat -> device_untouched s s' d) ∧
    heads_untouched s s'.
Proof.
  induction count as [|n IH]; intros start s Hok Hle; cbn [for_loop].
  - exists s. split; [done|]. split; [done|].
    split; [intros; lia|].
    split; [intros; apply device_untouched_refl|apply heads_untouched_refl].
  - destruct (async_advance_device_spec cfg start s Hok ltac:(lia))
      as (s1 & Hrun1 & Hok1 & Hdev1 & Hother1 & Hheads1).
    rewrite Hrun1. cbn [mbind option_bind].
    destruct (IH (S start) s1 Hok1 ltac:(lia))
      as (s' & Hrun & Hok' & Hdev & Hother & Hheads).
    exists s'. split; [done|]. split; [done|]. split_and!.
    + intros d c Hd Hc. destruct (decide (d = start)) as [->|Hne].
      * destruct (Hdev1 c Hc) as [Hf Hu].
        pose proof (Hother start ltac:(lia)) as Hst.
        split.
        -- intros Hr. eapply device_freed_untouched; eauto.
        -- intros Hr. by rewrite <- (Hu Hr) at 1.
      * pose proof (Hother1 d Hne) as Hst.
        assert (Hc1 : load_qhd (ehci_data s1) (ControlQhd d) = Some c)
          by (destruct Hst as (-> & _); done).
        destruct (Hdev d c ltac:(lia) Hc1) as [Hf Hu].
        split; [done|].
        intros Hr. eapply device_untouched_trans; eauto.
    + intros d Hd. eapply device_untouched_trans.
      * apply Hother1. lia.
      * apply Hother. lia.
    + eapply heads_untouched_trans; eauto.
Qed.

Lemma async_advance_isr_spec cfg s hostid :
  state_ok cfg s ->
  valid_qhd_ptr cfg (get_async_head cfg hostid) ->
  exists s',
    async_advance_isr cfg s (get_async_head cfg hostid) = Some s' ∧
    state_ok cfg s' ∧
    (forall d c, load_qhd (ehci_data s) (ControlQhd d) = Some c ->
       (is_removing c ≠ 0 -> device_freed s' d) ∧
       (is_removing c = 0 -> device_untouched s s' d)) ∧
    (forall h, load_qhd (ehci_data s) (get_async_head cfg hostid) = Some h ->
       load_qhd (ehci_data s') (get_async_head cfg hostid) =
       Some (if is_removing h =? 0 then h
             else set_qtd_overlay (set_halted 1 (qtd_overlay h))
                    (set_p_qtd_list_head None
                       (set_p_qtd_list_tail None (set_is_removing 0 h))))).
Proof.
  intros Hok Hv. unfold async_advance_isr.
  apply (load_qhd_is_Some cfg s _ Hok) in Hv as [h Hh].
  rewrite Hh. cbn [mbind option_bind].
  set (head := get_async_head cfg hostid) in *.
  assert (Hhead : exists k, head = AsyncHead k) by (eexists; reflexivity).
  destruct Hhead as [k Hk]. clearbody head.
  assert (Hblock : exists s0,
    (if is_removing h =? 0 then Some s
     else
       modify_qhd s head (set_is_removing 0) ≫= fun s =>
       modify_qhd s head (set_p_qtd_list_tail None) ≫= fun s =>
       modify_qhd s head (set_p_qtd_list_head None) ≫= fun s =>
       modify_qhd s head (fun h =>
         set_qtd_overlay (set_halted 1 (qtd_overlay h)) h)) = Some s0 ∧
    state_ok cfg s0 ∧
    usbh_devices s0 = usbh_devices s ∧
    (forall p, load_qtd (ehci_data s0) p = load_qtd (ehci_data s) p) ∧
    (forall p, p ≠ head ->
               load_qhd (ehci_data s0) p = load_qhd (ehci_data s) p) ∧
    load_qhd (ehci_data s0) head =
      Some (if is_removing h =? 0 then h
            else set_qtd_overlay (set_halted 1 (qtd_overlay h))
                   (set_p_qtd_list_head None
                      (set_p_qtd_list_tail None (set_is_removing 0 h))))).
  { destruct (is_removing h =? 0).
    - exists s. by split_and!.
    - repeat exec_write. eexists. split; [reflexivity|]. split_and!.
      + by do 4 apply state_ok_upd_qhd.
      + by autorewrite with hcd.
      + intros p. by autorewrite with hcd.
      + intros p Hp. by rewrite !load_qhd_upd_qhd_ne by congruence.
      + autorewrite with hcd. rewrite Hh. reflexivity. }
  destruct Hblock as (s0 & -> & Hok0 & Hu0 & Hqtd0 & Hqhd0 & Hhead0).
  cbn [mbind option_bind].
  destruct (device_loop_spec cfg (TUSB_CFG_HOST_DEVICE_MAX cfg) 0 s0 Hok0
              ltac:(lia))
    as (s' & Hrun & Hok' & Hdev & _ & Hheads).
  exists s'. split; [done|]. split; [done|]. split.
  - intros d c Hc.
    assert (Hun : device_untouched s s0 d).
    { subst head. split_and!; intros; rewrite ?Hqtd0, ?Hqhd0, ?Hu0; done. }
    assert (Hd : (d < TUSB_CFG_HOST_DEVICE_MAX cfg)%nat).
    { assert (Hs : is_Some (load_qhd (ehci_data s) (ControlQhd d))) by eauto.
      by apply (load_qhd_is_Some cfg s _ Hok) in Hs. }
    assert (Hc0 : load_qhd (ehci_data s0) (ControlQhd d) = Some c)
      by (destruct Hun as (-> & _); done).
    destruct (Hdev d c ltac:(lia) Hc0) as [Hf Hu].
    split; [done|]. intros Hr. eapply device_untouched_trans; eauto.
  - intros h' Hh'. assert (h' = h) as -> by congruence.
    subst head. destruct Hheads as (-> & _). done.
Qed.

Section AsyncAdvance.

Context (cfg : hcd_config).

(** C3 (amended). On an async-advance event the handler completes every
    device whose control queue head is pending with [is_removing]: it
    clears [used] and [is_removing] of that control queue head, sets the
    state of the owning device (table entry [slot + 1]) to UNPLUG, and
    clears [used] on every queue head and qTD of the pools of that
    device.  A device whose control queue head is not being removed is
    left exactly as it was, pool queue heads marked [is_removing]
    included. *)
Theorem async_advance_isr_reclaims_devices s hostid :
  state_ok cfg s ->
  valid_qhd_ptr cfg (get_async_head cfg hostid) ->
  exists s',
    async_advance_isr cfg s (get_async_head cfg hostid) = Some s' ∧
    state_ok cfg s' ∧
    forall d c, load_qhd (ehci_data s) (ControlQhd d) = Some c ->
      (is_removing c ≠ 0 -> device_freed s' d) ∧
      (is_removing c = 0 -> device_untouched s s' d).
Proof.
  intros Hok Hv.
  destruct (async_advance_isr_spec cfg s hostid Hok Hv)
    as (s' & Hrun & Hok' & Hdev & _).
  eauto.
Qed.

End AsyncAdvance.

Section Address0.

Context (cfg : hcd_config) {L : Layout cfg}.

(** C2 (amended). After [hcd_pipe_control_open(0, 8)] the asynchronous
    head has [head_list_flag = 1] and its overlay has [halted = 0]: the
    overlay of the head is not halted for good.  [hcd_controller_init]
    leaves it halted, opening the address-0 control pipe makes it active,
    and [async_advance_isr] halts it again once the address-0 pipe is
    being removed. *)
Theorem hcd_pipe_control_open_addr0 s p_head hostid :
  state_ok cfg s ->
  get_control_qhd cfg s 0 = Some p_head ->
  valid_qhd_ptr cfg p_head ->
  valid_qhd_ptr cfg (get_async_head cfg hostid) ->
  (exists s' q,
      hcd_pipe_control_open cfg s 0 8 = Some (TUSB_ERROR_NONE, s') ∧
      load_qhd (ehci_data s') p_head = Some q ∧
      head_list_flag q = 1 ∧ halted (qtd_overlay q) = 0) ∧
  (exists s' q,
      hcd_controller_init cfg s hostid = Some (TUSB_ERROR_NONE, s') ∧
      load_qhd (ehci_data s') (get_async_head cfg hostid) = Some q ∧
      head_list_flag q = 1 ∧ halted (qtd_overlay q) = 1) ∧
  (forall h,
      load_qhd (ehci_data s) (get_async_head cfg hostid) = Some h ->
      is_removing h ≠ 0 ->
      exists s' q,
        async_advance_isr cfg s (get_async_head cfg hostid) = Some s' ∧
        load_qhd (ehci_data s') (get_async_head cfg hostid) = Some q ∧
        halted (qtd_overlay q) = 1).
Proof.
  intros Hok Hget Hv Hvh. split_and!.
  - unfold hcd_pipe_control_open, qhd_init. rewrite Hget.
    cbn [mbind option_bind].
    unfold get_control_qhd in Hget. cbn [Z.eqb] in Hget.
    destruct (usbh_devices s !! Z.to_nat 0) as [dev|] eqn:Hdev; [|done].
    cbn [mbind option_bind].
    apply (load_qhd_is_Some cfg s _ Hok) in Hv as [h Hh].
    exec_write. cbn [Z.eqb mbind option_bind].
    eexists _, _. split; [reflexivity|].
    split; [autorewrite with hcd; rewrite Hh; reflexivity|]. done.
  - unfold hcd_controller_init.
    assert (Hvp : valid_qhd_ptr cfg (get_period_head cfg hostid)) by done.
    apply (load_qhd_is_Some cfg s _ Hok) in Hvh as [h Hh].
    apply (load_qhd_is_Some cfg s _ Hok) in Hvp as [ph Hph].
    assert (Hne : get_period_head cfg hostid ≠ get_async_head cfg hostid)
      by done.
    set (head := get_async_head cfg hostid) in *.
    set (phead := get_period_head cfg hostid) in *.
    clearbody head phead.
    repeat exec_write.
    destruct (EHCI_PERIODIC_LIST cfg); repeat exec_write;
      (eexists _, _; split; [reflexivity|];
       split; [autorewrite with hcd; rewrite Hh; reflexivity|]; done).
  - intros h Hh Hr.
    destruct (async_advance_isr_spec cfg s hostid Hok Hvh)
      as (s' & Hrun & _ & _ & Hhead).
    specialize (Hhead h Hh).
    destruct (Z.eqb_spec (is_removing h) 0); [done|].
    eexists _, _. split; [done|]. split; [exact Hhead|]. done.
Qed.

End Address0.

(** ** Alignment and link words *)

Lemma align32_uint32 w : align32 (uint32 w) = align32 w.
Proof.
  unfold align32, uint32. rewrite <- Z.land_ones by lia.
  by rewrite <- Z.land_assoc.
Qed.

Lemma align32_aligned a :
  0 <= a < 2 ^ 32 -> Z.land a 31 = 0 -> align32 a = a.
Proof.
  intros Hr Ha. unfold align32.
  rewrite <- (Z.mod_small a (2 ^ 32)) at 2 by done.
  rewrite <- Z.land_ones by lia.
  change (Z.ones 32) with (Z.lor 0xFFFFFFE0 31).
  by rewrite Z.land_lor_distr_r, Ha, Z.lor_0_r.
Qed.

Lemma align32_link_set_type l :
  align32 (link_set_type EHCI_QUEUE_ELEMENT_QHD l) = align32 l.
Proof.
  unfold align32, link_set_type.
  rewrite Z.land_lor_distr_l, <- Z.land_assoc.
  by rewrite Z.lor_0_r.
Qed.

Lemma link_type_link_set_type l :
  link_type (link_set_type EHCI_QUEUE_ELEMENT_QHD l) = EHCI_QUEUE_ELEMENT_QHD.
Proof.
  unfold link_type, link_set_type.
  rewrite Z.shiftr_lor, Z.shiftr_land, Z.land_lor_distr_l, <- Z.land_assoc.
  change (Z.land (Z.shiftr 0xFFFFFFF9 1) 3) with 0.
  by rewrite Z.land_0_r.
Qed.

(** ** The cast from an address back to a queue head *)

Lemma elem_of_all_qhd_ptrs cfg p : p ∈ all_qhd_ptrs cfg <-> valid_qhd_ptr cfg p.
Proof.
  unfold all_qhd_ptrs. rewrite !elem_of_app, !list_elem_of_fmap. split.
  - intros [(h & -> & Hh)|[(h & -> & Hh)|Hd]].
    + apply elem_of_seq in Hh. simpl. lia.
    + apply elem_of_seq in Hh. simpl. lia.
    + apply list_elem_of_bind in Hd as (d & Hp & Hd).
      apply elem_of_seq in Hd. apply elem_of_cons in Hp as [->|Hp].
      * simpl. lia.
      * apply list_elem_of_fmap in Hp as (i & -> & Hi).
        apply elem_of_seq in Hi. simpl. lia.
  - destruct p as [h|h|d|d i]; simpl; intros Hv.
    + left. exists h. split; [done|]. apply elem_of_seq. lia.
    + right; left. exists h. split; [done|]. apply elem_of_seq. lia.
    + right; right. apply list_elem_of_bind. exists d.
      split; [apply elem_of_cons; by left|]. apply elem_of_seq. lia.
    + right; right. apply list_elem_of_bind. exists d. split.
      * apply elem_of_cons. right. apply list_elem_of_fmap.
        exists i. split; [done|]. apply elem_of_seq. lia.
      * apply elem_of_seq. lia.
Qed.

Lemma qhd_of_address_valid cfg `{L : !Layout cfg} p :
  valid_qhd_ptr cfg p -> qhd_of_address cfg (qhd_address p) = Some p.
Proof.
  intros Hv. unfold qhd_of_address.
  destruct (list_find_elem_of (fun q => qhd_address q = qhd_address p)
              (all_qhd_ptrs cfg) p) as [[i q] Hfind];
    [by apply elem_of_all_qhd_ptrs|done|].
  rewrite Hfind. cbn [mbind option_bind snd].
  apply list_find_Some in Hfind as (Hi & Heq & _).
  f_equal. apply (qhd_address_inj q p); [|done|done].
  apply elem_of_all_qhd_ptrs. by eapply list_elem_of_lookup_2.
Qed.

(** ** The asynchronous list *)

Section AsyncList.

Context (cfg : hcd_config) {L : Layout cfg}.

Lemma qhd_link_valid s p q :
  state_ok cfg s -> qhd_link cfg s p q -> valid_qhd_ptr cfg p.
Proof.
  intros Hok (h & Hh & _). apply (load_qhd_is_Some cfg s _ Hok). eauto.
Qed.

Lemma qhd_chain_valid s path : forall from to,
  state_ok cfg s -> qhd_chain cfg s from path to ->
  Forall (valid_qhd_ptr cfg) (from :: path).
Proof.
  induction path as [|p rest IH]; intros from to Hok Hc; simpl in Hc.
  - constructor; [by eapply qhd_link_valid|constructor].
  - destruct Hc as [Hl Hc]. constructor; [by eapply qhd_link_valid|].
    by eapply IH.
Qed.

Lemma qhd_chain_app s l1 x l2 : forall from to,
  qhd_chain cfg s from (l1 ++ x :: l2) to <->
  qhd_chain cfg s from l1 x ∧ qhd_chain cfg s x l2 to.
Proof.
  induction l1 as [|p rest IH]; intros from to; simpl; [done|].
  rewrite IH. tauto.
Qed.

Lemma last_node_elem from path :
  last_node from path = from ∨ last_node from path ∈ path.
Proof.
  revert from. induction path as [|p rest IH]; intros from; simpl; [by left|].
  right. destruct (IH p) as [->|Hin]; [by left|by right].
Qed.

(** Links are read off the loads of the nodes they leave. *)
Lemma qhd_chain_frame s s' path : forall from to,
  (forall p, p ∈ from :: path ->
             load_qhd (ehci_data s') p = load_qhd (ehci_data s) p) ->
  qhd_chain cfg s from path to -> qhd_chain cfg s' from path to.
Proof.
  induction path as [|p rest IH]; intros from to Hsame; simpl.
  - intros (h & Hh & Ha). exists h. split; [|done].
    rewrite Hsame; [done|]. by left.
  - intros [(h & Hh & Ha) Hc]. split.
    + exists h. split; [|done]. rewrite Hsame; [done|]. by left.
    + apply IH; [|done]. intros q Hq. apply Hsame. by right.
Qed.

(** Redirecting the link of the last node of a chain. *)
Lemma qhd_chain_redirect s s' path : forall from to to',
  NoDup (from :: path) ->
  (forall p, p ∈ from :: path -> p ≠ last_node from path ->
             load_qhd (ehci_data s') p = load_qhd (ehci_data s) p) ->
  qhd_link cfg s' (last_node from path) to' ->
  qhd_chain cfg s from path to -> qhd_chain cfg s' from path to'.
Proof.
  induction path as [|p rest IH]; intros from to to' Hnd Hsame Hlast; simpl.
  - intros _. exact Hlast.
  - intros [(h & Hh & Ha) Hc].
    apply NoDup_cons in Hnd as [Hfrom Hnd]. split.
    + exists h. split; [|done]. rewrite Hsame; [done|by left|].
      intros E. cbn [last_node] in E. apply Hfrom. rewrite E.
      destruct (last_node_elem p rest) as [-> | Hin]; [by left|by right].
    + eapply IH; [done| |done|done].
      intros q Hq Hne. apply Hsame; [by right|done].
Qed.

(** The walk of [list_find_previous_qhd] along a chain that ends at the
    head or at the queue head looked for. *)
Lemma list_find_previous_qhd_walk_chain s p_head p_qhd path :
  forall fuel from x,
  qhd_chain cfg s from path x ->
  x = p_head ∨ x = p_qhd ->
  Forall (fun p => valid_qhd_ptr cfg p ∧ p ≠ p_head ∧ p ≠ p_qhd) path ->
  valid_qhd_ptr cfg p_head -> valid_qhd_ptr cfg p_qhd ->
  (length path < fuel)%nat ->
  list_find_previous_qhd_walk cfg fuel s p_head p_qhd from
    = Some (last_node from path).
Proof.
  induction path as [|p rest IH]; intros fuel from x Hc Hx Hall Hvh Hvq Hfuel;
    (destruct fuel as [|fuel]; [simpl in Hfuel; lia|]);
    cbn [list_find_previous_qhd_walk last_node].
  - destruct Hc as (h & -> & Ha). cbn [mbind option_bind].
    rewrite decide_False; [done|].
    rewrite Ha. intros [H1 H2]. by destruct Hx as [-> | ->].
  - destruct Hc as [(h & -> & Ha) Hc]. cbn [mbind option_bind].
    apply Forall_cons in Hall as [(Hvp & Hph & Hpq) Hall].
    rewrite decide_True.
    + rewrite Ha, qhd_of_address_valid by done. cbn [mbind option_bind].
      eapply IH; eauto. simpl in Hfuel. lia.
    + rewrite Ha. split; intros E; apply qhd_address_inj in E; done.
Qed.

(** When the queue head looked for is not linked, the walk runs round the
    list and [list_find_previous_qhd] returns NULL. *)
Lemma list_find_previous_qhd_not_linked s p_head p_qhd path fuel :
  state_ok cfg s ->
  circular_list cfg s p_head path ->
  p_qhd ∉ path ->
  valid_qhd_ptr cfg p_qhd ->
  (length path < fuel)%nat ->
  list_find_previous_qhd cfg fuel s p_head p_qhd = Some None.
Proof.
  intros Hok [Hnd Hc] Hnot Hvq Hfuel.
  pose proof (qhd_chain_valid s path p_head p_head Hok Hc) as Hval.
  apply Forall_cons in Hval as [Hvh Hval].
  apply NoDup_cons in Hnd as [Hhead Hnd].
  unfold list_find_previous_qhd.
  rewrite (list_find_previous_qhd_walk_chain s p_head p_qhd path fuel
             p_head p_head); try done; [|by left|].
  - cbn [mbind option_bind].
    assert (Hlast : qhd_link cfg s (last_node p_head path) p_head).
    { clear -Hc. revert Hc. generalize p_head at 1 3 as from.
      induction path as [|p rest IH]; intros from; simpl; [done|].
      intros [_ Hc]. by apply IH. }
    destruct Hlast as (h & -> & Ha). cbn [mbind option_bind].
    by rewrite decide_False by (rewrite Ha; intros E; done).
  - apply Forall_forall. intros p Hp. split_and!.
    + by eapply Forall_forall in Hval.
    + intros ->. done.
    + intros ->. done.
Qed.

Lemma qhd_chain_last_link s path : forall from to,
  qhd_chain cfg s from path to -> qhd_link cfg s (last_node from path) to.
Proof.
  induction path as [|p rest IH]; intros from to; simpl; [done|].
  intros [_ Hc]. by apply IH.
Qed.

(** C4. In a circular list rooted at [head] that links [target],
    [list_remove_qhd] succeeds, leaves the circular list without
    [target] (so that a following [list_find_previous_qhd] returns NULL),
    and rewrites the forward link of [target] to the address of [head]
    with element type QHD. *)
Theorem list_remove_qhd_unlinks s p_head l1 p_qhd_remove l2 fuel :
  state_ok cfg s ->
  circular_list cfg s p_head (l1 ++ p_qhd_remove :: l2) ->
  (length (l1 ++ p_qhd_remove :: l2) < fuel)%nat ->
  exists s' q,
    list_remove_qhd cfg fuel s p_head p_qhd_remove
      = Some (TUSB_ERROR_NONE, s') ∧
    circular_list cfg s' p_head (l1 ++ l2) ∧
    list_find_previous_qhd cfg fuel s' p_head p_qhd_remove = Some None ∧
    load_qhd (ehci_data s') p_qhd_remove = Some q ∧
    align32 (qhd_next q) = qhd_address p_head ∧
    link_type (qhd_next q) = EHCI_QUEUE_ELEMENT_QHD.
Proof.
  intros Hok [Hnd Hc] Hfuel.
  pose proof (qhd_chain_valid s _ _ _ Hok Hc) as Hval.
  apply Forall_cons in Hval as [Hvh Hval].
  apply Forall_app in Hval as [Hval1 Hval2].
  apply Forall_cons in Hval2 as [Hvr Hval2].
  apply NoDup_cons in Hnd as [Hhead Hnd].
  apply not_elem_of_app in Hhead as [Hhead1 Hhead2].
  apply not_elem_of_cons in Hhead2 as [Hhne Hhead2].
  apply NoDup_app in Hnd as (Hnd1 & Hdisj & Hnd2).
  apply NoDup_cons in Hnd2 as [Hr2 Hnd2].
  assert (Hr1 : p_qhd_remove ∉ l1).
  { intros Hin. apply (Hdisj _ Hin). by left. }
  apply qhd_chain_app in Hc as [Hc1 Hc2].
  rewrite length_app in Hfuel. simpl in Hfuel.
  pose proof (last_node_elem p_head l1) as Hprev.
  destruct (qhd_chain_last_link s l1 _ _ Hc1) as (hp & Hhp & Hap).
  remember (last_node p_head l1) as prev eqn:Eprev.
  assert (Hpr : prev ≠ p_qhd_remove).
  { intros E. destruct Hprev as [Hp|Hp]; rewrite E in Hp; [by subst|done]. }
  assert (Hnext : exists hr y,
            load_qhd (ehci_data s) p_qhd_remove = Some hr ∧
            align32 (qhd_next hr) = qhd_address y ∧
            (l2 = [] ∧ y = p_head ∨
             exists l2', l2 = y :: l2' ∧ qhd_chain cfg s y l2' p_head)).
  { destruct l2 as [|y l2']; simpl in Hc2.
    - destruct Hc2 as (hr & Hhr & Ha). exists hr, p_head. eauto.
    - destruct Hc2 as [(hr & Hhr & Ha) Hc2]. exists hr, y. eauto 10. }
  destruct Hnext as (hr & y & Hhr & Hay & Hl2).
  (* the search for the predecessor *)
  assert (Hfind : list_find_previous_qhd cfg fuel s p_head p_qhd_remove
                  = Some (Some prev)).
  { unfold list_find_previous_qhd.
    rewrite (list_find_previous_qhd_walk_chain s p_head p_qhd_remove l1
               fuel p_head p_qhd_remove); try done; [|by right| |lia].
    - cbn [mbind option_bind]. rewrite <- Eprev, Hhp.
      cbn [mbind option_bind].
      rewrite decide_True; [done|].
      rewrite Hap. intros E. apply qhd_address_inj in E; done.
    - apply Forall_forall. intros p Hp. split_and!.
      + by eapply Forall_forall in Hval1.
      + by intros ->.
      + by intros ->. }
  unfold list_remove_qhd. rewrite Hfind. cbn [mbind option_bind].
  rewrite Hhr. cbn [mbind option_bind].
  repeat exec_write.
  match goal with
  | |- context [Some (TUSB_ERROR_NONE, ?st)] => set (s' := st)
  end.
  assert (Hok' : state_ok cfg s') by (by do 3 apply state_ok_upd_qhd).
  assert (Hother : forall p, p ≠ prev -> p ≠ p_qhd_remove ->
            load_qhd (ehci_data s') p = load_qhd (ehci_data s) p).
  { intros p H1 H2. subst s'.
    by rewrite !load_qhd_upd_qhd_ne by congruence. }
  assert (Hlprev : qhd_link cfg s' prev y).
  { eexists. split.
    - subst s'. rewrite !(load_qhd_upd_qhd_ne _ p_qhd_remove) by congruence.
      rewrite load_qhd_upd_qhd_eq, Hhp. reflexivity.
    - cbn [qhd_next set_qhd_next]. unfold link_set_address.
      by rewrite align32_uint32. }
  assert (Hcirc : circular_list cfg s' p_head (l1 ++ l2)).
  { split.
    - apply NoDup_cons. split.
      + apply not_elem_of_app. done.
      + apply NoDup_app. split_and!; [done| |done].
        intros p Hp Hp2. apply (Hdisj p Hp). by right.
    - assert (Hred : qhd_chain cfg s' p_head l1 y).
      { eapply qhd_chain_redirect;
          [| |rewrite <- Eprev; exact Hlprev|exact Hc1].
        - by apply NoDup_cons.
        - intros p Hp Hne. rewrite <- Eprev in Hne. apply Hother; [done|].
          intros ->. apply elem_of_cons in Hp as [Hp|Hp]; [by subst|done]. }
      destruct Hl2 as [[-> ->]|(l2' & -> & Hc3)].
      + by rewrite app_nil_r.
      + apply qhd_chain_app. split; [done|].
        eapply qhd_chain_frame; [|exact Hc3].
        intros p Hp. apply Hother.
        * intros ->. destruct Hprev as [Hp'|Hp'].
          -- rewrite Hp' in Hp. done.
          -- apply (Hdisj _ Hp'). by right.
        * intros ->. done. }
  exists s'. eexists. split; [reflexivity|]. split; [done|]. split.
  { apply (list_find_previous_qhd_not_linked s' p_head p_qhd_remove
             (l1 ++ l2) fuel); try done.
    - apply not_elem_of_app. done.
    - rewrite length_app. lia. }
  split.
  { subst s'. autorewrite with hcd. rewrite Hhr. reflexivity. }
  split.
  - cbn [qhd_next set_qhd_next]. unfold link_set_address.
    rewrite align32_link_set_type, align32_uint32.
    apply align32_aligned.
    + pose proof (qhd_address_range _ Hvh). lia.
    + by apply qhd_address_aligned.
  - cbn [qhd_next set_qhd_next]. apply link_type_link_set_type.
Qed.

End AsyncList.

Lemma wait_while_spec busy expired k : forall fuel i,
  (i <= k)%nat ->
  expired k = true ->
  (k - i < fuel)%nat ->
  (forall j, (j < i)%nat -> busy j = true ∧ expired j = false) ->
  exists c,
    wait_while fuel busy expired i = Some c ∧
    (c <= S k)%nat ∧
    (forall j, (j < c)%nat -> busy j = true) ∧
    (forall j, (S j < c)%nat -> expired j = false) ∧
    (busy c = false ∨ exists j, c = S j ∧ expired j = true).
Proof.
  induction fuel as [|fuel IH]; intros i Hik Hk Hfuel Hpast; [lia|].
  cbn [wait_while].
  destruct (busy i) eqn:Hb.
  - destruct (expired i) eqn:He.
    + exists (S i). split; [done|]. split; [lia|]. split_and!.
      * intros j Hj. destruct (decide (j = i)) as [->|]; [done|].
        apply Hpast. lia.
      * intros j Hj. apply Hpast. lia.
      * right. eauto.
    + assert (i ≠ k) by congruence.
      apply IH; [lia|done|lia|].
      intros j Hj. destruct (decide (j = i)) as [->|]; [done|].
      apply Hpast. lia.
  - exists i. split; [done|]. split; [lia|]. split_and!.
    + intros j Hj. by apply Hpast.
    + intros j Hj. apply Hpast. lia.
    + by left.
Qed.

(** C7. [hcd_controller_stop] and [hcd_controller_reset] arm the timeout
    with 2 (frames, about 2 ms) and poll only while the timer has not
    reported expiry: once the timer reports expiry at its [k]-th check the
    function has returned after at most [k + 1] checks in the loop.  It
    returns the timeout error when the timer says expired at the final
    check, and success otherwise; with a timer that stays expired once it
    has expired, leaving the loop on expiry gives the timeout error. *)
Theorem hcd_controller_stop_reset_timeout env k fuel :
  timer_expired env 2 k = true ->
  (k < fuel)%nat ->
  (exists c,
      hcd_controller_stop fuel env
        = Some (if timer_expired env 2 c
                then TUSB_ERROR_OSAL_TIMEOUT else TUSB_ERROR_NONE) ∧
      (c <= S k)%nat ∧
      (forall j, (j < c)%nat -> usb_sts_hc_halted env j = 0) ∧
      (forall j, (S j < c)%nat -> timer_expired env 2 j = false) ∧
      (usb_sts_hc_halted env c ≠ 0 ∨
       exists j, c = S j ∧ timer_expired env 2 j = true) ∧
      ((forall j, timer_expired env 2 j = true ->
                  timer_expired env 2 (S j) = true) ->
       (exists j, c = S j ∧ timer_expired env 2 j = true) ->
       hcd_controller_stop fuel env = Some TUSB_ERROR_OSAL_TIMEOUT)) ∧
  (exists c,
      hcd_controller_reset fuel env
        = Some (if timer_expired env 2 c
                then TUSB_ERROR_OSAL_TIMEOUT else TUSB_ERROR_NONE) ∧
      (c <= S k)%nat ∧
      (forall j, (j < c)%nat -> usb_cmd_reset env j ≠ 0) ∧
      (forall j, (S j < c)%nat -> timer_expired env 2 j = false) ∧
      (usb_cmd_reset env c = 0 ∨
       exists j, c = S j ∧ timer_expired env 2 j = true) ∧
      ((forall j, timer_expired env 2 j = true ->
                  timer_expired env 2 (S j) = true) ->
       (exists j, c = S j ∧ timer_expired env 2 j = true) ->
       hcd_controller_reset fuel env = Some TUSB_ERROR_OSAL_TIMEOUT)).
Proof.
  intros Hk Hfuel. split.
  - destruct (wait_while_spec (fun i => usb_sts_hc_halted env i =? 0)
                (timeout_expired env (timeout_set 2)) k fuel 0)
      as (c & Hrun & Hc & Hbusy & Hexp & Hexit);
      [lia|done|lia|intros; lia|].
    exists c. unfold hcd_controller_stop. cbv zeta. rewrite Hrun.
    split; [done|]. split; [done|]. split_and!.
    + intros j Hj. apply Z.eqb_eq. by apply Hbusy.
    + done.
    + destruct Hexit as [Hb|Hj]; [left|by right]. by apply Z.eqb_neq.
    + intros Hmono (j & -> & Hj). cbn [mbind option_bind].
      unfold timeout_expired, timeout_set. cbn [interval].
      by rewrite (Hmono j Hj).
  - destruct (wait_while_spec (fun i => negb (usb_cmd_reset env i =? 0))
                (timeout_expired env (timeout_set 2)) k fuel 0)
      as (c & Hrun & Hc & Hbusy & Hexp & Hexit);
      [lia|done|lia|intros; lia|].
    exists c. unfold hcd_controller_reset. cbv zeta. rewrite Hrun.
    split; [done|]. split; [done|]. split_and!.
    + intros j Hj. apply Z.eqb_neq. apply negb_true_iff. by apply Hbusy.
    + done.
    + destruct Hexit as [Hb|Hj]; [left|by right].
      apply Z.eqb_eq. by apply negb_false_iff.
    + intros Hmono (j & -> & Hj). cbn [mbind option_bind].
      unfold timeout_expired, timeout_set. cbn [interval].
      by rewrite (Hmono j Hj).
Qed.

(** Witness for C7: [slow_env], whose timer expires at check 5. *)
Lemma hcd_controller_stop_reset_timeout_witness :
  hcd_controller_stop 8 slow_env = Some TUSB_ERROR_NONE ∧
  hcd_controller_reset 8 slow_env = Some TUSB_ERROR_OSAL_TIMEOUT.
Proof.
  destruct (hcd_controller_stop_reset_timeout slow_env 5 8)
    as [(c1 & H1 & _) (c2 & H2 & _)].
  - reflexivity.
  - lia.
  - split; reflexivity.
Defined.

(** ** Further witnesses and counterexamples *)

Lemma lpc_state_bulk_ok : state_ok lpc_cfg lpc_state_bulk.
Proof.
  split_and!; try (vm_compute; lia); try reflexivity.
  repeat constructor.
Qed.

Lemma lpc_state_closing_ok : state_ok lpc_cfg lpc_state_closing.
Proof.
  split_and!; try (vm_compute; lia); try reflexivity.
  repeat constructor.
Qed.

Lemma lpc_state_full_ok : state_ok lpc_cfg lpc_state_full.
Proof.
  split_and!; try (vm_compute; lia); try reflexivity.
  repeat constructor.
Qed.

(** Counterexample to C2 as stated: on the freshly initialised state,
    opening the address-0 control pipe leaves the head not halted. *)
Lemma hcd_pipe_control_open_addr0_not_halted :
  exists s' q,
    hcd_pipe_control_open lpc_cfg lpc_state0 0 8
      = Some (TUSB_ERROR_NONE, s') ∧
    load_qhd (ehci_data s') (AsyncHead 0) = Some q ∧
    head_list_flag q = 1 ∧
    halted (qtd_overlay q) ≠ 1.
Proof.
  eexists _, _. split; [reflexivity|]. split; [reflexivity|].
  split; [reflexivity|]. discriminate.
Qed.

(** Witness for C2. *)
Lemma hcd_pipe_control_open_addr0_witness :
  exists s' q,
    hcd_pipe_control_open lpc_cfg lpc_state0 0 8
      = Some (TUSB_ERROR_NONE, s') ∧
    load_qhd (ehci_data s') (AsyncHead 0) = Some q ∧
    head_list_flag q = 1 ∧ halted (qtd_overlay q) = 0.
Proof.
  destruct (hcd_pipe_control_open_addr0 lpc_cfg lpc_state0 (AsyncHead 0) 0)
    as [H _].
  - exact lpc_state0_ok.
  - reflexivity.
  - cbn; lia.
  - cbn; lia.
  - exact H.
Defined.

(** Counterexample to C3 as stated: a bulk queue head closed with
    [hcd_pipe_close] is pending with [is_removing = 1], and the
    async-advance handler leaves it in use. *)
Lemma async_advance_isr_keeps_closed_bulk_qhd :
  exists s q s' q',
    hcd_pipe_close lpc_cfg 8 lpc_state_bulk lpc_bulk_handle
      = Some (TUSB_ERROR_NONE, s) ∧
    load_qhd (ehci_data s) (PoolQhd 0 0) = Some q ∧
    is_removing q = 1 ∧
    async_advance_isr lpc_cfg s (AsyncHead 0) = Some s' ∧
    load_qhd (ehci_data s') (PoolQhd 0 0) = Some q' ∧
    qhd_used q' = 1 ∧ is_removing q' = 1.
Proof.
  eexists _, _, _, _. split; [vm_compute; reflexivity|].
  split; [reflexivity|]. split; [reflexivity|].
  split; [vm_compute; reflexivity|].
  split; [reflexivity|]. split; reflexivity.
Qed.

(** Witness for C3: closing the control pipe of device address 1 and
    then taking the async-advance interrupt reclaims device slot 0. *)
Lemma async_advance_isr_reclaims_devices_witness :
  exists s',
    async_advance_isr lpc_cfg lpc_state_closing (AsyncHead 0) = Some s' ∧
    device_freed s' 0.
Proof.
  destruct (async_advance_isr_reclaims_devices lpc_cfg lpc_state_closing 0)
    as (s' & Hrun & _ & Hdev).
  - exact lpc_state_closing_ok.
  - cbn; lia.
  - exists s'. split; [exact Hrun|].
    destruct (Hdev 0%nat _ eq_refl) as [Hfreed _].
    apply Hfreed. discriminate.
Defined.

(** Witness for C4: removing the control queue head of device address 1
    from the list head -> bulk -> control -> head. *)
Lemma list_remove_qhd_unlinks_witness :
  exists s' q,
    list_remove_qhd lpc_cfg 8 lpc_state_bulk (AsyncHead 0) (ControlQhd 0)
      = Some (TUSB_ERROR_NONE, s') ∧
    circular_list lpc_cfg s' (AsyncHead 0) [PoolQhd 0 0] ∧
    list_find_previous_qhd lpc_cfg 8 s' (AsyncHead 0) (ControlQhd 0)
      = Some None ∧
    load_qhd (ehci_data s') (ControlQhd 0) = Some q ∧
    align32 (qhd_next q) = qhd_address (AsyncHead 0) ∧
    link_type (qhd_next q) = EHCI_QUEUE_ELEMENT_QHD.
Proof.
  apply (list_remove_qhd_unlinks lpc_cfg lpc_state_bulk (AsyncHead 0)
           [PoolQhd 0 0] (ControlQhd 0) [] 8).
  - exact lpc_state_bulk_ok.
  - split.
    + apply (bool_decide_unpack _). vm_compute. exact I.
    + repeat split; eexists; (split; [reflexivity|reflexivity]).
  - cbn; lia.
Defined.

(** Witness for C6. *)
Lemma hcd_pipe_xfer_pool_exhausted_witness :
  hcd_pipe_xfer lpc_cfg lpc_state_full lpc_bulk_handle 0x10000000 512 true
    = Some (TUSB_ERROR_EHCI_NOT_ENOUGH_QTD, lpc_state_full).
Proof.
  apply (hcd_pipe_xfer_pool_exhausted lpc_cfg lpc_state_full lpc_bulk_handle).
  - exact lpc_state_full_ok.
  - cbn; lia.
  - intros i t. destruct i as [|[|[|i]]]; cbn; intros [= <-]; discriminate.
Defined.

(** Witness for C8: 512 bytes on the high-speed bulk OUT pipe. *)
Lemma hcd_pipe_xfer_ping_witness :
  exists s' qtd qhd',
    hcd_pipe_xfer lpc_cfg lpc_state_bulk lpc_bulk_handle 0x10000000 512 true
      = Some (TUSB_ERROR_NONE, s') ∧
    load_qtd (ehci_data s') (PoolQtd 0 0) = Some qtd ∧
    load_qhd (ehci_data s') (PoolQhd 0 0) = Some qhd' ∧
    pid qtd = EHCI_PID_OUT ∧ pingstate_err qtd = 1 ∧
    p_qtd_list_tail qhd' = Some (PoolQtd 0 0).
Proof.
  destruct (hcd_pipe_xfer_ping lpc_cfg lpc_state_bulk lpc_bulk_handle
              0x10000000 512 true (PoolQhd 0 0) _ (PoolQtd 0 0)
              lpc_state_bulk_ok eq_refl eq_refl)
    as (s' & qtd & qhd' & Hrun & Hqtd & Hqhd & Hpid & Hping & Htail & _).
  - by left.
  - reflexivity.
  - intros H. by destruct H.
  - exists s', qtd, qhd'. split_and!; done.
Defined.

(** Witness for C9: opening the bulk OUT pipe of device address 1. *)
Lemma hcd_pipe_open_handle_roundtrip_witness :
  exists p_qhd q,
    qhd_find_free lpc_cfg lpc_state_control 1 = Some (Some p_qhd) ∧
    qhd_get_from_pipe_handle lpc_bulk_handle = Some p_qhd ∧
    qhd_get_index lpc_state_bulk p_qhd = Some (hdl_index lpc_bulk_handle) ∧
    load_qhd (ehci_data lpc_state_bulk) p_qhd = Some q ∧
    qhd_used q = 1 ∧ device_address q = 1 ∧ class_code q = uint8 8 ∧
    endpoint_number q = Z.land (bEndpointAddress lpc_bulk_out_desc) 0x0F.
Proof.
  apply (hcd_pipe_open_handle_roundtrip lpc_cfg lpc_state_control 1
           lpc_bulk_out_desc 8 lpc_bulk_handle lpc_state_bulk).
  - split_and!; try (vm_compute; lia); try reflexivity. repeat constructor.
  - lia.
  - vm_compute. reflexivity.
  - discriminate.
Defined.

(** * Further properties of the driver *)

(** ** The list manager *)

Lemma align32_type_bits a t :
  0 <= a < 2 ^ 32 -> Z.land a 31 = 0 -> 0 <= t < 4 ->
  align32 (Z.lor a (Z.shiftl t 1)) = a.
Proof.
  intros Ha Hal Ht. unfold align32.
  rewrite Z.land_lor_distr_l.
  replace (Z.land (Z.shiftl t 1) 0xFFFFFFE0) with 0.
  - rewrite Z.lor_0_r. by apply align32_aligned.
  - assert (t = 0 ∨ t = 1 ∨ t = 2 ∨ t = 3) as [->|[->|[->| ->]]] by lia;
      reflexivity.
Qed.

Lemma link_type_type_bits a t :
  0 <= a < 2 ^ 32 -> Z.land a 31 = 0 -> 0 <= t < 4 ->
  link_type (uint32 (Z.lor a (Z.shiftl t 1))) = t.
Proof.
  intros Ha Hal Ht. unfold link_type, uint32.
  rewrite <- Z.land_ones by lia.
  rewrite Z.shiftr_land, Z.shiftr_lor, Z.shiftr_shiftl_l by lia.
  change (1 - 1) with 0. rewrite Z.shiftl_0_r.
  rewrite <- Z.land_assoc. change (Z.land (Z.shiftr (Z.ones 32) 1) 3) with 3.
  rewrite Z.land_lor_distr_l.
  replace (Z.land (Z.shiftr a 1) 3) with 0.
  - rewrite Z.lor_0_l. change 3 with (Z.ones 2).
    rewrite Z.land_ones by lia. apply Z.mod_small. lia.
  - symmetry. apply Z.bits_inj'. intros n Hn.
    rewrite Z.land_spec, Z.shiftr_spec, Z.bits_0 by lia.
    destruct (decide (n < 2)) as [Hlt|Hge].
    + assert (Hbit : Z.testbit (Z.land a 31) (n + 1) = false)
        by (rewrite Hal; apply Z.bits_0).
      rewrite Z.land_spec in Hbit.
      assert (Z.testbit 31 (n + 1) = true).
      { assert (n = 0 ∨ n = 1) as [-> | ->] by lia; reflexivity. }
      rewrite H, andb_true_r in Hbit. by rewrite Hbit.
    + change 3 with (Z.ones 2). rewrite Z.ones_spec_high by lia.
      apply andb_false_r.
Qed.

Section ListManager.

Context (cfg : hcd_config) {L : Layout cfg}.

Lemma list_find_previous_qhd_linked s p_head l1 p_qhd l2 fuel :
  state_ok cfg s ->
  circular_list cfg s p_head (l1 ++ p_qhd :: l2) ->
  (length l1 < fuel)%nat ->
  list_find_previous_qhd cfg fuel s p_head p_qhd
    = Some (Some (last_node p_head l1)).
Proof.
  intros Hok [Hnd Hc] Hfuel.
  pose proof (qhd_chain_valid cfg s _ _ _ Hok Hc) as Hval.
  apply Forall_cons in Hval as [Hvh Hval].
  apply Forall_app in Hval as [Hval1 Hval2].
  apply Forall_cons in Hval2 as [Hvr Hval2].
  apply NoDup_cons in Hnd as [Hhead Hnd].
  apply not_elem_of_app in Hhead as [Hhead1 Hhead2].
  apply not_elem_of_cons in Hhead2 as [Hhne Hhead2].
  apply NoDup_app in Hnd as (Hnd1 & Hdisj & Hnd2).
  assert (Hr1 : p_qhd ∉ l1).
  { intros Hin. apply (Hdisj _ Hin). by left. }
  apply qhd_chain_app in Hc as [Hc1 Hc2].
  destruct (qhd_chain_last_link cfg s l1 _ _ Hc1) as (hp & Hhp & Hap).
  unfold list_find_previous_qhd.
  rewrite (list_find_previous_qhd_walk_chain cfg s p_head p_qhd l1
             fuel p_head p_qhd); try done; [|by right|].
  - cbn [mbind option_bind]. rewrite Hhp. cbn [mbind option_bind].
    rewrite decide_True; [done|].
    rewrite Hap. intros E. apply qhd_address_inj in E; done.
  - apply Forall_forall. intros p Hp. split_and!.
    + by eapply Forall_forall in Hval1.
    + by intros ->.
    + by intros ->.
Qed.

(** X1. In a circular list, [list_find_previous_qhd] returns the queue
    head whose link points at the one looked for. *)
Theorem list_find_previous_qhd_predecessor s p_head l1 p_qhd l2 fuel :
  state_ok cfg s ->
  circular_list cfg s p_head (l1 ++ p_qhd :: l2) ->
  (length l1 < fuel)%nat ->
  exists p_prev prev,
    list_find_previous_qhd cfg fuel s p_head p_qhd = Some (Some p_prev) ∧
    p_prev = last_node p_head l1 ∧
    load_qhd (ehci_data s) p_prev = Some prev ∧
    align32 (qhd_next prev) = qhd_address p_qhd.
Proof.
  intros Hok Hcirc Hfuel.
  pose proof Hcirc as [Hnd Hc].
  apply qhd_chain_app in Hc as [Hc1 _].
  destruct (qhd_chain_last_link cfg s l1 _ _ Hc1) as (hp & Hhp & Hap).
  exists (last_node p_head l1), hp. split_and!; try done.
  by apply (list_find_previous_qhd_linked s p_head l1 p_qhd l2).
Qed.

(** X2. [list_find_previous_qhd] returns NULL for a queue head that is not
    linked in the circular list, and for the head of the list itself. *)
Theorem list_find_previous_qhd_null s p_head path p_qhd fuel :
  state_ok cfg s ->
  circular_list cfg s p_head path ->
  p_qhd ∉ path ->
  valid_qhd_ptr cfg p_qhd ->
  (length path < fuel)%nat ->
  list_find_previous_qhd cfg fuel s p_head p_qhd = Some None ∧
  list_find_previous_qhd cfg fuel s p_head p_head = Some None.
Proof.
  intros Hok Hcirc Hnot Hv Hfuel. split.
  - by eapply list_find_previous_qhd_not_linked.
  - eapply list_find_previous_qhd_not_linked; try done.
    + destruct Hcirc as [Hnd _]. by apply NoDup_cons in Hnd as [? _].
    + destruct Hcirc as [_ Hc].
      pose proof (qhd_chain_valid cfg s _ _ _ Hok Hc) as Hval.
      by apply Forall_cons in Hval as [? _].
Qed.

(** X3. [list_remove_qhd] of a queue head that is not linked, or of the
    head itself, returns [TUSB_ERROR_INVALID_PARA] and changes nothing. *)
Theorem list_remove_qhd_not_linked s p_head path p_qhd fuel :
  state_ok cfg s ->
  circular_list cfg s p_head path ->
  p_qhd ∉ path ->
  valid_qhd_ptr cfg p_qhd ->
  (length path < fuel)%nat ->
  list_remove_qhd cfg fuel s p_head p_qhd
    = Some (TUSB_ERROR_INVALID_PARA, s) ∧
  list_remove_qhd cfg fuel s p_head p_head
    = Some (TUSB_ERROR_INVALID_PARA, s).
Proof.
  intros Hok Hcirc Hnot Hv Hfuel.
  assert (Hh : (p_head ∉ path) ∧ valid_qhd_ptr cfg p_head).
  { destruct Hcirc as [Hnd Hc]. split.
    - by apply NoDup_cons in Hnd as [? _].
    - pose proof (qhd_chain_valid cfg s _ _ _ Hok Hc) as Hval.
      by apply Forall_cons in Hval as [? _]. }
  destruct Hh as [Hh1 Hh2].
  unfold list_remove_qhd.
  rewrite !(list_find_previous_qhd_not_linked cfg s p_head _ path fuel)
    by done.
  done.
Qed.

Lemma list_remove_qhd_spec s p_head l1 p_qhd_remove l2 fuel :
  state_ok cfg s ->
  circular_list cfg s p_head (l1 ++ p_qhd_remove :: l2) ->
  (length (l1 ++ p_qhd_remove :: l2) < fuel)%nat ->
  exists s' q,
    list_remove_qhd cfg fuel s p_head p_qhd_remove
      = Some (TUSB_ERROR_NONE, s') ∧
    circular_list cfg s' p_head (l1 ++ l2) ∧
    list_find_previous_qhd cfg fuel s' p_head p_qhd_remove = Some None ∧
    load_qhd (ehci_data s') p_qhd_remove = Some q ∧
    align32 (qhd_next q) = qhd_address p_head ∧
    link_type (qhd_next q) = EHCI_QUEUE_ELEMENT_QHD.
Proof.
  intros Hok [Hnd Hc] Hfuel.
  pose proof (qhd_chain_valid cfg s _ _ _ Hok Hc) as Hval.
  apply Forall_cons in Hval as [Hvh Hval].
  apply Forall_app in Hval as [Hval1 Hval2].
  apply Forall_cons in Hval2 as [Hvr Hval2].
  apply NoDup_cons in Hnd as [Hhead Hnd].
  apply not_elem_of_app in Hhead as [Hhead1 Hhead2].
  apply not_elem_of_cons in Hhead2 as [Hhne Hhead2].
  apply NoDup_app in Hnd as (Hnd1 & Hdisj & Hnd2).
  apply NoDup_cons in Hnd2 as [Hr2 Hnd2].
  assert (Hr1 : p_qhd_remove ∉ l1).
  { intros Hin. apply (Hdisj _ Hin). by left. }
  apply qhd_chain_app in Hc as [Hc1 Hc2].
  rewrite length_app in Hfuel. simpl in Hfuel.
  pose proof (last_node_elem p_head l1) as Hprev.
  destruct (qhd_chain_last_link cfg s l1 _ _ Hc1) as (hp & Hhp & Hap).
  remember (last_node p_head l1) as prev eqn:Eprev.
  assert (Hpr : prev ≠ p_qhd_remove).
  { intros E. destruct Hprev as [Hp|Hp]; rewrite E in Hp; [by subst|done]. }
  assert (Hnext : exists hr y,
            load_qhd (ehci_data s) p_qhd_remove = Some hr ∧
            align32 (qhd_next hr) = qhd_address y ∧
            (l2 = [] ∧ y = p_head ∨
             exists l2', l2 = y :: l2' ∧ qhd_chain cfg s y l2' p_head)).
  { destruct l2 as [|y l2']; simpl in Hc2.
    - destruct Hc2 as (hr & Hhr & Ha). exists hr, p_head. eauto.
    - destruct Hc2 as [(hr & Hhr & Ha) Hc2]. exists hr, y. eauto 10. }
  destruct Hnext as (hr & y & Hhr & Hay & Hl2).
  (* the search for the predecessor *)
  assert (Hfind : list_find_previous_qhd cfg fuel s p_head p_qhd_remove
                  = Some (Some prev)).
  { unfold list_find_previous_qhd.
    rewrite (list_find_previous_qhd_walk_chain cfg s p_head p_qhd_remove l1
               fuel p_head p_qhd_remove); try done; [|by right| |lia].
    - cbn [mbind option_bind]. rewrite <- Eprev, Hhp.
      cbn [mbind option_bind].
      rewrite decide_True; [done|].
      rewrite Hap. intros E. apply qhd_address_inj in E; done.
    - apply Forall_forall. intros p Hp. split_and!.
      + by eapply Forall_forall in Hval1.
      + by intros ->.
      + by intros ->. }
  unfold list_remove_qhd. rewrite Hfind. cbn [mbind option_bind].
  rewrite Hhr. cbn [mbind option_bind].
  repeat exec_write.
  match goal with
  | |- context [Some (TUSB_ERROR_NONE, ?st)] => set (s' := st)
  end.
  assert (Hok' : state_ok cfg s') by (by do 3 apply state_ok_upd_qhd).
  assert (Hother : forall p, p ≠ prev -> p ≠ p_qhd_remove ->
            load_qhd (ehci_data s') p = load_qhd (ehci_data s) p).
  { intros p H1 H2. subst s'.
    by rewrite !load_qhd_upd_qhd_ne by congruence. }
  assert (Hlprev : qhd_link cfg s' prev y).
  { eexists. split.
    - subst s'. rewrite !(load_qhd_upd_qhd_ne _ p_qhd_remove) by congruence.
      rewrite load_qhd_upd_qhd_eq, Hhp. reflexivity.
    - cbn [qhd_next set_qhd_next]. unfold link_set_address.
      by rewrite align32_uint32. }
  assert (Hcirc : circular_list cfg s' p_head (l1 ++ l2)).
  { split.
    - apply NoDup_cons. split.
      + apply not_elem_of_app. done.
      + apply NoDup_app. split_and!; [done| |done].
        intros p Hp Hp2. apply (Hdisj p Hp). by right.
    - assert (Hred : qhd_chain cfg s' p_head l1 y).
      { eapply qhd_chain_redirect;
          [| |rewrite <- Eprev; exact Hlprev|exact Hc1].
        - by apply NoDup_cons.
        - intros p Hp Hne. rewrite <- Eprev in Hne. apply Hother; [done|].
          intros ->. apply elem_of_cons in Hp as [Hp|Hp]; [by subst|done]. }
      destruct Hl2 as [[-> ->]|(l2' & -> & Hc3)].
      + by rewrite app_nil_r.
      + apply qhd_chain_app. split; [done|].
        eapply qhd_chain_frame; [|exact Hc3].
        intros p Hp. apply Hother.
        * intros ->. destruct Hprev as [Hp'|Hp'].
          -- rewrite Hp' in Hp. done.
          -- apply (Hdisj _ Hp'). by right.
        * intros ->. done. }
  exists s'. eexists. split; [reflexivity|]. split; [done|]. split.
  { apply (list_find_previous_qhd_not_linked cfg s' p_head p_qhd_remove
             (l1 ++ l2) fuel); try done.
    - apply not_elem_of_app. done.
    - rewrite length_app. lia. }
  split.
  { subst s'. autorewrite with hcd. rewrite Hhr. reflexivity. }
  split.
  - cbn [qhd_next set_qhd_next]. unfold link_set_address.
    rewrite align32_link_set_type, align32_uint32.
    apply align32_aligned.
    + pose proof (qhd_address_range _ Hvh). lia.
    + by apply qhd_address_aligned.
  - cbn [qhd_next set_qhd_next]. apply link_type_link_set_type.
Qed.

Lemma list_insert_spec s p_head path p_new :
  state_ok cfg s ->
  circular_list cfg s p_head path ->
  p_new ∉ p_head :: path ->
  valid_qhd_ptr cfg p_new ->
  exists s' head new old_head old_new,
    list_insert cfg s p_head p_new EHCI_QUEUE_ELEMENT_QHD = Some s' ∧
    state_ok cfg s' ∧
    circular_list cfg s' p_head (p_new :: path) ∧
    load_qhd (ehci_data s) p_head = Some old_head ∧
    load_qhd (ehci_data s) p_new = Some old_new ∧
    load_qhd (ehci_data s') p_head = Some head ∧
    load_qhd (ehci_data s') p_new = Some new ∧
    head = set_qhd_next
             (uint32 (Z.lor (qhd_address p_new)
                            (Z.shiftl EHCI_QUEUE_ELEMENT_QHD 1))) old_head ∧
    new = set_qhd_next (uint32 (qhd_next old_head)) old_new ∧
    (forall p, p ≠ p_head -> p ≠ p_new ->
               load_qhd (ehci_data s') p = load_qhd (ehci_data s) p) ∧
    (forall p, load_qtd (ehci_data s') p = load_qtd (ehci_data s) p) ∧
    usbh_devices s' = usbh_devices s.
Proof.
  intros Hok [Hnd Hc] Hnew Hvn.
  pose proof (qhd_chain_valid cfg s _ _ _ Hok Hc) as Hval.
  apply Forall_cons in Hval as [Hvh Hval].
  apply not_elem_of_cons in Hnew as [Hnh Hnp].
  pose proof (qhd_address_range _ Hvn) as Hrn.
  pose proof (qhd_address_aligned _ Hvn) as Han.
  pose proof Hvh as Hvh'. pose proof Hvn as Hvn'.
  apply (load_qhd_is_Some cfg s _ Hok) in Hvh' as [hh Hhh].
  apply (load_qhd_is_Some cfg s _ Hok) in Hvn' as [hn Hhn].
  unfold list_insert. rewrite Hhh. cbn [mbind option_bind].
  repeat exec_write.
  eexists _, _, _, hh, hn. split; [reflexivity|].
  match goal with
  | |- state_ok cfg ?st ∧ _ => set (s' := st)
  end.
  assert (Hother : forall p, p ≠ p_head -> p ≠ p_new ->
            load_qhd (ehci_data s') p = load_qhd (ehci_data s) p).
  { intros p H1 H2. subst s'.
    by rewrite !load_qhd_upd_qhd_ne by congruence. }
  assert (Hlh : load_qhd (ehci_data s') p_head =
                Some (set_qhd_next
                        (uint32 (Z.lor (qhd_address p_new)
                                   (Z.shiftl EHCI_QUEUE_ELEMENT_QHD 1))) hh)).
  { subst s'. rewrite load_qhd_upd_qhd_eq.
    rewrite load_qhd_upd_qhd_ne by congruence. by rewrite Hhh. }
  assert (Hln : load_qhd (ehci_data s') p_new =
                Some (set_qhd_next (uint32 (qhd_next hh)) hn)).
  { subst s'. rewrite load_qhd_upd_qhd_ne by congruence.
    rewrite load_qhd_upd_qhd_eq. by rewrite Hhn. }
  split; [by do 2 apply state_ok_upd_qhd|].
  split.
  { split.
    - apply NoDup_cons. split.
      + apply not_elem_of_cons. split; [congruence|].
        by apply NoDup_cons in Hnd as [? _].
      + apply NoDup_cons. split; [done|]. by apply NoDup_cons in Hnd as [_ ?].
    - cbn [qhd_chain]. split.
      + eexists. split; [exact Hlh|]. cbn [qhd_next set_qhd_next].
        rewrite align32_uint32. apply align32_type_bits; [lia|done|done].
      + apply NoDup_cons in Hnd as [Hhp Hndp].
        destruct path as [|y rest]; cbn [qhd_chain] in Hc |- *.
        * destruct Hc as (h & Hh & Ha). eexists. split; [exact Hln|].
          cbn [qhd_next set_qhd_next]. rewrite align32_uint32.
          by assert (h = hh) as -> by congruence.
        * destruct Hc as [(h & Hh & Ha) Hc]. split.
          -- eexists. split; [exact Hln|].
             cbn [qhd_next set_qhd_next]. rewrite align32_uint32.
             by assert (h = hh) as -> by congruence.
          -- eapply qhd_chain_frame; [|exact Hc].
             intros p Hp. apply Hother.
             ++ intros ->. done.
             ++ intros ->. done. }
  split_and!; try done.
  - intros p. subst s'. by autorewrite with hcd.
  - subst s'. by autorewrite with hcd.
Qed.

(** X4. [list_insert] of a queue head that is not yet linked puts it right
    behind the head of a circular list and keeps the list circular; the
    other queue heads and every qTD are left as they were. *)
Theorem list_insert_circular s p_head path p_new :
  state_ok cfg s ->
  circular_list cfg s p_head path ->
  p_new ∉ p_head :: path ->
  valid_qhd_ptr cfg p_new ->
  exists s',
    list_insert cfg s p_head p_new EHCI_QUEUE_ELEMENT_QHD = Some s' ∧
    circular_list cfg s' p_head (p_new :: path) ∧
    (forall p, p ≠ p_head -> p ≠ p_new ->
               load_qhd (ehci_data s') p = load_qhd (ehci_data s) p) ∧
    (forall p, load_qtd (ehci_data s') p = load_qtd (ehci_data s) p).
Proof.
  intros Hok Hcirc Hnew Hvn.
  destruct (list_insert_spec s p_head path p_new Hok Hcirc Hnew Hvn)
    as (s' & ? & ? & ? & ? & Hrun & _ & Hc & _ & _ & _ & _ & _ & _ &
        Hq & Ht & _).
  eauto.
Qed.

(** X5. The link word [list_insert] writes into the head decodes again:
    its address part is the inserted queue head (which
    [list_find_previous_qhd] then finds behind the head) and its type
    field is QHD. *)
Theorem list_insert_link_word s p_head path p_new fuel :
  state_ok cfg s ->
  circular_list cfg s p_head path ->
  p_new ∉ p_head :: path ->
  valid_qhd_ptr cfg p_new ->
  (0 < fuel)%nat ->
  exists s' head,
    list_insert cfg s p_head p_new EHCI_QUEUE_ELEMENT_QHD = Some s' ∧
    load_qhd (ehci_data s') p_head = Some head ∧
    qhd_of_address cfg (align32 (qhd_next head)) = Some p_new ∧
    link_type (qhd_next head) = EHCI_QUEUE_ELEMENT_QHD ∧
    link_terminate (qhd_next head) = 0 ∧
    list_find_previous_qhd cfg fuel s' p_head p_new = Some (Some p_head).
Proof.
  intros Hok Hcirc Hnew Hvn Hfuel.
  destruct (list_insert_spec s p_head path p_new Hok Hcirc Hnew Hvn)
    as (s' & head & new & oh & on & Hrun & Hok' & Hc & _ & _ & Hlh & _ &
        -> & _ & _ & _ & _).
  pose proof (qhd_address_range _ Hvn) as Hrn.
  pose proof (qhd_address_aligned _ Hvn) as Han.
  exists s'. eexists. split; [done|]. split; [exact Hlh|].
  cbn [qhd_next set_qhd_next]. split_and!.
  - rewrite align32_uint32, align32_type_bits by (done || lia).
    by apply qhd_of_address_valid.
  - apply link_type_type_bits; (done || lia).
  - unfold link_terminate, uint32. rewrite <- Z.land_ones by lia.
    rewrite <- Z.land_assoc. change (Z.land (Z.ones 32) 1) with 1.
    rewrite Z.land_lor_distr_l.
    change (Z.land (Z.shiftl EHCI_QUEUE_ELEMENT_QHD 1) 1) with 0.
    rewrite Z.lor_0_r. apply Z.bits_inj'. intros n Hn.
    rewrite Z.land_spec, Z.bits_0.
    destruct (decide (n = 0)) as [->|Hne].
    + assert (Hbit : Z.testbit (Z.land (qhd_address p_new) 31) 0 = false)
        by (rewrite Han; apply Z.bits_0).
      rewrite Z.land_spec in Hbit. change (Z.testbit 31 0) with true in Hbit.
      rewrite andb_true_r in Hbit. by rewrite Hbit.
    + change 1 with (Z.ones 1). rewrite Z.ones_spec_high by lia.
      apply andb_false_r.
  - apply (list_find_previous_qhd_linked s' p_head [] p_new path fuel);
      [done|done|simpl; lia].
Qed.

(** X6. Inserting a queue head and removing it again gives back the
    circular list there was: the same queue heads in the same order, the
    list still closed, and the removed queue head pointing at the head. *)
Theorem list_insert_remove_roundtrip s p_head path p_new fuel :
  state_ok cfg s ->
  circular_list cfg s p_head path ->
  p_new ∉ p_head :: path ->
  valid_qhd_ptr cfg p_new ->
  (S (length path) < fuel)%nat ->
  exists s1 s2 new,
    list_insert cfg s p_head p_new EHCI_QUEUE_ELEMENT_QHD = Some s1 ∧
    list_remove_qhd cfg fuel s1 p_head p_new = Some (TUSB_ERROR_NONE, s2) ∧
    circular_list cfg s2 p_head path ∧
    load_qhd (ehci_data s2) p_new = Some new ∧
    align32 (qhd_next new) = qhd_address p_head ∧
    (forall p h, p ≠ p_new -> load_qhd (ehci_data s) p = Some h ->
       exists h', load_qhd (ehci_data s2) p = Some h' ∧
                  align32 (qhd_next h') = align32 (qhd_next h)).
Proof.
  intros Hok Hcirc Hnew Hvn Hfuel.
  destruct (list_insert_spec s p_head path p_new Hok Hcirc Hnew Hvn)
    as (s1 & head & new & oh & on & Hrun & Hok1 & Hc1 & Hoh & Hon & Hlh &
        Hln & -> & -> & Hq1 & _ & _).
  destruct (list_remove_qhd_spec s1 p_head [] p_new path fuel Hok1 Hc1)
    as (s2 & q & Hrem & Hc2 & _ & Hq & Ha & _); [simpl; lia|].
  exists s1, s2, q. split_and!; try done.
  intros p h Hp Hh.
  destruct Hc2 as [Hnd2 Hc2].
  destruct (decide (p = p_head)) as [->|Hph].
  - (* the head links to what it linked to before *)
    assert (h = oh) as -> by congruence.
    destruct Hcirc as [_ Hc].
    destruct path as [|y rest]; cbn [qhd_chain app] in Hc, Hc2.
    + destruct Hc as (h0 & Hh0 & Ha0). destruct Hc2 as (h2 & Hh2 & Ha2).
      assert (h0 = oh) as -> by congruence.
      exists h2. split; [done|]. congruence.
    + destruct Hc as [(h0 & Hh0 & Ha0) _].
      destruct Hc2 as [(h2 & Hh2 & Ha2) _].
      assert (h0 = oh) as -> by congruence.
      exists h2. split; [done|]. congruence.
  - (* any other queue head was never written *)
    exists h. split; [|done].
    unfold list_remove_qhd in Hrem.
    rewrite (list_find_previous_qhd_linked s1 p_head [] p_new path fuel)
      in Hrem; [|done|done|simpl; lia].
    cbn [mbind option_bind last_node] in Hrem.
    rewrite Hln in Hrem. cbn [mbind option_bind] in Hrem.
    apply bind_Some in Hrem as (sa & Ha1 & Hrem).
    apply bind_Some in Hrem as (sb & Hb1 & Hrem).
    apply bind_Some in Hrem as (sc & Hc1' & Hrem).
    apply modify_qhd_inv in Ha1 as [_ ->].
    apply modify_qhd_inv in Hb1 as [_ ->].
    apply modify_qhd_inv in Hc1' as [_ ->].
    injection Hrem as <-.
    rewrite !load_qhd_upd_qhd_ne by congruence.
    rewrite Hq1 by done. done.
Qed.

End ListManager.

Lemma lpc_state_bulk_circular :
  circular_list lpc_cfg lpc_state_bulk (AsyncHead 0)
    [PoolQhd 0 0; ControlQhd 0].
Proof.
  split.
  - apply (bool_decide_unpack _). vm_compute. exact I.
  - repeat split; eexists; (split; [reflexivity|reflexivity]).
Qed.

Lemma lpc_pool_qhd_1_fresh :
  PoolQhd 0 1 ∉ [AsyncHead 0; PoolQhd 0 0; ControlQhd 0].
Proof. apply (bool_decide_unpack _). vm_compute. exact I. Qed.

Lemma lpc_pool_qhd_1_valid : valid_qhd_ptr lpc_cfg (PoolQhd 0 1).
Proof. vm_compute. split; lia. Qed.

(** Witness for X1: the control queue head of device address 1 is found
    behind the bulk queue head. *)
Lemma list_find_previous_qhd_predecessor_witness :
  exists p_prev prev,
    list_find_previous_qhd lpc_cfg 8 lpc_state_bulk (AsyncHead 0)
      (ControlQhd 0) = Some (Some p_prev) ∧
    p_prev = last_node (AsyncHead 0) [PoolQhd 0 0] ∧
    load_qhd (ehci_data lpc_state_bulk) p_prev = Some prev ∧
    align32 (qhd_next prev) = qhd_address (ControlQhd 0).
Proof.
  apply (list_find_previous_qhd_predecessor lpc_cfg lpc_state_bulk
           (AsyncHead 0) [PoolQhd 0 0] (ControlQhd 0) [] 8).
  - exact lpc_state_bulk_ok.
  - exact lpc_state_bulk_circular.
  - cbn; lia.
Defined.

(** Witness for X2: the second pool queue head is not linked. *)
Lemma list_find_previous_qhd_null_witness :
  list_find_previous_qhd lpc_cfg 8 lpc_state_bulk (AsyncHead 0) (PoolQhd 0 1)
    = Some None ∧
  list_find_previous_qhd lpc_cfg 8 lpc_state_bulk (AsyncHead 0) (AsyncHead 0)
    = Some None.
Proof.
  apply (list_find_previous_qhd_null lpc_cfg lpc_state_bulk (AsyncHead 0)
           [PoolQhd 0 0; ControlQhd 0] (PoolQhd 0 1) 8).
  - exact lpc_state_bulk_ok.
  - exact lpc_state_bulk_circular.
  - apply (bool_decide_unpack _). vm_compute. exact I.
  - exact lpc_pool_qhd_1_valid.
  - cbn; lia.
Defined.

(** Witness for X3. *)
Lemma list_remove_qhd_not_linked_witness :
  list_remove_qhd lpc_cfg 8 lpc_state_bulk (AsyncHead 0) (PoolQhd 0 1)
    = Some (TUSB_ERROR_INVALID_PARA, lpc_state_bulk) ∧
  list_remove_qhd lpc_cfg 8 lpc_state_bulk (AsyncHead 0) (AsyncHead 0)
    = Some (TUSB_ERROR_INVALID_PARA, lpc_state_bulk).
Proof.
  apply (list_remove_qhd_not_linked lpc_cfg lpc_state_bulk (AsyncHead 0)
           [PoolQhd 0 0; ControlQhd 0] (PoolQhd 0 1) 8).
  - exact lpc_state_bulk_ok.
  - exact lpc_state_bulk_circular.
  - apply (bool_decide_unpack _). vm_compute. exact I.
  - exact lpc_pool_qhd_1_valid.
  - cbn; lia.
Defined.

(** Witness for X4: linking the second pool queue head of device
    address 1. *)
Lemma list_insert_circular_witness :
  exists s',
    list_insert lpc_cfg lpc_state_bulk (AsyncHead 0) (PoolQhd 0 1)
      EHCI_QUEUE_ELEMENT_QHD = Some s' ∧
    circular_list lpc_cfg s' (AsyncHead 0)
      [PoolQhd 0 1; PoolQhd 0 0; ControlQhd 0] ∧
    (forall p, p ≠ AsyncHead 0 -> p ≠ PoolQhd 0 1 ->
               load_qhd (ehci_data s') p
               = load_qhd (ehci_data lpc_state_bulk) p) ∧
    (forall p, load_qtd (ehci_data s') p
               = load_qtd (ehci_data lpc_state_bulk) p).
Proof.
  apply (list_insert_circular lpc_cfg lpc_state_bulk (AsyncHead 0)
           [PoolQhd 0 0; ControlQhd 0] (PoolQhd 0 1)).
  - exact lpc_state_bulk_ok.
  - exact lpc_state_bulk_circular.
  - exact lpc_pool_qhd_1_fresh.
  - exact lpc_pool_qhd_1_valid.
Defined.

(** Witness for X5. *)
Lemma list_insert_link_word_witness :
  exists s' head,
    list_insert lpc_cfg lpc_state_bulk (AsyncHead 0) (PoolQhd 0 1)
      EHCI_QUEUE_ELEMENT_QHD = Some s' ∧
    load_qhd (ehci_data s') (AsyncHead 0) = Some head ∧
    qhd_of_address lpc_cfg (align32 (qhd_next head)) = Some (PoolQhd 0 1) ∧
    link_type (qhd_next head) = EHCI_QUEUE_ELEMENT_QHD ∧
    link_terminate (qhd_next head) = 0 ∧
    list_find_previous_qhd lpc_cfg 8 s' (AsyncHead 0) (PoolQhd 0 1)
      = Some (Some (AsyncHead 0)).
Proof.
  apply (list_insert_link_word lpc_cfg lpc_state_bulk (AsyncHead 0)
           [PoolQhd 0 0; ControlQhd 0] (PoolQhd 0 1) 8).
  - exact lpc_state_bulk_ok.
  - exact lpc_state_bulk_circular.
  - exact lpc_pool_qhd_1_fresh.
  - exact lpc_pool_qhd_1_valid.
  - lia.
Defined.

(** Witness for X6. *)
Lemma list_insert_remove_roundtrip_witness :
  exists s1 s2 new,
    list_insert lpc_cfg lpc_state_bulk (AsyncHead 0) (PoolQhd 0 1)
      EHCI_QUEUE_ELEMENT_QHD = Some s1 ∧
    list_remove_qhd lpc_cfg 8 s1 (AsyncHead 0) (PoolQhd 0 1)
      = Some (TUSB_ERROR_NONE, s2) ∧
    circular_list lpc_cfg s2 (AsyncHead 0) [PoolQhd 0 0; ControlQhd 0] ∧
    load_qhd (ehci_data s2) (PoolQhd 0 1) = Some new ∧
    align32 (qhd_next new) = qhd_address (AsyncHead 0) ∧
    (forall p h, p ≠ PoolQhd 0 1 ->
       load_qhd (ehci_data lpc_state_bulk) p = Some h ->
       exists h', load_qhd (ehci_data s2) p = Some h' ∧
                  align32 (qhd_next h') = align32 (qhd_next h)).
Proof.
  apply (list_insert_remove_roundtrip lpc_cfg lpc_state_bulk (AsyncHead 0)
           [PoolQhd 0 0; ControlQhd 0] (PoolQhd 0 1) 8).
  - exact lpc_state_bulk_ok.
  - exact lpc_state_bulk_circular.
  - exact lpc_pool_qhd_1_fresh.
  - exact lpc_pool_qhd_1_valid.
  - cbn; lia.
Defined.

(** ** The descriptor pools *)

Lemma scan_used_first used_at remaining : forall index,
  (forall i, (index <= i < index + remaining)%nat -> is_Some (used_at i)) ->
  exists k,
    scan_used used_at index remaining = Some k ∧
    (index <= k <= index + remaining)%nat ∧
    (forall i, (index <= i < k)%nat ->
               exists u, used_at i = Some u ∧ u ≠ 0) ∧
    ((k < index + remaining)%nat -> used_at k = Some 0).
Proof.
  induction remaining as [|r IH]; intros index Hall; simpl.
  - exists index. split; [done|]. split; [lia|]. split; intros; lia.
  - destruct (Hall index ltac:(lia)) as [u Hu]. rewrite Hu. simpl.
    destruct (Z.eqb_spec u 0) as [->|Hne].
    + exists index. split; [done|]. split; [lia|]. split; [intros; lia|done].
    + destruct (IH (S index)) as (k & Hk & Hr & Hbefore & Hat).
      { intros i Hi. apply Hall. lia. }
      exists k. split; [done|]. split; [lia|]. split.
      * intros i Hi. destruct (decide (i = index)) as [->|]; [eauto|].
        apply Hbefore. lia.
      * intros Hlt. apply Hat. lia.
Qed.

Section Pools.

Context (cfg : hcd_config) {L : Layout cfg}.

(** X7. [qtd_find_free] returns the qTD of lowest index whose [used] is 0:
    every qTD before it is in use; it returns NULL exactly when every qTD
    of the pool is in use. *)
Theorem qtd_find_free_first s dev_addr :
  state_ok cfg s ->
  1 <= dev_addr <= Z.of_nat (TUSB_CFG_HOST_DEVICE_MAX cfg) ->
  let d := Z.to_nat (dev_addr - 1) in
  exists r,
    qtd_find_free cfg s dev_addr = Some r ∧
    match r with
    | Some p =>
        exists i t,
          p = PoolQtd d i ∧ (i < EHCI_MAX_QTD cfg)%nat ∧
          load_qtd (ehci_data s) p = Some t ∧ qtd_used t = 0 ∧
          forall j t', (j < i)%nat ->
            load_qtd (ehci_data s) (PoolQtd d j) = Some t' -> qtd_used t' ≠ 0
    | None =>
        forall i t, load_qtd (ehci_data s) (PoolQtd d i) = Some t ->
                    qtd_used t ≠ 0
    end.
Proof.
  intros Hok Hdev d. unfold qtd_find_free. rewrite decide_True by lia.
  fold d.
  destruct (scan_used_first
              (fun i => qtd_used <$> load_qtd (ehci_data s) (PoolQtd d i))
              (EHCI_MAX_QTD cfg) 0)
    as (k & Hscan & Hk & Hbefore & Hat).
  { intros i Hi. apply fmap_is_Some.
    apply (load_qtd_is_Some cfg s _ Hok). simpl. subst d. lia. }
  rewrite Hscan. cbn [mbind option_bind]. eexists. split; [reflexivity|].
  case_decide as Hlt.
  - pose proof (Hat ltac:(lia)) as Hx.
    apply fmap_Some in Hx as (t & Ht & Hu).
    exists k, t. split_and!; try done.
    intros j t' Hj Ht'. destruct (Hbefore j ltac:(lia)) as (u & Hu' & Hne).
    rewrite Ht' in Hu'. simpl in Hu'. congruence.
  - assert (k = EHCI_MAX_QTD cfg) as -> by lia.
    intros i t Ht.
    assert (Hi : (i < EHCI_MAX_QTD cfg)%nat).
    { assert (Hs : is_Some (load_qtd (ehci_data s) (PoolQtd d i))) by eauto.
      apply (load_qtd_is_Some cfg s _ Hok) in Hs. simpl in Hs. lia. }
    destruct (Hbefore i ltac:(lia)) as (u & Hu' & Hne).
    rewrite Ht in Hu'. simpl in Hu'. congruence.
Qed.

(** X8. [qhd_find_free] returns the queue head of lowest index whose
    [used] is 0, and NULL exactly when the whole pool is in use. *)
Theorem qhd_find_free_first s dev_addr :
  state_ok cfg s ->
  1 <= dev_addr <= Z.of_nat (TUSB_CFG_HOST_DEVICE_MAX cfg) ->
  let d := Z.to_nat (dev_addr - 1) in
  exists r,
    qhd_find_free cfg s dev_addr = Some r ∧
    match r with
    | Some p =>
        exists i q,
          p = PoolQhd d i ∧ (i < EHCI_MAX_QHD cfg)%nat ∧
          load_qhd (ehci_data s) p = Some q ∧ qhd_used q = 0 ∧
          forall j q', (j < i)%nat ->
            load_qhd (ehci_data s) (PoolQhd d j) = Some q' -> qhd_used q' ≠ 0
    | None =>
        forall i q, load_qhd (ehci_data s) (PoolQhd d i) = Some q ->
                    qhd_used q ≠ 0
    end.
Proof.
  intros Hok Hdev d. unfold qhd_find_free.
  assert (Hu8 : uint8 (dev_addr - 1) = dev_addr - 1).
  { destruct Hok as ((? & _) & _). unfold uint8. apply Z.mod_small. lia. }
  rewrite Hu8. fold d.
  destruct (scan_used_first
              (fun i => qhd_used <$> load_qhd (ehci_data s) (PoolQhd d i))
              (EHCI_MAX_QHD cfg) 0)
    as (k & Hscan & Hk & Hbefore & Hat).
  { intros i Hi. apply fmap_is_Some.
    apply (load_qhd_is_Some cfg s _ Hok). simpl. subst d. lia. }
  rewrite Hscan. cbn [mbind option_bind]. eexists. split; [reflexivity|].
  case_decide as Hlt.
  - pose proof (Hat ltac:(lia)) as Hx.
    apply fmap_Some in Hx as (t & Ht & Hu).
    exists k, t. split_and!; try done.
    intros j t' Hj Ht'. destruct (Hbefore j ltac:(lia)) as (u & Hu' & Hne).
    rewrite Ht' in Hu'. simpl in Hu'. congruence.
  - assert (k = EHCI_MAX_QHD cfg) as -> by lia.
    intros i t Ht.
    assert (Hi : (i < EHCI_MAX_QHD cfg)%nat).
    { assert (Hs : is_Some (load_qhd (ehci_data s) (PoolQhd d i))) by eauto.
      apply (load_qhd_is_Some cfg s _ Hok) in Hs. simpl in Hs. lia. }
    destruct (Hbefore i ltac:(lia)) as (u & Hu' & Hne).
    rewrite Ht in Hu'. simpl in Hu'. congruence.
Qed.

End Pools.

Lemma lpc_state_qhd_full_ok : state_ok lpc_cfg lpc_state_qhd_full.
Proof.
  split; [vm_compute; split_and!; lia|].
  vm_compute. repeat split; repeat constructor.
Qed.

(** Witness for X7: with qTD 0 of device address 1 in use by the bulk
    transfer, the scan stops at a later qTD. *)
Lemma qtd_find_free_first_witness :
  exists r,
    qtd_find_free lpc_cfg lpc_state_bulk 1 = Some r ∧
    match r with
    | Some p =>
        exists i t,
          p = PoolQtd 0 i ∧ (i < EHCI_MAX_QTD lpc_cfg)%nat ∧
          load_qtd (ehci_data lpc_state_bulk) p = Some t ∧ qtd_used t = 0 ∧
          forall j t', (j < i)%nat ->
            load_qtd (ehci_data lpc_state_bulk) (PoolQtd 0 j) = Some t' ->
            qtd_used t' ≠ 0
    | None =>
        forall i t, load_qtd (ehci_data lpc_state_bulk) (PoolQtd 0 i) = Some t
                    -> qtd_used t ≠ 0
    end.
Proof.
  apply (qtd_find_free_first lpc_cfg lpc_state_bulk 1).
  - exact lpc_state_bulk_ok.
  - vm_compute. split; discriminate.
Defined.

(** Witness for X8: a pool whose queue heads are all in use. *)
Lemma qhd_find_free_first_witness :
  exists r,
    qhd_find_free lpc_cfg lpc_state_qhd_full 1 = Some r ∧
    match r with
    | Some p =>
        exists i q,
          p = PoolQhd 0 i ∧ (i < EHCI_MAX_QHD lpc_cfg)%nat ∧
          load_qhd (ehci_data lpc_state_qhd_full) p = Some q ∧
          qhd_used q = 0 ∧
          forall j q', (j < i)%nat ->
            load_qhd (ehci_data lpc_state_qhd_full) (PoolQhd 0 j) = Some q' ->
            qhd_used q' ≠ 0
    | None =>
        forall i q,
          load_qhd (ehci_data lpc_state_qhd_full) (PoolQhd 0 i) = Some q ->
          qhd_used q ≠ 0
    end.
Proof.
  apply (qhd_find_free_first lpc_cfg lpc_state_qhd_full 1).
  - exact lpc_state_qhd_full_ok.
  - vm_compute. split; discriminate.
Defined.

(** ** Opening and closing pipes *)

Lemma same_links_refl s : same_links s s.
Proof. done. Qed.

Lemma same_links_trans s1 s2 s3 :
  same_links s1 s2 -> same_links s2 s3 -> same_links s1 s3.
Proof. intros H12 H23 p. by rewrite H23, H12. Qed.

Lemma same_links_upd_qhd s p f :
  (forall q, qhd_next (f q) = qhd_next q) -> same_links s (upd_qhd s p f).
Proof.
  intros Hf p'. rewrite load_qhd_upd_qhd.
  destruct (decide (p = p')); [|done].
  destruct (load_qhd (ehci_data s) p'); simpl; [|done]. by rewrite Hf.
Qed.

Lemma same_links_upd_qtd s p f : same_links s (upd_qtd s p f).
Proof. intros p'. by rewrite load_qhd_upd_qtd. Qed.

Lemma same_links_modify_qhd s p f s' :
  (forall q, qhd_next (f q) = qhd_next q) ->
  modify_qhd s p f = Some s' -> same_links s s'.
Proof.
  intros Hf [_ ->]%modify_qhd_inv. by apply same_links_upd_qhd.
Qed.

Lemma same_links_modify_qtd s p f s' :
  modify_qtd s p f = Some s' -> same_links s s'.
Proof. intros [_ ->]%modify_qtd_inv. apply same_links_upd_qtd. Qed.

Lemma for_loop_invariant (R : hcd_state -> hcd_state -> Prop) body count :
  (forall s, R s s) ->
  (forall s1 s2 s3, R s1 s2 -> R s2 s3 -> R s1 s3) ->
  (forall i s s', body i s = Some s' -> R s s') ->
  forall start s s',
    for_loop start count body s = Some s' -> R s s'.
Proof.
  intros Hrefl Htrans Hbody.
  induction count as [|n IH]; intros start s s'; cbn [for_loop].
  - intros [= <-]. apply Hrefl.
  - intros (s1 & H1 & Hrest)%bind_Some.
    eapply Htrans; [by eapply Hbody|by eapply IH].
Qed.

Lemma same_links_load s s' p h :
  same_links s s' ->
  load_qhd (ehci_data s) p = Some h ->
  exists h', load_qhd (ehci_data s') p = Some h' ∧ qhd_next h' = qhd_next h.
Proof.
  intros Hs Hh. specialize (Hs p). rewrite Hh in Hs. simpl in Hs.
  apply fmap_Some in Hs as (h' & Hh' & Hn). eauto.
Qed.

Lemma qhd_chain_same_links cfg `{!Layout cfg} s s' path : forall from to,
  same_links s s' ->
  qhd_chain cfg s from path to -> qhd_chain cfg s' from path to.
Proof.
  assert (Hlink : forall a b, same_links s s' ->
            qhd_link cfg s a b -> qhd_link cfg s' a b).
  { intros a b Hs (h & Hh & Ha).
    destruct (same_links_load s s' a h Hs Hh) as (h' & Hh' & Hn).
    exists h'. split; [done|]. by rewrite Hn. }
  induction path as [|p rest IH]; intros from to Hs; simpl.
  - by apply Hlink.
  - intros [Hl Hc]. split; [by apply Hlink|by apply IH].
Qed.

Lemma circular_list_same_links cfg `{!Layout cfg} s s' head path :
  same_links s s' ->
  circular_list cfg s head path -> circular_list cfg s' head path.
Proof.
  intros Hs [Hnd Hc]. split; [done|]. by eapply qhd_chain_same_links.
Qed.

Lemma async_advance_isr_same_links cfg `{!Layout cfg} s async_head s' :
  async_advance_isr cfg s async_head = Some s' -> same_links s s'.
Proof.
  unfold async_advance_isr.
  intros (h & Hh & Hrun)%bind_Some.
  apply bind_Some in Hrun as (s0 & Hblock & Hloop).
  assert (H0 : same_links s s0).
  { destruct (is_removing h =? 0); [by injection Hblock as <-|].
    apply bind_Some in Hblock as (sa & Ha & Hblock).
    apply bind_Some in Hblock as (sb & Hb & Hblock).
    apply bind_Some in Hblock as (sc & Hc & Hblock).
    apply same_links_modify_qhd in Ha, Hb, Hc, Hblock; try done.
    eauto using same_links_trans. }
  eapply same_links_trans; [exact H0|].
  revert Hloop. apply for_loop_invariant;
    [apply same_links_refl|apply same_links_trans|].
  intros d sa sb. unfold async_advance_device.
  intros (c & Hc & Hrun)%bind_Some.
  destruct (is_removing c =? 0); [injection Hrun as <-; apply same_links_refl|].
  apply bind_Some in Hrun as (s1 & H1 & Hrun).
  apply bind_Some in Hrun as (s2 & H2 & Hrun).
  apply bind_Some in Hrun as (dv & Hdv & Hrun).
  apply bind_Some in Hrun as (s3 & H3 & Hrun).
  apply same_links_modify_qhd in H1, H2; try done.
  apply (for_loop_invariant same_links) in H3;
    [|apply same_links_refl|apply same_links_trans|].
  2:{ intros i sx sy (sz & Hx & Hy)%bind_Some.
      apply same_links_modify_qhd in Hx, Hy; try done.
      eauto using same_links_trans. }
  apply (for_loop_invariant same_links) in Hrun;
    [|apply same_links_refl|apply same_links_trans|].
  2:{ intros i sx sy Hx. by apply same_links_modify_qtd in Hx. }
  eapply same_links_trans; [exact H1|].
  eapply same_links_trans; [exact H2|].
  eapply same_links_trans; [|exact Hrun].
  exact H3.
Qed.

Lemma set_qhd_next_id q : set_qhd_next (qhd_next q) q = q.
Proof. by destruct q. Qed.

Lemma only_links_refl s : only_links s s.
Proof.
  split_and!; try done. intros p q Hq. exists (qhd_next q).
  by rewrite set_qhd_next_id.
Qed.

Lemma only_links_trans s1 s2 s3 :
  only_links s1 s2 -> only_links s2 s3 -> only_links s1 s3.
Proof.
  intros (Hq1 & Ht1 & Hu1) (Hq2 & Ht2 & Hu2). split_and!.
  - intros p q Hq. destruct (Hq1 p q Hq) as (nx & Hnx).
    destruct (Hq2 p _ Hnx) as (nx' & Hnx'). by exists nx'.
  - intros p. by rewrite Ht2, Ht1.
  - by rewrite Hu2, Hu1.
Qed.

Lemma only_links_modify_qhd s p g s' :
  modify_qhd s p (fun q => set_qhd_next (g q) q) = Some s' ->
  only_links s s'.
Proof.
  intros [_ ->]%modify_qhd_inv. split_and!.
  - intros p' q Hq. rewrite load_qhd_upd_qhd.
    destruct (decide (p = p')) as [->|].
    + rewrite Hq. simpl. eauto.
    + exists (qhd_next q). by rewrite set_qhd_next_id.
  - intros p'. apply load_qtd_upd_qhd.
  - apply usbh_devices_upd_qhd.
Qed.

Lemma list_remove_qhd_only_links cfg `{!Layout cfg} fuel s p_head p e s' :
  list_remove_qhd cfg fuel s p_head p = Some (e, s') -> only_links s s'.
Proof.
  unfold list_remove_qhd. intros (r & _ & Hrun)%bind_Some.
  destruct r as [p_prev|]; [|injection Hrun as <- <-; apply only_links_refl].
  apply bind_Some in Hrun as (rem & _ & Hrun).
  apply bind_Some in Hrun as (s1 & H1 & Hrun).
  apply bind_Some in Hrun as (s2 & H2 & Hrun).
  apply bind_Some in Hrun as (s3 & H3 & Hrun).
  injection Hrun as <- <-.
  apply only_links_modify_qhd in H1, H2, H3.
  eauto using only_links_trans.
Qed.

Lemma list_remove_qhd_state_ok cfg `{!Layout cfg} fuel s p_head p e s' :
  list_remove_qhd cfg fuel s p_head p = Some (e, s') ->
  state_ok cfg s -> state_ok cfg s'.
Proof.
  unfold list_remove_qhd. intros (r & _ & Hrun)%bind_Some Hok.
  destruct r as [p_prev|]; [|by injection Hrun as <- <-].
  apply bind_Some in Hrun as (rem & _ & Hrun).
  apply bind_Some in Hrun as (s1 & [_ ->]%modify_qhd_inv & Hrun).
  apply bind_Some in Hrun as (s2 & [_ ->]%modify_qhd_inv & Hrun).
  apply bind_Some in Hrun as (s3 & [_ ->]%modify_qhd_inv & Hrun).
  injection Hrun as <- <-. by do 3 apply state_ok_upd_qhd.
Qed.

Section Pipes.

Context (cfg : hcd_config) {L : Layout cfg}.

Lemma qhd_find_free_inv s dev_addr p_qhd :
  state_ok cfg s ->
  1 <= dev_addr <= Z.of_nat (TUSB_CFG_HOST_DEVICE_MAX cfg) ->
  qhd_find_free cfg s dev_addr = Some (Some p_qhd) ->
  exists i q,
    p_qhd = PoolQhd (Z.to_nat (dev_addr - 1)) i ∧
    (i < EHCI_MAX_QHD cfg)%nat ∧
    load_qhd (ehci_data s) p_qhd = Some q ∧ qhd_used q = 0.
Proof.
  intros Hok Hdev. unfold qhd_find_free.
  assert (Hu8 : uint8 (dev_addr - 1) = dev_addr - 1).
  { destruct Hok as ((? & _) & _). unfold uint8. apply Z.mod_small. lia. }
  rewrite Hu8. set (d := Z.to_nat (dev_addr - 1)).
  destruct (scan_used_first
              (fun i => qhd_used <$> load_qhd (ehci_data s) (PoolQhd d i))
              (EHCI_MAX_QHD cfg) 0)
    as (k & Hscan & Hk & _ & Hat).
  { intros i Hi. apply fmap_is_Some.
    apply (load_qhd_is_Some cfg s _ Hok). simpl. subst d. lia. }
  rewrite Hscan. cbn [mbind option_bind]. case_decide as Hlt; [|done].
  intros [= <-].
  pose proof (Hat ltac:(lia)) as Hx. apply fmap_Some in Hx as (q & Hq & Hu).
  by exists k, q.
Qed.

Lemma circular_list_upd_other s p_head path p f :
  p ∉ p_head :: path ->
  circular_list cfg s p_head path ->
  circular_list cfg (upd_qhd s p f) p_head path.
Proof.
  intros Hp [Hnd Hc]. split; [done|].
  apply (qhd_chain_frame cfg s); [|done].
  intros p' Hp'. apply load_qhd_upd_qhd_ne. intros ->. done.
Qed.

(** X9. [hcd_pipe_open] of a bulk endpoint, for a device with a free queue
    head that is not linked: the handle names that queue head, which is
    marked used, carries the endpoint's direction, packet size, speed and
    class code, has an empty qTD list and an overlay that is neither
    halted nor pointing anywhere, and is linked right behind the head of
    the asynchronous list, which stays circular.  The next scan of the
    pool does not return it again. *)
Theorem hcd_pipe_open_bulk s dev_addr desc cc dev path p_qhd :
  state_ok cfg s ->
  1 <= dev_addr <= Z.of_nat (TUSB_CFG_HOST_DEVICE_MAX cfg) ->
  bmAttributes_xfer desc = TUSB_XFER_BULK ->
  usbh_devices s !! Z.to_nat dev_addr = Some dev ->
  circular_list cfg s (get_async_head cfg (core_id dev)) path ->
  qhd_find_free cfg s dev_addr = Some (Some p_qhd) ->
  p_qhd ∉ path ->
  exists i s' q,
    p_qhd = PoolQhd (Z.to_nat (dev_addr - 1)) i ∧
    hcd_pipe_open cfg s dev_addr desc cc
      = Some ({| hdl_dev_addr := dev_addr; hdl_xfer_type := TUSB_XFER_BULK;
                 hdl_index := Z.of_nat i |}, s') ∧
    state_ok cfg s' ∧
    circular_list cfg s' (get_async_head cfg (core_id dev)) (p_qhd :: path) ∧
    load_qhd (ehci_data s') p_qhd = Some q ∧
    qhd_used q = 1 ∧ is_removing q = 0 ∧
    device_address q = dev_addr ∧
    endpoint_number q = Z.land (bEndpointAddress desc) 0x0F ∧
    pid_non_control q =
      (if Z.land (bEndpointAddress desc) 0x80 =? 0
       then EHCI_PID_OUT else EHCI_PID_IN) ∧
    max_package_size q = bitfield 11 (wMaxPacketSize_size desc) ∧
    endpoint_speed q = bitfield 2 (speed dev) ∧
    class_code q = uint8 cc ∧
    head_list_flag q = 0 ∧ interrupt_smask q = 0 ∧
    p_qtd_list_head q = None ∧ p_qtd_list_tail q = None ∧
    halted (qtd_overlay q) = 0 ∧
    link_terminate (qtd_next (qtd_overlay q)) = 1 ∧
    qhd_find_free cfg s' dev_addr ≠ Some (Some p_qhd) ∧
    (forall p, p ≠ get_async_head cfg (core_id dev) -> p ≠ p_qhd ->
               load_qhd (ehci_data s') p = load_qhd (ehci_data s) p) ∧
    (forall p, load_qtd (ehci_data s') p = load_qtd (ehci_data s) p).
Proof.
  intros Hok Hdev Hbulk Hd Hcirc Hfind Hnot.
  destruct (qhd_find_free_inv s dev_addr p_qhd Hok Hdev Hfind)
    as (i & q0 & -> & Hi & Hq0 & Hu0).
  set (d := Z.to_nat (dev_addr - 1)) in *.
  set (p_qhd := PoolQhd d i) in *.
  set (head := get_async_head cfg (core_id dev)) in *.
  assert (Hv : valid_qhd_ptr cfg p_qhd) by (simpl; subst d; lia).
  assert (Hfresh : p_qhd ∉ head :: path).
  { apply not_elem_of_cons. split; [done|done]. }
  set (f1 := fun old => qhd_init_value old dev dev_addr
                          (wMaxPacketSize_size desc) (bEndpointAddress desc)
                          (bmAttributes_xfer desc)).
  set (s2 := upd_qhd (upd_qhd s p_qhd f1) p_qhd (set_class_code cc)).
  assert (Hok2 : state_ok cfg s2) by (by do 2 apply state_ok_upd_qhd).
  assert (Hcirc2 : circular_list cfg s2 head path).
  { subst s2. apply circular_list_upd_other; [done|].
    by apply circular_list_upd_other. }
  destruct (list_insert_spec cfg s2 head path p_qhd Hok2 Hcirc2 Hfresh Hv)
    as (s3 & hd & new & oh & on & Hrun & Hok3 & Hc3 & Hoh & Hon & Hlh & Hln &
        -> & -> & Hq & Ht & Hud).
  assert (Hon' : on = set_class_code cc (f1 q0)).
  { subst s2. rewrite !load_qhd_upd_qhd_eq, Hq0 in Hon. simpl in Hon.
    congruence. }
  destruct Hok as (Hcfg & Hrest). destruct Hcfg as (Hdm & Hqm & Htm).
  assert (Hbf : bitfield 7 dev_addr = dev_addr).
  { unfold bitfield. rewrite Z.land_ones by lia. apply Z.mod_small.
    change (2 ^ 7) with 128. lia. }
  exists i, s3. eexists. split; [done|]. split.
  { unfold hcd_pipe_open.
    replace (0 <? dev_addr) with true by (symmetry; apply Z.ltb_lt; lia).
    cbn [negb]. rewrite Hbulk.
    change (TUSB_XFER_BULK =? TUSB_XFER_ISOCHRONOUS) with false.
    change (TUSB_XFER_BULK =? TUSB_XFER_BULK) with true.
    cbn iota. rewrite Hfind. cbn [mbind option_bind].
    unfold qhd_init. rewrite Hd. cbn [mbind option_bind].
    rewrite <- Hbulk. fold f1. fold p_qhd.
    do 2 exec_write. autorewrite with hcd. rewrite Hd.
    cbn [mbind option_bind]. fold s2. fold head. rewrite Hrun.
    cbn [mbind option_bind].
    unfold qhd_get_index. rewrite Hln. cbn [mbind option_bind].
    subst p_qhd. cbn iota. rewrite Hon'.
    cbn [device_address set_qhd_next set_class_code]. unfold f1.
    cbn [device_address qhd_init_value]. rewrite Hbf.
    rewrite decide_True by (subst d; split; [lia|done]).
    cbn [mbind option_bind]. rewrite Hbulk. do 3 f_equal.
    unfold uint8. apply Z.mod_small. lia. }
  split; [done|]. split; [done|]. split; [exact Hln|].
  rewrite Hon'. unfold f1. rewrite Hbulk.
  cbn -[bitfield Z.land uint8 link_terminate link_set_terminate].
  split_and!; try done.
  - unfold bitfield. rewrite <- Z.land_assoc.
    change (Z.land 15 (Z.ones 4)) with 15. done.
  - destruct (Z.eqb_spec dev_addr 0); [lia|done].
  - unfold link_terminate, link_set_terminate.
    rewrite Z.land_lor_distr_l, <- Z.land_assoc.
    change (Z.land 4294967294 1) with 0. rewrite Z.land_0_r. reflexivity.
  - intros Hagain.
    destruct (qhd_find_free_inv s3 dev_addr p_qhd)
      as (? & q' & _ & _ & Hq' & Hu'); [exact Hok3|lia|done|].
    rewrite Hln, Hon' in Hq'. injection Hq' as <-. discriminate.
  - intros p Hp1 Hp2. rewrite Hq by done. subst s2.
    by rewrite !load_qhd_upd_qhd_ne.
  - intros p. rewrite Ht. subst s2. by rewrite !load_qtd_upd_qhd.
Qed.


Lemma qhd_find_free_exhausted s dev_addr :
  state_ok cfg s ->
  1 <= dev_addr <= Z.of_nat (TUSB_CFG_HOST_DEVICE_MAX cfg) ->
  (forall i q,
     load_qhd (ehci_data s) (PoolQhd (Z.to_nat (dev_addr - 1)) i) = Some q ->
     qhd_used q ≠ 0) ->
  qhd_find_free cfg s dev_addr = Some None.
Proof.
  intros Hok Hdev Hall. unfold qhd_find_free.
  assert (Hu8 : uint8 (dev_addr - 1) = dev_addr - 1).
  { destruct Hok as ((? & _) & _). unfold uint8. apply Z.mod_small. lia. }
  rewrite Hu8. set (d := Z.to_nat (dev_addr - 1)) in *.
  destruct (scan_used_first
              (fun i => qhd_used <$> load_qhd (ehci_data s) (PoolQhd d i))
              (EHCI_MAX_QHD cfg) 0)
    as (k & Hscan & Hk & _ & Hat).
  { intros i Hi. apply fmap_is_Some.
    apply (load_qhd_is_Some cfg s _ Hok). simpl. subst d. lia. }
  rewrite Hscan. cbn [mbind option_bind]. case_decide as Hlt; [|done].
  pose proof (Hat ltac:(lia)) as Hx. apply fmap_Some in Hx as (q & Hq & Hu).
  by destruct (Hall k q Hq).
Qed.

(** X11. [hcd_pipe_open] returns the null handle and leaves the driver
    state as it was for device address 0, for an isochronous endpoint, and
    when every queue head of the device's pool is in use. *)
Theorem hcd_pipe_open_rejected s dev_addr desc cc :
  dev_addr <= 0 ∨
  bmAttributes_xfer desc = TUSB_XFER_ISOCHRONOUS ∨
  (state_ok cfg s ∧
   1 <= dev_addr <= Z.of_nat (TUSB_CFG_HOST_DEVICE_MAX cfg) ∧
   forall i q,
     load_qhd (ehci_data s) (PoolQhd (Z.to_nat (dev_addr - 1)) i) = Some q ->
     qhd_used q ≠ 0) ->
  hcd_pipe_open cfg s dev_addr desc cc = Some (null_handle, s).
Proof.
  unfold hcd_pipe_open.
  destruct (Z.ltb_spec 0 dev_addr) as [Hpos|Hneg]; cbn [negb]; [|done].
  destruct (Z.eqb_spec (bmAttributes_xfer desc) TUSB_XFER_ISOCHRONOUS)
    as [Hiso|Hniso]; [done|].
  intros [Hz|[Hi|(Hok & Hdev & Hall)]]; [lia|done|].
  by rewrite qhd_find_free_exhausted.
Qed.

(** X12. [hcd_pipe_close] of a bulk pipe whose queue head is linked marks
    the queue head as being removed and unlinks it: the asynchronous list
    stays circular without it, the queue head keeps its [used] mark (the
    slot is not free yet) and points at the list head.  Closing the same
    pipe once more returns [TUSB_ERROR_INVALID_PARA] and leaves the list
    as it is. *)
Theorem hcd_pipe_close_bulk s pipe_hdl dev l1 l2 fuel :
  state_ok cfg s ->
  0 < hdl_dev_addr pipe_hdl ->
  hdl_xfer_type pipe_hdl = TUSB_XFER_BULK ->
  usbh_devices s !! Z.to_nat (hdl_dev_addr pipe_hdl) = Some dev ->
  let p_qhd := PoolQhd (Z.to_nat (hdl_dev_addr pipe_hdl - 1))
                       (Z.to_nat (hdl_index pipe_hdl)) in
  let head := get_async_head cfg (core_id dev) in
  circular_list cfg s head (l1 ++ p_qhd :: l2) ->
  (length (l1 ++ p_qhd :: l2) < fuel)%nat ->
  exists s' q0 q s'',
    hcd_pipe_close cfg fuel s pipe_hdl = Some (TUSB_ERROR_NONE, s') ∧
    state_ok cfg s' ∧
    circular_list cfg s' head (l1 ++ l2) ∧
    load_qhd (ehci_data s) p_qhd = Some q0 ∧
    load_qhd (ehci_data s') p_qhd = Some q ∧
    is_removing q = 1 ∧ qhd_used q = qhd_used q0 ∧
    align32 (qhd_next q) = qhd_address head ∧
    hcd_pipe_close cfg fuel s' pipe_hdl
      = Some (TUSB_ERROR_INVALID_PARA, s'') ∧
    circular_list cfg s'' head (l1 ++ l2).
Proof.
  intros Hok Hpos Hbulk Hd p_qhd head Hcirc Hfuel.
  pose proof Hcirc as [Hnd Hc].
  pose proof (qhd_chain_valid cfg s _ _ _ Hok Hc) as Hval.
  apply Forall_cons in Hval as [Hvh Hval].
  apply Forall_app in Hval as [_ Hval].
  apply Forall_cons in Hval as [Hv _].
  destruct (proj2 (load_qhd_is_Some cfg s p_qhd Hok) Hv) as [q0 Hq0].
  assert (Hnotin : p_qhd ∉ l1 ++ l2).
  { apply NoDup_cons in Hnd as [_ Hnd].
    apply NoDup_app in Hnd as (_ & Hdisj & Hnd2).
    apply NoDup_cons in Hnd2 as [Hn2 _].
    apply not_elem_of_app. split; [|done].
    intros Hin. apply (Hdisj _ Hin). by left. }
  set (s1 := upd_qhd s p_qhd (set_is_removing 1)).
  assert (Hok1 : state_ok cfg s1) by (by apply state_ok_upd_qhd).
  assert (Hcirc1 : circular_list cfg s1 head (l1 ++ p_qhd :: l2)).
  { apply (circular_list_same_links cfg s); [|done].
    by apply same_links_upd_qhd. }
  destruct (list_remove_qhd_spec cfg s1 head l1 p_qhd l2 fuel Hok1 Hcirc1 Hfuel)
    as (s' & q & Hrun & Hcirc' & _ & Hq & Hnext & _).
  pose proof (list_remove_qhd_only_links cfg _ _ _ _ _ _ Hrun)
    as (Hol & _ & Hu').
  pose proof (list_remove_qhd_state_ok cfg _ _ _ _ _ _ Hrun Hok1) as Hok'.
  assert (Hq1 : load_qhd (ehci_data s1) p_qhd = Some (set_is_removing 1 q0)).
  { subst s1. by rewrite load_qhd_upd_qhd_eq, Hq0. }
  destruct (Hol _ _ Hq1) as (nx & Hnx).
  assert (Hqeq : q = set_qhd_next nx (set_is_removing 1 q0)) by congruence.
  assert (Hhead : forall st, hcd_pipe_close cfg fuel st pipe_hdl =
    (s ← modify_qhd st p_qhd (set_is_removing 1);
     d ← usbh_devices s !! Z.to_nat (hdl_dev_addr pipe_hdl);
     list_remove_qhd cfg fuel s (get_async_head cfg (core_id d)) p_qhd)).
  { intros st. unfold hcd_pipe_close, qhd_get_from_pipe_handle.
    replace (0 <? hdl_dev_addr pipe_hdl) with true
      by (symmetry; apply Z.ltb_lt; lia).
    cbn [negb]. rewrite Hbulk.
    change (TUSB_XFER_BULK =? TUSB_XFER_ISOCHRONOUS) with false.
    change (TUSB_XFER_BULK =? TUSB_XFER_BULK) with true.
    cbn iota. rewrite decide_True by lia. reflexivity. }
  set (s2 := upd_qhd s' p_qhd (set_is_removing 1)).
  assert (Hok2 : state_ok cfg s2) by (by apply state_ok_upd_qhd).
  assert (Hcirc2 : circular_list cfg s2 head (l1 ++ l2)).
  { apply (circular_list_same_links cfg s'); [|done].
    by apply same_links_upd_qhd. }
  exists s', q0, q, s2. split_and!; try done.
  - rewrite Hhead. exec_write. fold s1. autorewrite with hcd.
    subst s1. autorewrite with hcd. rewrite Hd. cbn [mbind option_bind].
    exact Hrun.
  - by rewrite Hqeq.
  - by rewrite Hqeq.
  - rewrite Hhead. exec_write. fold s2.
    subst s2. autorewrite with hcd. rewrite Hu'. subst s1.
    autorewrite with hcd. rewrite Hd. cbn [mbind option_bind].
    unfold list_remove_qhd.
    rewrite (list_find_previous_qhd_not_linked cfg _ head p_qhd (l1 ++ l2));
      try done.
    rewrite length_app in *. simpl in Hfuel. lia.
Qed.

(** X13. [async_advance_isr] never writes a horizontal link: every queue
    head keeps its link word, so a circular list stays the circular list
    it was, also through the queue heads the handler frees. *)
Theorem async_advance_isr_keeps_links s hostid :
  state_ok cfg s ->
  valid_qhd_ptr cfg (get_async_head cfg hostid) ->
  exists s',
    async_advance_isr cfg s (get_async_head cfg hostid) = Some s' ∧
    (forall p q, load_qhd (ehci_data s) p = Some q ->
       exists q', load_qhd (ehci_data s') p = Some q' ∧
                  qhd_next q' = qhd_next q) ∧
    (forall head path,
       circular_list cfg s head path -> circular_list cfg s' head path).
Proof.
  intros Hok Hv.
  destruct (async_advance_isr_spec cfg s hostid Hok Hv) as (s' & Hrun & _).
  pose proof (async_advance_isr_same_links cfg _ _ _ Hrun) as Hsame.
  exists s'. split; [done|]. split.
  - intros p q Hq. by apply (same_links_load s s').
  - intros head path. by apply circular_list_same_links.
Qed.

(** X14. Closing the control pipe of a device and then taking the
    async-advance interrupt reclaims the device: the close unlinks the
    control queue head, the handler then frees the control queue head and
    both pools and marks the device unplugged, and the asynchronous list
    is circular without the control queue head. *)
Theorem hcd_pipe_control_close_reclaim s dev_addr dev l1 l2 fuel hostid :
  state_ok cfg s ->
  1 <= dev_addr <= Z.of_nat (TUSB_CFG_HOST_DEVICE_MAX cfg) ->
  usbh_devices s !! Z.to_nat dev_addr = Some dev ->
  let d := Z.to_nat (dev_addr - 1) in
  let head := get_async_head cfg (core_id dev) in
  circular_list cfg s head (l1 ++ ControlQhd d :: l2) ->
  (length (l1 ++ ControlQhd d :: l2) < fuel)%nat ->
  valid_qhd_ptr cfg (get_async_head cfg hostid) ->
  exists s1 s2,
    hcd_pipe_control_close cfg fuel s dev_addr = Some (TUSB_ERROR_NONE, s1) ∧
    circular_list cfg s1 head (l1 ++ l2) ∧
    async_advance_isr cfg s1 (get_async_head cfg hostid) = Some s2 ∧
    device_freed s2 d ∧
    circular_list cfg s2 head (l1 ++ l2).
Proof.
  intros Hok Hdev Hd d head Hcirc Hfuel Hvh.
  set (p_qhd := ControlQhd d) in *.
  assert (Hv : valid_qhd_ptr cfg p_qhd) by (simpl; subst d; lia).
  destruct (proj2 (load_qhd_is_Some cfg s p_qhd Hok) Hv) as [q0 Hq0].
  set (s0 := upd_qhd s p_qhd (set_is_removing 1)).
  assert (Hok0 : state_ok cfg s0) by (by apply state_ok_upd_qhd).
  assert (Hcirc0 : circular_list cfg s0 head (l1 ++ p_qhd :: l2)).
  { apply (circular_list_same_links cfg s); [|done].
    by apply same_links_upd_qhd. }
  destruct (list_remove_qhd_spec cfg s0 head l1 p_qhd l2 fuel Hok0 Hcirc0 Hfuel)
    as (s1 & q & Hrun & Hcirc1 & _ & Hq & _).
  pose proof (list_remove_qhd_only_links cfg _ _ _ _ _ _ Hrun)
    as (Hol & _ & _).
  pose proof (list_remove_qhd_state_ok cfg _ _ _ _ _ _ Hrun Hok0) as Hok1.
  assert (Hq1 : load_qhd (ehci_data s0) p_qhd = Some (set_is_removing 1 q0)).
  { subst s0. by rewrite load_qhd_upd_qhd_eq, Hq0. }
  destruct (Hol _ _ Hq1) as (nx & Hnx).
  destruct (async_advance_isr_spec cfg s1 hostid Hok1 Hvh)
    as (s2 & Hadv & _ & Hdevs & _).
  pose proof (async_advance_isr_same_links cfg _ _ _ Hadv) as Hsame.
  exists s1, s2. split_and!; try done.
  - unfold hcd_pipe_control_close, get_control_qhd.
    replace (dev_addr =? 0) with false by (symmetry; apply Z.eqb_neq; lia).
    cbn [mbind option_bind]. fold d. fold p_qhd. exec_write. fold s0.
    subst s0. autorewrite with hcd. rewrite Hd. cbn [mbind option_bind].
    exact Hrun.
  - by apply (Hdevs d _ Hnx).
  - by apply (circular_list_same_links cfg s1).
Qed.

End Pipes.

Lemma lpc_state_control_ok : state_ok lpc_cfg lpc_state_control.
Proof.
  split_and!; try (vm_compute; lia); try reflexivity.
  repeat constructor.
Qed.

Lemma lpc_state_control_circular :
  circular_list lpc_cfg lpc_state_control (AsyncHead 0) [ControlQhd 0].
Proof.
  split.
  - apply (bool_decide_unpack _). vm_compute. exact I.
  - repeat split; eexists; (split; [reflexivity|reflexivity]).
Qed.


(** Witness for X9: opening the bulk OUT pipe of device address 1 once its
    control pipe is open. *)
Lemma hcd_pipe_open_bulk_witness :
  exists s' q,
    hcd_pipe_open lpc_cfg lpc_state_control 1 lpc_bulk_out_desc 8
      = Some (lpc_bulk_handle, s') ∧
    circular_list lpc_cfg s' (AsyncHead 0) [PoolQhd 0 0; ControlQhd 0] ∧
    load_qhd (ehci_data s') (PoolQhd 0 0) = Some q ∧
    qhd_used q = 1 ∧ pid_non_control q = EHCI_PID_OUT ∧
    qhd_find_free lpc_cfg s' 1 ≠ Some (Some (PoolQhd 0 0)).
Proof.
  destruct (hcd_pipe_open_bulk lpc_cfg lpc_state_control 1 lpc_bulk_out_desc 8
              (lpc_usbh_device TUSB_SPEED_HIGH) [ControlQhd 0] (PoolQhd 0 0))
    as (i & s' & q & Hp & Hrun & _ & Hcirc & Hq & Hu & _ & _ & _ & Hpid & _ &
        _ & _ & _ & _ & _ & _ & _ & _ & Hagain & _).
  - exact lpc_state_control_ok.
  - vm_compute. split; discriminate.
  - reflexivity.
  - reflexivity.
  - exact lpc_state_control_circular.
  - reflexivity.
  - apply (bool_decide_unpack _). vm_compute. exact I.
  - exists s', q. injection Hp as <-. split_and!; done.
Defined.


(** Witness for X11: the pool of device address 1 is exhausted. *)
Lemma hcd_pipe_open_rejected_witness :
  hcd_pipe_open lpc_cfg lpc_state_qhd_full 1 lpc_bulk_out_desc 8
    = Some (null_handle, lpc_state_qhd_full).
Proof.
  apply (hcd_pipe_open_rejected lpc_cfg lpc_state_qhd_full 1
           lpc_bulk_out_desc 8).
  right. right. split; [exact lpc_state_qhd_full_ok|].
  split; [vm_compute; split; discriminate|].
  intros [|[|i]] q; vm_compute; intros [= <-]; discriminate.
Defined.

(** Witness for X12: closing the bulk pipe of device address 1. *)
Lemma hcd_pipe_close_bulk_witness :
  exists s' q s'',
    hcd_pipe_close lpc_cfg 8 lpc_state_bulk lpc_bulk_handle
      = Some (TUSB_ERROR_NONE, s') ∧
    circular_list lpc_cfg s' (AsyncHead 0) [ControlQhd 0] ∧
    load_qhd (ehci_data s') (PoolQhd 0 0) = Some q ∧
    is_removing q = 1 ∧
    hcd_pipe_close lpc_cfg 8 s' lpc_bulk_handle
      = Some (TUSB_ERROR_INVALID_PARA, s'').
Proof.
  destruct (hcd_pipe_close_bulk lpc_cfg lpc_state_bulk lpc_bulk_handle
              (lpc_usbh_device TUSB_SPEED_HIGH) [] [ControlQhd 0] 8)
    as (s' & q0 & q & s'' & Hrun & _ & Hcirc & _ & Hq & Hr & _ & _ & Hagain & _).
  - exact lpc_state_bulk_ok.
  - reflexivity.
  - reflexivity.
  - reflexivity.
  - exact lpc_state_bulk_circular.
  - cbn; lia.
  - exists s', q, s''. split_and!; done.
Defined.

(** Witness for X13: the handler run while the control pipe of device
    address 1 is being closed. *)
Lemma async_advance_isr_keeps_links_witness :
  exists s',
    async_advance_isr lpc_cfg lpc_state_closing (AsyncHead 0) = Some s' ∧
    (forall head path,
       circular_list lpc_cfg lpc_state_closing head path ->
       circular_list lpc_cfg s' head path).
Proof.
  destruct (async_advance_isr_keeps_links lpc_cfg lpc_state_closing 0)
    as (s' & Hrun & _ & Hcirc).
  - exact lpc_state_closing_ok.
  - vm_compute. lia.
  - by exists s'.
Defined.

(** Witness for X14: device address 1 with its control and bulk pipes
    open. *)
Lemma hcd_pipe_control_close_reclaim_witness :
  exists s1 s2,
    hcd_pipe_control_close lpc_cfg 8 lpc_state_bulk 1
      = Some (TUSB_ERROR_NONE, s1) ∧
    async_advance_isr lpc_cfg s1 (AsyncHead 0) = Some s2 ∧
    device_freed s2 0 ∧
    circular_list lpc_cfg s2 (AsyncHead 0) [PoolQhd 0 0].
Proof.
  destruct (hcd_pipe_control_close_reclaim lpc_cfg lpc_state_bulk 1
              (lpc_usbh_device TUSB_SPEED_HIGH) [PoolQhd 0 0] [] 8 0)
    as (s1 & s2 & Hrun & _ & Hadv & Hfreed & Hcirc).
  - exact lpc_state_bulk_ok.
  - vm_compute. split; discriminate.
  - reflexivity.
  - exact lpc_state_bulk_circular.
  - cbn; lia.
  - vm_compute. lia.
  - by exists s1, s2.
Defined.

(** ** Initialisation *)

Section Init.

Context (cfg : hcd_config) {L : Layout cfg}.

Lemma hcd_controller_init_spec s hostid :
  state_ok cfg s ->
  valid_qhd_ptr cfg (get_async_head cfg hostid) ->
  let ah := get_async_head cfg hostid in
  let ph := get_period_head cfg hostid in
  exists s' h,
    hcd_controller_init cfg s hostid = Some (TUSB_ERROR_NONE, s') ∧
    state_ok cfg s' ∧
    load_qhd (ehci_data s') ah = Some h ∧
    qhd_next h = link_set_type EHCI_QUEUE_ELEMENT_QHD (uint32 (qhd_address ah)) ∧
    head_list_flag h = 1 ∧ halted (qtd_overlay h) = 1 ∧
    link_terminate (qtd_next (qtd_overlay h)) = 1 ∧
    p_qtd_list_head h = None ∧ p_qtd_list_tail h = None ∧
    is_removing h = 0 ∧
    (EHCI_PERIODIC_LIST cfg = true ->
     forall p0, load_qhd (ehci_data s) ph = Some p0 ->
       load_qhd (ehci_data s') ph =
       Some (set_qtd_overlay (set_halted 1 (qtd_overlay p0))
               (set_qhd_next (link_set_terminate 1 (qhd_next p0))
                  (set_interrupt_smask 1 p0)))) ∧
    (forall p, p ≠ ah -> p ≠ ph ->
               load_qhd (ehci_data s') p = load_qhd (ehci_data s) p) ∧
    (forall p, load_qtd (ehci_data s') p = load_qtd (ehci_data s) p) ∧
    usbh_devices s' = usbh_devices s.
Proof.
  intros Hok Hv ah ph.
  assert (Hvp : valid_qhd_ptr cfg ph) by exact Hv.
  assert (Hne : ah ≠ ph) by done.
  destruct (proj2 (load_qhd_is_Some cfg s ah Hok) Hv) as [h0 Hh0].
  destruct (proj2 (load_qhd_is_Some cfg s ph Hok) Hvp) as [p0 Hp0].
  unfold hcd_controller_init. fold ah. fold ph.
  do 6 exec_write.
  match goal with
  | |- context [mbind _ (if _ then _ else Some ?st)] => set (s1 := st)
  end.
  assert (Hok1 : state_ok cfg s1) by (subst s1; by do 6 apply state_ok_upd_qhd).
  assert (Hl1 : exists h, load_qhd (ehci_data s1) ah = Some h ∧
    qhd_next h
      = link_set_type EHCI_QUEUE_ELEMENT_QHD (uint32 (qhd_address ah)) ∧
    head_list_flag h = 1 ∧ halted (qtd_overlay h) = 1 ∧
    link_terminate (qtd_next (qtd_overlay h)) = 1 ∧
    p_qtd_list_head h = None ∧ p_qtd_list_tail h = None ∧
    is_removing h = 0).
  { eexists. split.
    - subst s1. rewrite !load_qhd_upd_qhd_eq, Hh0. reflexivity.
    - split_and!; reflexivity. }
  destruct Hl1 as (h & Hh & Hprops).
  assert (Hf1 : forall p, p ≠ ah ->
            load_qhd (ehci_data s1) p = load_qhd (ehci_data s) p).
  { intros p Hp. subst s1. by rewrite !load_qhd_upd_qhd_ne. }
  assert (Ht1 : forall p, load_qtd (ehci_data s1) p = load_qtd (ehci_data s) p).
  { intros p. subst s1. by rewrite !load_qtd_upd_qhd. }
  assert (Hu1 : usbh_devices s1 = usbh_devices s).
  { subst s1. by rewrite !usbh_devices_upd_qhd. }
  clearbody s1.
  destruct (EHCI_PERIODIC_LIST cfg) eqn:Hper.
  - assert (Hp1 : load_qhd (ehci_data s1) ph = Some p0)
      by (rewrite Hf1; done).
    do 3 exec_write.
    eexists _, h. split; [reflexivity|].
    split; [by do 3 apply state_ok_upd_qhd|].
    split; [by rewrite !load_qhd_upd_qhd_ne|].
    destruct Hprops as (? & ? & ? & ? & ? & ? & ?).
    split_and!; try done.
    + intros _ p0' Hp0'. rewrite !load_qhd_upd_qhd_eq, Hp1.
      assert (p0' = p0) as -> by congruence. reflexivity.
    + intros p Hpa Hpp. rewrite !load_qhd_upd_qhd_ne by done. by apply Hf1.
    + intros p. by rewrite !load_qtd_upd_qhd.
    + by rewrite !usbh_devices_upd_qhd.
  - cbn [mbind option_bind]. exists s1, h.
    destruct Hprops as (? & ? & ? & ? & ? & ? & ?).
    split_and!; try done. intros p Hpa _. by apply Hf1.
Qed.

Lemma self_link_circular s ah h :
  valid_qhd_ptr cfg ah ->
  load_qhd (ehci_data s) ah = Some h ->
  qhd_next h = link_set_type EHCI_QUEUE_ELEMENT_QHD (uint32 (qhd_address ah)) ->
  circular_list cfg s ah [].
Proof.
  intros Hv Hh Hn. split.
  - apply NoDup_cons. split; [apply not_elem_of_nil|apply NoDup_nil_2].
  - exists h. split; [done|].
    rewrite Hn, align32_link_set_type, align32_uint32.
    pose proof (qhd_address_range _ Hv) as Hr.
    apply align32_aligned; [lia|by apply qhd_address_aligned].
Qed.

(** X15. [hcd_controller_init] leaves the asynchronous list head as a
    circular list of one: its link points at itself with type QHD, it is
    flagged head of the reclamation list, and its overlay is halted with
    no next qTD; with the periodic list compiled in, the periodic head
    ends the list, is halted and has a non-zero S-mask.  Every other queue
    head and every qTD is as before. *)
Theorem hcd_controller_init_lists s hostid :
  state_ok cfg s ->
  valid_qhd_ptr cfg (get_async_head cfg hostid) ->
  let ah := get_async_head cfg hostid in
  let ph := get_period_head cfg hostid in
  exists s' h,
    hcd_controller_init cfg s hostid = Some (TUSB_ERROR_NONE, s') ∧
    state_ok cfg s' ∧
    circular_list cfg s' ah [] ∧
    load_qhd (ehci_data s') ah = Some h ∧
    qhd_of_address cfg (align32 (qhd_next h)) = Some ah ∧
    link_type (qhd_next h) = EHCI_QUEUE_ELEMENT_QHD ∧
    head_list_flag h = 1 ∧ halted (qtd_overlay h) = 1 ∧
    link_terminate (qtd_next (qtd_overlay h)) = 1 ∧
    p_qtd_list_head h = None ∧
    (EHCI_PERIODIC_LIST cfg = true ->
     exists p, load_qhd (ehci_data s') ph = Some p ∧
               link_terminate (qhd_next p) = 1 ∧
               interrupt_smask p = 1 ∧ halted (qtd_overlay p) = 1) ∧
    (forall p, p ≠ ah -> p ≠ ph ->
               load_qhd (ehci_data s') p = load_qhd (ehci_data s) p) ∧
    (forall p, load_qtd (ehci_data s') p = load_qtd (ehci_data s) p).
Proof.
  intros Hok Hv ah ph.
  destruct (hcd_controller_init_spec s hostid Hok Hv)
    as (s' & h & Hrun & Hok' & Hh & Hn & Hf & Hhalt & Hterm & Hhd & _ & _ &
        Hper & Hframe & Hqtd & _).
  fold ah in Hh, Hn, Hframe. fold ph in Hper, Hframe.
  pose proof (self_link_circular s' ah h Hv Hh Hn) as Hcirc.
  exists s', h. split_and!; try done.
  - destruct Hcirc as [_ (h' & Hh' & Ha)].
    assert (h' = h) as -> by congruence. rewrite Ha.
    by apply qhd_of_address_valid.
  - rewrite Hn. apply link_type_link_set_type.
  - intros Hp.
    destruct (proj2 (load_qhd_is_Some cfg s ph Hok) Hv) as [p0 Hp0].
    eexists. split; [by apply Hper|].
    cbn [qhd_next interrupt_smask qtd_overlay set_qtd_overlay set_qhd_next
         set_interrupt_smask halted set_halted].
    split_and!; try done.
    unfold link_terminate, link_set_terminate.
    rewrite Z.land_lor_distr_l, <- Z.land_assoc.
    change (Z.land 4294967294 1) with 0. rewrite Z.land_0_r. reflexivity.
Qed.

Lemma ehci_data_zero_ok s :
  cfg_ok cfg ->
  length (usbh_devices s) = S (TUSB_CFG_HOST_DEVICE_MAX cfg) ->
  state_ok cfg (set_ehci_data (ehci_data_zero cfg) s).
Proof.
  intros Hcfg Hlen. split_and!; simpl; rewrite ?length_replicate; try done.
  apply Forall_replicate. split_and!; simpl; by rewrite ?length_replicate.
Qed.

Lemma load_qhd_zero p q :
  load_qhd (ehci_data_zero cfg) p = Some q -> q = qhd_zero.
Proof.
  destruct p as [h|h|d|d i]; simpl.
  - by intros [-> _]%lookup_replicate.
  - by intros [-> _]%lookup_replicate.
  - intros (dv & [-> _]%lookup_replicate & ->)%fmap_Some. done.
  - intros (dv & [-> _]%lookup_replicate & Hq)%bind_Some. simpl in Hq.
    by apply lookup_replicate in Hq as [-> _].
Qed.

Lemma load_qtd_zero p t :
  load_qtd (ehci_data_zero cfg) p = Some t -> t = qtd_zero.
Proof.
  destruct p as [i|d i|d i]; unfold load_qtd, ehci_data_zero;
    cbn [addr0_qtd device].
  - by intros [-> _]%lookup_replicate.
  - intros (dv & [-> _]%lookup_replicate & Hq)%bind_Some.
    cbn [control_qtd] in Hq. by apply lookup_replicate in Hq as [-> _].
  - intros (dv & [-> _]%lookup_replicate & Hq)%bind_Some.
    cbn [dev_qtd] in Hq. by apply lookup_replicate in Hq as [-> _].
Qed.

(** X16. [hcd_init], run from any content of [ehci_data], returns
    [TUSB_ERROR_NONE] and leaves a well-sized state in which the
    asynchronous list of every controller in host mode is a circular list
    of its head alone, and every control queue head, pool queue head and
    qTD is zero, hence free. *)
Theorem hcd_init_fresh s :
  cfg_ok cfg ->
  length (usbh_devices s) = S (TUSB_CFG_HOST_DEVICE_MAX cfg) ->
  (TUSB_CFG_CONTROLLER0_HOST cfg = true ->
   valid_qhd_ptr cfg (get_async_head cfg 0)) ->
  (TUSB_CFG_CONTROLLER1_HOST cfg = true ->
   valid_qhd_ptr cfg (get_async_head cfg 1)) ->
  exists s',
    hcd_init cfg s = Some (TUSB_ERROR_NONE, s') ∧
    state_ok cfg s' ∧
    usbh_devices s' = usbh_devices s ∧
    (TUSB_CFG_CONTROLLER0_HOST cfg = true ->
     circular_list cfg s' (get_async_head cfg 0) []) ∧
    (TUSB_CFG_CONTROLLER1_HOST cfg = true ->
     circular_list cfg s' (get_async_head cfg 1) []) ∧
    (forall d q, load_qhd (ehci_data s') (ControlQhd d) = Some q ->
                 q = qhd_zero) ∧
    (forall d i q, load_qhd (ehci_data s') (PoolQhd d i) = Some q ->
                   q = qhd_zero) ∧
    (forall p t, load_qtd (ehci_data s') p = Some t -> t = qtd_zero).
Proof.
  intros Hcfg Hlen Hv0 Hv1. unfold hcd_init.
  set (s0 := set_ehci_data (ehci_data_zero cfg) s).
  pose proof (ehci_data_zero_ok s Hcfg Hlen) as Hok0. fold s0 in Hok0.
  assert (Hz0 : forall p q, load_qhd (ehci_data s0) p = Some q -> q = qhd_zero)
    by (intros p q; apply load_qhd_zero).
  assert (Ht0 : forall p t, load_qtd (ehci_data s0) p = Some t -> t = qtd_zero)
    by (intros p t; apply load_qtd_zero).
  assert (Hu0 : usbh_devices s0 = usbh_devices s) by done.
  clearbody s0.
  (* controller 0 *)
  assert (Hstep1 : exists s1,
    (if TUSB_CFG_CONTROLLER0_HOST cfg then hcd_controller_init cfg s0 0
     else Some (TUSB_ERROR_NONE, s0)) = Some (TUSB_ERROR_NONE, s1) ∧
    state_ok cfg s1 ∧ usbh_devices s1 = usbh_devices s ∧
    (TUSB_CFG_CONTROLLER0_HOST cfg = true ->
     circular_list cfg s1 (get_async_head cfg 0) []) ∧
    (forall d q, load_qhd (ehci_data s1) (ControlQhd d) = Some q ->
                 q = qhd_zero) ∧
    (forall d i q, load_qhd (ehci_data s1) (PoolQhd d i) = Some q ->
                   q = qhd_zero) ∧
    (forall p t, load_qtd (ehci_data s1) p = Some t -> t = qtd_zero)).
  { destruct (TUSB_CFG_CONTROLLER0_HOST cfg) eqn:Hc0.
    - destruct (hcd_controller_init_spec s0 0 Hok0 (Hv0 eq_refl))
        as (s1 & h & Hrun & Hok1 & Hh & Hn & _ & _ & _ & _ & _ & _ & _ &
            Hframe & Hqtd & Hu).
      exists s1. split_and!; try done.
      + congruence.
      + intros _. by apply (self_link_circular s1 _ h); [apply Hv0| |].
      + intros d q. rewrite Hframe by done. apply Hz0.
      + intros d i q. rewrite Hframe by done. apply Hz0.
      + intros p t. rewrite Hqtd. apply Ht0.
    - exists s0. split_and!; try done; eauto. }
  destruct Hstep1 as (s1 & -> & Hok1 & Hu1 & Hc1 & Hzc1 & Hzp1 & Ht1).
  cbn [mbind option_bind].
  destruct (TUSB_CFG_CONTROLLER1_HOST cfg) eqn:Hc1h.
  - destruct (hcd_controller_init_spec s1 1 Hok1 (Hv1 eq_refl))
      as (s2 & h & Hrun & Hok2 & Hh & Hn & _ & _ & _ & _ & _ & _ & _ &
          Hframe & Hqtd & Hu).
    rewrite Hrun. cbn [mbind option_bind].
    exists s2. split_and!; try done.
    + congruence.
    + intros Hc0. specialize (Hc1 Hc0).
      destruct (decide (get_async_head cfg 0 = get_async_head cfg 1))
        as [Heq|Hne].
      * rewrite Heq. by apply (self_link_circular s2 _ h); [apply Hv1| |].
      * destruct Hc1 as [Hnd Hc]. split; [done|].
        apply (qhd_chain_frame cfg s1); [|done].
        intros p [->|[]%elem_of_nil]%elem_of_cons. by apply Hframe.
    + intros _. by apply (self_link_circular s2 _ h); [apply Hv1| |].
    + intros d q. rewrite Hframe by done. apply Hzc1.
    + intros d i q. rewrite Hframe by done. apply Hzp1.
    + intros p t. rewrite Hqtd. apply Ht1.
  - cbn [mbind option_bind]. exists s1. split_and!; try done.
Qed.

End Init.

(** Witness for X15: controller 0 of the two-controller configuration. *)
Lemma hcd_controller_init_lists_witness :
  exists s' h,
    hcd_controller_init lpc_cfg lpc_state_bulk 0 = Some (TUSB_ERROR_NONE, s') ∧
    circular_list lpc_cfg s' (AsyncHead 0) [] ∧
    load_qhd (ehci_data s') (AsyncHead 0) = Some h ∧
    head_list_flag h = 1 ∧ halted (qtd_overlay h) = 1.
Proof.
  destruct (hcd_controller_init_lists lpc_cfg lpc_state_bulk 0)
    as (s' & h & Hrun & _ & Hcirc & Hh & _ & _ & Hf & Hhalt & _).
  - exact lpc_state_bulk_ok.
  - vm_compute. lia.
  - by exists s', h.
Defined.

(** Witness for X16: initialising again with pipes open. *)
Lemma hcd_init_fresh_witness :
  exists s',
    hcd_init lpc_cfg lpc_state_bulk = Some (TUSB_ERROR_NONE, s') ∧
    state_ok lpc_cfg s' ∧
    circular_list lpc_cfg s' (AsyncHead 0) [] ∧
    circular_list lpc_cfg s' (AsyncHead 1) [].
Proof.
  destruct (hcd_init_fresh lpc_cfg lpc_state_bulk)
    as (s' & Hrun & Hok & _ & Hc0 & Hc1 & _).
  - vm_compute. split_and!; lia.
  - reflexivity.
  - intros _. vm_compute. lia.
  - intros _. vm_compute. lia.
  - exists s'. split_and!; [done|done|by apply Hc0|by apply Hc1].
Defined.

(** ** The interrupt handlers for completed and failed transfers *)

Section Isr.

Context (cfg : hcd_config) {L : Layout cfg}.

Lemma kept_refl s : isr_kept cfg s s.
Proof. split_and!; try done. Qed.

Lemma kept_trans s1 s2 s3 :
  isr_kept cfg s1 s2 -> isr_kept cfg s2 s3 -> isr_kept cfg s1 s3.
Proof.
  intros (Ha & Hb & Hc) (Ha' & Hb' & Hc'). split_and!.
  - by eapply same_links_trans.
  - auto.
  - congruence.
Qed.

Lemma kept_modify_qhd s p f s' :
  (forall q, qhd_next (f q) = qhd_next q) ->
  modify_qhd s p f = Some s' -> isr_kept cfg s s'.
Proof.
  intros Hf [_ ->]%modify_qhd_inv. split_and!.
  - by apply same_links_upd_qhd.
  - apply state_ok_upd_qhd.
  - apply usbh_devices_upd_qhd.
Qed.

Lemma kept_modify_qtd s p f s' : modify_qtd s p f = Some s' -> isr_kept cfg s s'.
Proof.
  intros [_ ->]%modify_qtd_inv. split_and!.
  - apply same_links_upd_qtd.
  - apply state_ok_upd_qtd.
  - apply usbh_devices_upd_qtd.
Qed.

Lemma qtd_remove_1st_from_qhd_kept s p s' :
  qtd_remove_1st_from_qhd cfg s p = Some s' -> isr_kept cfg s s'.
Proof.
  unfold qtd_remove_1st_from_qhd. intros (q & Hq & Hrun)%bind_Some.
  case_decide.
  - apply bind_Some in Hrun as (s1 & H1 & H2).
    apply kept_modify_qhd in H1, H2; try done. by eapply kept_trans.
  - apply bind_Some in Hrun as (ph & _ & Hrun).
    apply bind_Some in Hrun as (td & _ & Hrun).
    apply bind_Some in Hrun as (pn & _ & Hrun).
    by apply kept_modify_qhd in Hrun.
Qed.

Lemma retire_qtds_kept fuel xfer_type p : forall s s' calls,
  retire_qtds cfg fuel xfer_type s p = Some (s', calls) -> isr_kept cfg s s'.
Proof.
  induction fuel as [|fuel IH]; intros s s' calls; [done|].
  cbn [retire_qtds]. intros (q & Hq & Hrun)%bind_Some.
  destruct (p_qtd_list_head q) as [p_td|];
    [|injection Hrun as <- <-; apply kept_refl].
  apply bind_Some in Hrun as (td & Htd & Hrun).
  destruct (active td =? 0); [|injection Hrun as <- <-; apply kept_refl].
  apply bind_Some in Hrun as (c0 & _ & Hrun).
  apply bind_Some in Hrun as (s1 & H1 & Hrun).
  apply bind_Some in Hrun as (s2 & H2 & Hrun).
  apply bind_Some in Hrun as ([s3 rest] & H3 & Hrun).
  injection Hrun as <- <-.
  apply kept_modify_qtd in H1. apply qtd_remove_1st_from_qhd_kept in H2.
  apply IH in H3. eauto using kept_trans.
Qed.

Lemma process_qhd_isr_kept td_fuel xfer_type s p s' calls :
  process_qhd_isr cfg td_fuel xfer_type s p = Some (s', calls) -> isr_kept cfg s s'.
Proof.
  unfold process_qhd_isr. intros (q & Hq & Hrun)%bind_Some.
  destruct (halted (qtd_overlay q) =? 0).
  - by apply retire_qtds_kept in Hrun.
  - injection Hrun as <- <-. apply kept_refl.
Qed.

Lemma async_list_process_isr_loop_spec td_fuel head rest :
  forall s p (n : nat) fuel,
    state_ok cfg s ->
    (EHCI_MAX_QHD cfg < 255)%nat ->
    valid_qhd_ptr cfg head ->
    qhd_chain cfg s p rest head ->
    head ∉ rest ->
    (n <= EHCI_MAX_QHD cfg)%nat ->
    (length rest < fuel)%nat ->
    async_list_process_isr_loop cfg fuel td_fuel s head p (Z.of_nat n)
    = process_qhd_list cfg td_fuel TUSB_XFER_BULK s
        (take (S (EHCI_MAX_QHD cfg - n)) (p :: rest)).
Proof.
  induction rest as [|p' rest IH];
    intros s p n fuel Hok Hmax Hvh Hc Hhead Hn Hfuel;
    (destruct fuel as [|fuel]; [simpl in Hfuel; lia|]);
    cbn [async_list_process_isr_loop take process_qhd_list].
  - destruct (process_qhd_isr cfg td_fuel TUSB_XFER_BULK s p)
      as [[s1 calls]|] eqn:Hp; cbn [mbind option_bind]; [|done].
    destruct (process_qhd_isr_kept _ _ _ _ _ _ Hp) as (Hsame & Hok1 & _).
    apply (qhd_chain_same_links cfg s s1) in Hc; [|done].
    destruct Hc as (q & Hq & Ha). rewrite Hq. cbn [mbind option_bind].
    rewrite Ha, qhd_of_address_valid by done. cbn [mbind option_bind].
    rewrite decide_False by (intros [? _]; done).
    rewrite take_nil. cbn [process_qhd_list mbind option_bind].
    by rewrite app_nil_r.
  - destruct (process_qhd_isr cfg td_fuel TUSB_XFER_BULK s p)
      as [[s1 calls]|] eqn:Hp; cbn [mbind option_bind]; [|done].
    destruct (process_qhd_isr_kept _ _ _ _ _ _ Hp) as (Hsame & Hok1 & _).
    apply (qhd_chain_same_links cfg s s1) in Hc; [|done].
    pose proof (qhd_chain_valid cfg s1 _ _ _ (Hok1 Hok) Hc) as Hval.
    apply Forall_cons in Hval as [_ Hval].
    apply Forall_cons in Hval as [Hvp' _].
    destruct Hc as [(q & Hq & Ha) Hc]. rewrite Hq. cbn [mbind option_bind].
    rewrite Ha, qhd_of_address_valid by done. cbn [mbind option_bind].
    apply not_elem_of_cons in Hhead as [Hne Hhead].
    assert (Hu8 : uint8 (Z.of_nat n + 1) = Z.of_nat (S n)).
    { unfold uint8. rewrite Z.mod_small; [lia|]. change (2 ^ 8) with 256. lia. }
    rewrite Hu8.
    destruct (decide (S n <= EHCI_MAX_QHD cfg)%nat) as [Hle|Hgt].
    + rewrite decide_True by (split; [done|lia]).
      rewrite (IH s1 p' (S n) fuel) by (auto; simpl in Hfuel; lia).
      replace (EHCI_MAX_QHD cfg - n)%nat with (S (EHCI_MAX_QHD cfg - S n))
        by lia.
      reflexivity.
    + rewrite decide_False by (intros [_ ?]; lia).
      replace (EHCI_MAX_QHD cfg - n)%nat with 0%nat by lia.
      rewrite take_0. cbn [process_qhd_list mbind option_bind].
      by rewrite app_nil_r.
Qed.

(** X17. On a circular asynchronous list, [async_list_process_isr]
    processes the queue heads in list order, starting with the head, and
    stops after [EHCI_MAX_QHD + 1] of them: queue heads further down the
    list are not looked at. *)
Theorem async_list_process_isr_visits s head path fuel td_fuel :
  state_ok cfg s ->
  (EHCI_MAX_QHD cfg < 255)%nat ->
  circular_list cfg s head path ->
  (length path < fuel)%nat ->
  async_list_process_isr cfg fuel td_fuel s head
  = process_qhd_list cfg td_fuel TUSB_XFER_BULK s
      (take (S (EHCI_MAX_QHD cfg)) (head :: path)).
Proof.
  intros Hok Hmax [Hnd Hc] Hfuel. unfold async_list_process_isr.
  apply NoDup_cons in Hnd as [Hhead _].
  pose proof (qhd_chain_valid cfg s _ _ _ Hok Hc) as Hval.
  apply Forall_cons in Hval as [Hvh _].
  change 0 with (Z.of_nat 0).
  rewrite (async_list_process_isr_loop_spec td_fuel head path s head 0 fuel)
    by (done || lia).
  by rewrite Nat.sub_0_r.
Qed.

Lemma set_qtd_list_id q :
  set_p_qtd_list_head (p_qtd_list_head q)
    (set_p_qtd_list_tail (p_qtd_list_tail q) q) = q.
Proof. by destruct q. Qed.

Lemma qtd_chain_frame s s' l : forall a,
  (forall t, t ∈ a :: l ->
             load_qtd (ehci_data s') t = load_qtd (ehci_data s) t) ->
  qtd_chain cfg s a l -> qtd_chain cfg s' a l.
Proof.
  induction l as [|b l IH]; intros a Hsame; simpl; [done|].
  intros [(t & Ht & Hn) Hc]. split.
  - exists t. split; [|done]. rewrite Hsame; [done|]. by left.
  - apply IH; [|done]. intros x Hx. apply Hsame. by right.
Qed.

Lemma qtd_chain_suffix s l1 : forall a l2,
  qtd_chain cfg s a (l1 ++ l2) ->
  match l2 with [] => True | b :: rest => qtd_chain cfg s b rest end.
Proof.
  induction l1 as [|c l1 IH]; intros a l2; simpl.
  - destruct l2; [done|]. by intros [_ ?].
  - intros [_ Hc]. by apply (IH c).
Qed.

Lemma qtd_remove_1st_from_qhd_spec s p q t td l :
  load_qhd (ehci_data s) p = Some q ->
  p_qtd_list_head q = Some t ->
  p_qtd_list_tail q = last (t :: l) ->
  t ∉ l ->
  load_qtd (ehci_data s) t = Some td ->
  match l with
  | [] => True
  | b :: _ => qtd_ptr_of_link cfg (qtd_next td) = Some (Some b)
  end ->
  exists s',
    qtd_remove_1st_from_qhd cfg s p = Some s' ∧
    load_qhd (ehci_data s') p
      = Some (set_p_qtd_list_head (head l) (set_p_qtd_list_tail (last l) q)) ∧
    (forall p', p' ≠ p ->
                load_qhd (ehci_data s') p' = load_qhd (ehci_data s) p') ∧
    (forall x, load_qtd (ehci_data s') x = load_qtd (ehci_data s) x) ∧
    usbh_devices s' = usbh_devices s.
Proof.
  intros Hq Hhead Htail Hnot Htd Hnext.
  unfold qtd_remove_1st_from_qhd. rewrite Hq. cbn [mbind option_bind].
  destruct l as [|b l].
  - rewrite decide_True by (by rewrite Hhead, Htail).
    do 2 exec_write. eexists. split; [reflexivity|].
    split_and!.
    + by rewrite !load_qhd_upd_qhd_eq, Hq.
    + intros p' Hp'. by rewrite !load_qhd_upd_qhd_ne.
    + intros x. by rewrite !load_qtd_upd_qhd.
    + by rewrite !usbh_devices_upd_qhd.
  - rewrite last_cons_cons in Htail.
    rewrite decide_False.
    2:{ rewrite Hhead, Htail. intros Heq. symmetry in Heq.
        apply last_Some_elem_of in Heq. done. }
    rewrite Hhead. cbn [mbind option_bind]. rewrite Htd.
    cbn [mbind option_bind]. rewrite Hnext. cbn [mbind option_bind].
    exec_write. eexists. split; [reflexivity|].
    split_and!.
    + rewrite load_qhd_upd_qhd_eq, Hq. cbn [fmap option_fmap option_map head].
      rewrite <- Htail. f_equal.
    + intros p' Hp'. by rewrite load_qhd_upd_qhd_ne.
    + intros x. by rewrite load_qtd_upd_qhd.
    + by rewrite usbh_devices_upd_qhd.
Qed.

(** X18. [qtd_remove_1st_from_qhd] takes the first qTD off the list of a
    queue head: the rest of the list stays, in its order; taking off the
    only qTD leaves head and tail NULL.  No qTD and no other queue head is
    written. *)
Theorem qtd_remove_1st_from_qhd_pops s p t l :
  qtd_list cfg s p (t :: l) ->
  exists s',
    qtd_remove_1st_from_qhd cfg s p = Some s' ∧
    qtd_list cfg s' p l ∧
    (forall p', p' ≠ p ->
                load_qhd (ehci_data s') p' = load_qhd (ehci_data s) p') ∧
    (forall x, load_qtd (ehci_data s') x = load_qtd (ehci_data s) x).
Proof.
  intros (q & Hq & Hhead & Htail & Hnd & Hloads & Hchain).
  apply NoDup_cons in Hnd as [Hnot Hnd].
  apply Forall_cons in Hloads as [[td Htd] Hloads].
  destruct (qtd_remove_1st_from_qhd_spec s p q t td l)
    as (s' & Hrun & Hq' & Hframe & Hqtd & _); try done.
  { destruct l as [|b l]; [done|].
    destruct Hchain as [(td' & Htd' & Hn) _]. congruence. }
  exists s'. split_and!; try done.
  eexists. split; [exact Hq'|]. split_and!; try done.
  - eapply Forall_impl; [exact Hloads|]. intros x Hx. by rewrite Hqtd.
  - destruct l as [|b l]; [done|]. destruct Hchain as [_ Hchain].
    apply (qtd_chain_frame s); [|done]. intros x _. apply Hqtd.
Qed.

Lemma isr_pipe_handle_congr s s' p q q' xfer_type :
  load_qhd (ehci_data s) p = Some q ->
  load_qhd (ehci_data s') p = Some q' ->
  device_address q' = device_address q ->
  endpoint_number q' = endpoint_number q ->
  isr_pipe_handle s' p xfer_type = isr_pipe_handle s p xfer_type.
Proof.
  intros Hq Hq' Hd He. unfold isr_pipe_handle, qhd_get_index.
  rewrite Hq, Hq'. cbn [mbind option_bind]. by rewrite Hd, He.
Qed.

Lemma completion_calls_ext s s' pipe_hdl code l :
  (forall t, t ∈ l -> load_qtd (ehci_data s') t = load_qtd (ehci_data s) t) ->
  completion_calls s' pipe_hdl code l = completion_calls s pipe_hdl code l.
Proof.
  induction l as [|t l IH]; intros Hsame; [done|].
  unfold completion_calls in *. cbn [mbind list_bind].
  rewrite Hsame by (by left). f_equal. apply IH.
  intros x Hx. apply Hsame. by right.
Qed.

Lemma retire_qtds_spec xfer_type p pipe_hdl done :
  forall pending s q fuel,
    load_qhd (ehci_data s) p = Some q ->
    p_qtd_list_head q = head (done ++ pending) ->
    p_qtd_list_tail q = last (done ++ pending) ->
    NoDup (done ++ pending) ->
    match done ++ pending with
    | [] => True
    | a :: rest => qtd_chain cfg s a rest
    end ->
    Forall (fun t => exists td, load_qtd (ehci_data s) t = Some td ∧
                                active td = 0) done ->
    match pending with
    | [] => True
    | t :: _ => exists td, load_qtd (ehci_data s) t = Some td ∧ active td ≠ 0
    end ->
    isr_pipe_handle s p xfer_type = Some pipe_hdl ->
    (length done < fuel)%nat ->
    exists s',
      retire_qtds cfg fuel xfer_type s p
        = Some (s', completion_calls s pipe_hdl (class_code q) done) ∧
      load_qhd (ehci_data s') p
        = Some (set_p_qtd_list_head (head pending)
                  (set_p_qtd_list_tail (last pending) q)) ∧
      (forall p', p' ≠ p ->
                  load_qhd (ehci_data s') p' = load_qhd (ehci_data s) p') ∧
      (forall t, t ∈ done ->
                 load_qtd (ehci_data s') t
                 = set_qtd_used 0 <$> load_qtd (ehci_data s) t) ∧
      (forall t, t ∉ done ->
                 load_qtd (ehci_data s') t = load_qtd (ehci_data s) t) ∧
      usbh_devices s' = usbh_devices s.
Proof.
  induction done as [|t done IH];
    intros pending s q fuel Hq Hhead Htail Hnd Hchain Hdone Hpend Hhdl Hfuel;
    (destruct fuel as [|fuel]; [simpl in Hfuel; lia|]);
    cbn [retire_qtds]; rewrite Hq; cbn [mbind option_bind].
  - cbn [app] in *. exists s.
    assert (Hid : set_p_qtd_list_head (head pending)
                    (set_p_qtd_list_tail (last pending) q) = q).
    { rewrite <- Hhead, <- Htail. apply set_qtd_list_id. }
    rewrite Hid. rewrite Hhead.
    destruct pending as [|t pending]; cbn [head].
    + split_and!; try done. intros t Ht. by apply elem_of_nil in Ht.
    + destruct Hpend as (td & Htd & Hact). rewrite Htd.
      cbn [mbind option_bind].
      replace (active td =? 0) with false by (symmetry; by apply Z.eqb_neq).
      split_and!; try done. intros x Hx. by apply elem_of_nil in Hx.
  - cbn [app head] in Hhead, Htail, Hnd, Hchain.
    rewrite Hhead.
    apply NoDup_cons in Hnd as [Hnot Hnd].
    apply Forall_cons in Hdone as [(td & Htd & Hact) Hdone].
    rewrite Htd. cbn [mbind option_bind]. rewrite Hact.
    change (0 =? 0) with true. cbn iota.
    set (c0 := if int_on_complete td =? 0 then []
               else [ {| isr_pipe_hdl := pipe_hdl;
                         isr_class_code := class_code q;
                         isr_event := BUS_EVENT_XFER_COMPLETE |} ]).
    assert (Hc0 : (if int_on_complete td =? 0 then Some []
                   else pipe_hdl ← isr_pipe_handle s p xfer_type;
                        Some [ {| isr_pipe_hdl := pipe_hdl;
                                  isr_class_code := class_code q;
                                  isr_event := BUS_EVENT_XFER_COMPLETE |} ])
                  = Some c0).
    { subst c0. rewrite Hhdl. by destruct (int_on_complete td =? 0). }
    rewrite Hc0. cbn [mbind option_bind]. exec_write.
    set (s1 := upd_qtd s t (set_qtd_used 0)).
    assert (Hq1 : load_qhd (ehci_data s1) p = Some q)
      by (subst s1; by rewrite load_qhd_upd_qtd).
    assert (Htd1 : load_qtd (ehci_data s1) t = Some (set_qtd_used 0 td))
      by (subst s1; by rewrite load_qtd_upd_qtd_eq, Htd).
    destruct (qtd_remove_1st_from_qhd_spec s1 p q t (set_qtd_used 0 td)
                (done ++ pending))
      as (s2 & Hrun2 & Hq2 & Hframe2 & Hqtd2 & Hu2); try done.
    { destruct (done ++ pending) as [|b l]; [done|].
      destruct Hchain as [(td' & Htd' & Hn) _].
      assert (td' = td) as -> by congruence. exact Hn. }
    rewrite Hrun2. cbn [mbind option_bind].
    assert (Hother : forall x, x ≠ t ->
              load_qtd (ehci_data s2) x = load_qtd (ehci_data s) x).
    { intros x Hx. rewrite Hqtd2. subst s1. by rewrite load_qtd_upd_qtd_ne. }
    assert (Hin : forall x, x ∈ done ++ pending -> x ≠ t)
      by (intros x Hx ->; done).
    destruct (IH pending s2 _ fuel Hq2) as (s' & Hrun & Hq' & Hf' & Hd' & Ho' & Hu').
    { done. }
    { done. }
    { done. }
    { destruct (done ++ pending) as [|b l] eqn:Hl; [done|].
      destruct Hchain as [_ Hchain].
      apply (qtd_chain_frame s); [|done].
      intros x Hx. apply Hother, Hin. first [exact Hx|by rewrite Hl]. }
    { apply Forall_forall. intros x Hx.
      destruct (proj1 (Forall_forall _ _) Hdone x Hx) as (tdx & Htdx & Hax).
      exists tdx. split; [|done].
      rewrite Hother; [done|]. apply Hin, elem_of_app. by left. }
    { destruct pending as [|x pending]; [done|].
      destruct Hpend as (tdx & Htdx & Hax). exists tdx. split; [|done].
      rewrite Hother; [done|]. apply Hin, elem_of_app. right. by left. }
    { rewrite <- Hhdl. by eapply (isr_pipe_handle_congr s s2 p q). }
    { simpl in Hfuel. lia. }
    rewrite Hrun. cbn [mbind option_bind]. exists s'. split_and!.
    + do 2 f_equal. unfold completion_calls at 2. cbn [mbind list_bind].
      rewrite Htd. fold c0. f_equal.
      apply completion_calls_ext. intros x Hx. apply Hother, Hin, elem_of_app.
      by left.
    + rewrite Hq'. reflexivity.
    + intros p' Hp'. rewrite Hf', Hframe2 by done. subst s1.
      by rewrite load_qhd_upd_qtd.
    + intros x [->|Hx]%elem_of_cons.
      * rewrite Ho'. 2:{ intros Hx. apply Hnot, elem_of_app. by left. }
        by rewrite Hqtd2, Htd1, Htd.
      * rewrite Hd' by done. rewrite Hother; [done|].
        apply Hin, elem_of_app. by left.
    + intros x Hx. apply not_elem_of_cons in Hx as [Hxt Hx].
      rewrite Ho' by done. by apply Hother.
    + rewrite Hu', Hu2. subst s1. by rewrite usbh_devices_upd_qtd.
Qed.

(** X19. Processing a queue head whose overlay is not halted retires the
    qTDs at the front of its list that the controller has finished, up to
    the first one still active: each of them is marked free, a completion
    call is made for each of them that has [int_on_complete] set, in list
    order, and the list of the queue head is what is left.  Other queue
    heads and the remaining qTDs are not written. *)
Theorem process_qhd_isr_retires td_fuel xfer_type s p q done pending pipe_hdl :
  qtd_list cfg s p (done ++ pending) ->
  load_qhd (ehci_data s) p = Some q ->
  halted (qtd_overlay q) = 0 ->
  Forall (fun t => exists td, load_qtd (ehci_data s) t = Some td ∧
                              active td = 0) done ->
  match pending with
  | [] => True
  | t :: _ => exists td, load_qtd (ehci_data s) t = Some td ∧ active td ≠ 0
  end ->
  isr_pipe_handle s p xfer_type = Some pipe_hdl ->
  (length done < td_fuel)%nat ->
  exists s',
    process_qhd_isr cfg td_fuel xfer_type s p
      = Some (s', completion_calls s pipe_hdl (class_code q) done) ∧
    qtd_list cfg s' p pending ∧
    (forall t, t ∈ done ->
               load_qtd (ehci_data s') t
               = set_qtd_used 0 <$> load_qtd (ehci_data s) t) ∧
    (forall t, t ∉ done ->
               load_qtd (ehci_data s') t = load_qtd (ehci_data s) t) ∧
    (forall p', p' ≠ p ->
                load_qhd (ehci_data s') p' = load_qhd (ehci_data s) p').
Proof.
  intros (q' & Hq' & Hhead & Htail & Hnd & Hloads & Hchain) Hq Hhalt
         Hdone Hpend Hhdl Hfuel.
  assert (q' = q) as -> by congruence.
  destruct (retire_qtds_spec xfer_type p pipe_hdl done pending s q td_fuel)
    as (s' & Hrun & Hl & Hframe & Hd & Ho & _); try done.
  exists s'. split_and!; try done.
  { unfold process_qhd_isr. rewrite Hq. cbn [mbind option_bind].
    by rewrite Hhalt. }
  apply NoDup_app in Hnd as (_ & Hdisj & Hnd2).
  apply Forall_app in Hloads as [_ Hloads2].
  assert (Hsame : forall t, t ∈ pending ->
            load_qtd (ehci_data s') t = load_qtd (ehci_data s) t).
  { intros t Ht. apply Ho. intros Hin. by apply (Hdisj t). }
  eexists. split; [exact Hl|]. split_and!; try done.
  - apply Forall_forall. intros t Ht. rewrite Hsame by done.
    by apply (proj1 (Forall_forall _ _) Hloads2).
  - destruct (done ++ pending) as [|a rest] eqn:Hl'.
    + apply app_eq_nil in Hl' as [_ ->]. done.
    + destruct done as [|d0 done'].
      * simpl in Hl'. subst pending.
        apply (qtd_chain_frame s); [|done]. intros t Ht. by apply Hsame.
      * injection Hl' as <- <-.
        pose proof (qtd_chain_suffix s done' d0 pending Hchain) as Hc.
        destruct pending as [|b rest]; [done|].
        apply (qtd_chain_frame s); [|done]. intros t Ht. by apply Hsame.
Qed.

Lemma qtd_ptr_of_link_address t :
  valid_qtd_ptr cfg t ->
  qtd_of_address cfg (qtd_address t) = Some t ->
  qtd_ptr_of_link cfg (uint32 (qtd_address t)) = Some (Some t).
Proof.
  intros Hv Hdec. unfold qtd_ptr_of_link.
  pose proof (qtd_address_range _ Hv) as Hr.
  rewrite align32_uint32, align32_aligned
    by (lia || by apply qtd_address_aligned).
  replace (qtd_address t =? 0) with false by (symmetry; apply Z.eqb_neq; lia).
  by rewrite Hdec.
Qed.

Lemma qtd_chain_snoc s s' tl t td_tl nx rest : forall a,
  NoDup (a :: rest) ->
  qtd_chain cfg s a rest ->
  last (a :: rest) = Some tl ->
  load_qtd (ehci_data s) tl = Some td_tl ->
  load_qtd (ehci_data s') tl = Some (set_qtd_next nx td_tl) ->
  qtd_ptr_of_link cfg nx = Some (Some t) ->
  (forall x, x ≠ tl ->
             load_qtd (ehci_data s') x = load_qtd (ehci_data s) x) ->
  qtd_chain cfg s' a (rest ++ [t]).
Proof.
  induction rest as [|b rest IH]; intros a Hnd Hc Hlast Htl Htl' Hnx Hsame.
  - injection Hlast as ->. split; [|done].
    eexists. split; [exact Htl'|]. exact Hnx.
  - rewrite last_cons_cons in Hlast.
    apply NoDup_cons in Hnd as [Ha Hnd].
    destruct Hc as [(ta & Hta & Hn) Hc]. cbn [app qtd_chain]. split.
    + exists ta. split; [|done]. rewrite Hsame; [done|].
      intros ->. apply last_Some_elem_of in Hlast. done.
    + by apply IH.
Qed.

Lemma qtd_insert_to_qhd_spec s p l t :
  state_ok cfg s ->
  qtd_list cfg s p l ->
  t ∉ l ->
  valid_qtd_ptr cfg t ->
  qtd_of_address cfg (qtd_address t) = Some t ->
  exists s' q q',
    qtd_insert_to_qhd cfg s p t = Some s' ∧
    state_ok cfg s' ∧
    qtd_list cfg s' p (l ++ [t]) ∧
    load_qhd (ehci_data s) p = Some q ∧
    load_qhd (ehci_data s') p = Some q' ∧
    (l = [] ->
     qtd_ptr_of_link cfg (qtd_next (qtd_overlay q')) = Some (Some t)) ∧
    (l ≠ [] -> qtd_overlay q' = qtd_overlay q) ∧
    halted (qtd_overlay q') = halted (qtd_overlay q) ∧
    device_address q' = device_address q ∧
    endpoint_number q' = endpoint_number q ∧
    class_code q' = class_code q ∧
    qhd_next q' = qhd_next q ∧
    (forall x td, x ∈ l -> load_qtd (ehci_data s) x = Some td ->
       exists nx, load_qtd (ehci_data s') x = Some (set_qtd_next nx td)) ∧
    (forall x, x ∉ l ->
               load_qtd (ehci_data s') x = load_qtd (ehci_data s) x) ∧
    (forall p', p' ≠ p ->
                load_qhd (ehci_data s') p' = load_qhd (ehci_data s) p') ∧
    usbh_devices s' = usbh_devices s.
Proof.
  intros Hok (q & Hq & Hhead & Htail & Hnd & Hloads & Hchain) Hnot Hv Hdec.
  pose proof (proj2 (load_qtd_is_Some cfg s t Hok) Hv) as [td Htd].
  unfold qtd_insert_to_qhd. rewrite Hq. cbn [mbind option_bind].
  destruct l as [|a rest].
  - cbn [head] in Hhead. rewrite Hhead. exec_write.
    eexists _, q, _. split; [reflexivity|].
    split; [by apply state_ok_upd_qhd|]. split.
    { eexists. split; [by rewrite load_qhd_upd_qhd_eq, Hq|].
      split_and!; try done.
      - apply NoDup_singleton.
      - apply Forall_singleton. rewrite load_qtd_upd_qhd. eauto. }
    split; [done|]. split; [by rewrite load_qhd_upd_qhd_eq, Hq|].
    split_and!; try done.
    + intros _. cbn [qtd_overlay set_qtd_overlay qtd_next set_qtd_next].
      unfold link_set_address. by apply qtd_ptr_of_link_address.
    + intros x td' Hx. by apply elem_of_nil in Hx.
    + intros x _. by rewrite load_qtd_upd_qhd.
    + intros p' Hp'. by rewrite load_qhd_upd_qhd_ne.
    + by rewrite usbh_devices_upd_qhd.
  - cbn [head] in Hhead. rewrite Hhead.
    destruct (last (a :: rest)) as [tl|] eqn:Hlast;
      [|by apply last_None in Hlast].
    rewrite Htail. cbn [mbind option_bind].
    assert (Htlin : tl ∈ a :: rest) by (by apply last_Some_elem_of).
    pose proof (proj1 (Forall_forall _ _) Hloads tl Htlin) as [td_tl Htl].
    do 2 exec_write.
    set (nx := link_set_address (qtd_address t) (qtd_next td_tl)).
    set (f := fun t0 => set_qtd_next
                (link_set_address (qtd_address t) (qtd_next t0)) t0).
    set (s1 := upd_qtd s tl f).
    assert (Hne : tl ≠ t) by (intros ->; done).
    eexists _, q, _. split; [reflexivity|].
    split; [by apply state_ok_upd_qhd, state_ok_upd_qtd|]. split.
    { eexists. split.
      { rewrite load_qhd_upd_qhd_eq. subst s1. rewrite load_qhd_upd_qtd, Hq.
        reflexivity. }
      cbn [p_qtd_list_head p_qtd_list_tail set_p_qtd_list_tail].
      split_and!.
      - exact Hhead.
      - by rewrite last_snoc.
      - change (NoDup ((a :: rest) ++ [t])). apply NoDup_app.
        split_and!; [done| |apply NoDup_singleton].
        intros x Hx ->%list_elem_of_singleton. done.
      - change (Forall (fun t0 => is_Some (load_qtd
                  (ehci_data (upd_qhd s1 p (set_p_qtd_list_tail (Some t)))) t0))
                  ((a :: rest) ++ [t])).
        apply Forall_app. split.
        + apply Forall_forall. intros x Hx. rewrite load_qtd_upd_qhd.
          subst s1. apply is_Some_load_qtd_upd_qtd.
          by apply (proj1 (Forall_forall _ _) Hloads).
        + apply Forall_singleton. rewrite load_qtd_upd_qhd. subst s1.
          apply is_Some_load_qtd_upd_qtd. eauto.
      - apply (qtd_chain_snoc s _ tl t td_tl nx); try done.
        + rewrite load_qtd_upd_qhd. subst s1.
          by rewrite load_qtd_upd_qtd_eq, Htl.
        + subst nx. unfold link_set_address.
          by apply qtd_ptr_of_link_address.
        + intros x Hx. rewrite load_qtd_upd_qhd. subst s1.
          by rewrite load_qtd_upd_qtd_ne. }
    split; [done|]. split.
    { rewrite load_qhd_upd_qhd_eq. subst s1. rewrite load_qhd_upd_qtd, Hq.
      reflexivity. }
    split_and!; try done.
    + intros x td' Hx Htd'. rewrite load_qtd_upd_qhd. subst s1.
      destruct (decide (x = tl)) as [->|Hxt].
      * rewrite load_qtd_upd_qtd_eq, Htd'. subst f. simpl. eauto.
      * rewrite load_qtd_upd_qtd_ne by done. exists (qtd_next td').
        rewrite Htd'. by destruct td'.
    + intros x Hx. rewrite load_qtd_upd_qhd. subst s1.
      rewrite load_qtd_upd_qtd_ne; [done|]. by intros ->.
    + intros p' Hp'. rewrite load_qhd_upd_qhd_ne by done. subst s1.
      by rewrite load_qhd_upd_qtd.
    + rewrite usbh_devices_upd_qhd. subst s1. by rewrite usbh_devices_upd_qtd.
Qed.

(** X20. [qtd_insert_to_qhd] appends a qTD to the list of a queue head:
    the qTDs already there keep their order and the new one is linked
    behind the last; on an empty list the overlay of the queue head is
    pointed at the new qTD, otherwise the overlay is left alone.  Of the
    listed qTDs only a next pointer changes. *)
Theorem qtd_insert_to_qhd_appends s p l t :
  state_ok cfg s ->
  qtd_list cfg s p l ->
  t ∉ l ->
  valid_qtd_ptr cfg t ->
  qtd_of_address cfg (qtd_address t) = Some t ->
  exists s' q q',
    qtd_insert_to_qhd cfg s p t = Some s' ∧
    qtd_list cfg s' p (l ++ [t]) ∧
    load_qhd (ehci_data s) p = Some q ∧
    load_qhd (ehci_data s') p = Some q' ∧
    (l = [] ->
     qtd_ptr_of_link cfg (qtd_next (qtd_overlay q')) = Some (Some t)) ∧
    (l ≠ [] -> qtd_overlay q' = qtd_overlay q) ∧
    (forall x td, x ∈ l -> load_qtd (ehci_data s) x = Some td ->
       exists nx, load_qtd (ehci_data s') x = Some (set_qtd_next nx td)) ∧
    (forall x, x ∉ l ->
               load_qtd (ehci_data s') x = load_qtd (ehci_data s) x) ∧
    (forall p', p' ≠ p ->
                load_qhd (ehci_data s') p' = load_qhd (ehci_data s) p').
Proof.
  intros Hok Hl Hnot Hv Hdec.
  destruct (qtd_insert_to_qhd_spec s p l t Hok Hl Hnot Hv Hdec)
    as (s' & q & q' & Hrun & _ & Hl' & Hq & Hq' & Hov & Hov' & _ & _ & _ & _ &
        _ & Hin & Hout & Hframe & _).
  exists s', q, q'. split_and!; done.
Qed.

Lemma qtd_list_frame s s' p l :
  load_qhd (ehci_data s') p = load_qhd (ehci_data s) p ->
  (forall x, x ∈ l -> load_qtd (ehci_data s') x = load_qtd (ehci_data s) x) ->
  qtd_list cfg s p l -> qtd_list cfg s' p l.
Proof.
  intros Hp Hsame (q & Hq & Hhead & Htail & Hnd & Hloads & Hchain).
  exists q. rewrite Hp. split_and!; try done.
  - apply Forall_forall. intros x Hx. rewrite Hsame by done.
    by apply (proj1 (Forall_forall _ _) Hloads).
  - destruct l as [|a rest]; [done|]. by apply (qtd_chain_frame s).
Qed.

Lemma qtd_find_free_inv s dev_addr t :
  state_ok cfg s ->
  1 <= dev_addr ->
  (Z.to_nat (dev_addr - 1) < TUSB_CFG_HOST_DEVICE_MAX cfg)%nat ->
  qtd_find_free cfg s dev_addr = Some (Some t) ->
  exists k td,
    t = PoolQtd (Z.to_nat (dev_addr - 1)) k ∧ (k < EHCI_MAX_QTD cfg)%nat ∧
    load_qtd (ehci_data s) t = Some td ∧ qtd_used td = 0 ∧
    forall j, (j < k)%nat ->
      exists u, qtd_used <$> load_qtd (ehci_data s)
                               (PoolQtd (Z.to_nat (dev_addr - 1)) j) = Some u ∧
                u ≠ 0.
Proof.
  intros Hok Hdev Hd. unfold qtd_find_free. rewrite decide_True by lia.
  set (d := Z.to_nat (dev_addr - 1)) in *.
  destruct (scan_used_first
              (fun i => qtd_used <$> load_qtd (ehci_data s) (PoolQtd d i))
              (EHCI_MAX_QTD cfg) 0)
    as (k & Hscan & Hk & Hbefore & Hat).
  { intros i Hi. apply fmap_is_Some.
    apply (load_qtd_is_Some cfg s _ Hok). simpl. lia. }
  rewrite Hscan. cbn [mbind option_bind]. case_decide as Hlt; [|done].
  intros [= <-].
  pose proof (Hat ltac:(lia)) as Hx. apply fmap_Some in Hx as (td & Htd & Hu).
  exists k, td. split_and!; try done. intros j Hj. apply Hbefore. lia.
Qed.

Lemma qtd_find_free_again s s' dev_addr k :
  state_ok cfg s' ->
  1 <= dev_addr ->
  (Z.to_nat (dev_addr - 1) < TUSB_CFG_HOST_DEVICE_MAX cfg)%nat ->
  (k < EHCI_MAX_QTD cfg)%nat ->
  (forall j, (j < k)%nat ->
     exists u, qtd_used <$> load_qtd (ehci_data s)
                              (PoolQtd (Z.to_nat (dev_addr - 1)) j) = Some u ∧
               u ≠ 0) ->
  (forall j, j ≠ k ->
     load_qtd (ehci_data s') (PoolQtd (Z.to_nat (dev_addr - 1)) j)
     = load_qtd (ehci_data s) (PoolQtd (Z.to_nat (dev_addr - 1)) j)) ->
  (exists td, load_qtd (ehci_data s') (PoolQtd (Z.to_nat (dev_addr - 1)) k)
              = Some td ∧ qtd_used td = 0) ->
  qtd_find_free cfg s' dev_addr
  = Some (Some (PoolQtd (Z.to_nat (dev_addr - 1)) k)).
Proof.
  intros Hok Hdev Hd Hk Hbefore Hsame (td & Htd & Hu).
  unfold qtd_find_free. rewrite decide_True by lia.
  set (d := Z.to_nat (dev_addr - 1)) in *.
  destruct (scan_used_first
              (fun i => qtd_used <$> load_qtd (ehci_data s') (PoolQtd d i))
              (EHCI_MAX_QTD cfg) 0)
    as (k' & Hscan & Hk' & Hbefore' & Hat').
  { intros i Hi. apply fmap_is_Some.
    apply (load_qtd_is_Some cfg s' _ Hok). simpl. lia. }
  rewrite Hscan. cbn [mbind option_bind].
  assert (k' = k) as ->.
  { destruct (Nat.lt_trichotomy k' k) as [Hlt|[->|Hgt]]; [|done|].
    - destruct (Hbefore k' Hlt) as (u & Hu' & Hne).
      rewrite <- Hsame in Hu' by lia.
      rewrite (Hat' ltac:(lia)) in Hu'. congruence.
    - destruct (Hbefore' k ltac:(lia)) as (u & Hu' & Hne).
      rewrite Htd in Hu'. simpl in Hu'. congruence. }
  by rewrite decide_True.
Qed.

Lemma hcd_pipe_xfer_spec s pipe_hdl buffer total_bytes ioc p_qhd l t :
  state_ok cfg s ->
  qhd_get_from_pipe_handle pipe_hdl = Some p_qhd ->
  qtd_list cfg s p_qhd l ->
  qtd_find_free cfg s (hdl_dev_addr pipe_hdl) = Some (Some t) ->
  valid_qtd_ptr cfg t ->
  t ∉ l ->
  qtd_of_address cfg (qtd_address t) = Some t ->
  exists s' td q q',
    hcd_pipe_xfer cfg s pipe_hdl buffer total_bytes ioc
      = Some (TUSB_ERROR_NONE, s') ∧
    state_ok cfg s' ∧
    qtd_list cfg s' p_qhd (l ++ [t]) ∧
    load_qtd (ehci_data s') t = Some td ∧
    qtd_used td = 1 ∧ active td = 1 ∧
    int_on_complete td = (if ioc then 1 else 0) ∧
    load_qhd (ehci_data s) p_qhd = Some q ∧
    load_qhd (ehci_data s') p_qhd = Some q' ∧
    (l = [] ->
     qtd_ptr_of_link cfg (qtd_next (qtd_overlay q')) = Some (Some t)) ∧
    halted (qtd_overlay q') = halted (qtd_overlay q) ∧
    device_address q' = device_address q ∧
    endpoint_number q' = endpoint_number q ∧
    class_code q' = class_code q ∧
    qhd_next q' = qhd_next q ∧
    (forall x, x ∉ l -> x ≠ t ->
               load_qtd (ehci_data s') x = load_qtd (ehci_data s) x) ∧
    (forall p', p' ≠ p_qhd ->
                load_qhd (ehci_data s') p' = load_qhd (ehci_data s) p') ∧
    usbh_devices s' = usbh_devices s.
Proof.
  intros Hok Hget Hl Hfree Hv Hnot Hdec.
  pose proof (proj2 (load_qtd_is_Some cfg s t Hok) Hv) as [t0 Ht0].
  pose proof Hl as (q & Hq & _).
  assert (Hcont : forall sb tdb,
    state_ok cfg sb ->
    (forall p, load_qhd (ehci_data sb) p = load_qhd (ehci_data s) p) ->
    (forall x, x ≠ t -> load_qtd (ehci_data sb) x = load_qtd (ehci_data s) x) ->
    load_qtd (ehci_data sb) t = Some tdb ->
    usbh_devices sb = usbh_devices s ->
    exists s' q',
      qtd_insert_to_qhd cfg sb p_qhd t = Some s' ∧
      state_ok cfg s' ∧
      qtd_list cfg s' p_qhd (l ++ [t]) ∧
      load_qtd (ehci_data s') t = Some tdb ∧
      load_qhd (ehci_data s') p_qhd = Some q' ∧
      (l = [] ->
       qtd_ptr_of_link cfg (qtd_next (qtd_overlay q')) = Some (Some t)) ∧
      halted (qtd_overlay q') = halted (qtd_overlay q) ∧
      device_address q' = device_address q ∧
      endpoint_number q' = endpoint_number q ∧
      class_code q' = class_code q ∧
      qhd_next q' = qhd_next q ∧
      (forall x, x ∉ l -> x ≠ t ->
                 load_qtd (ehci_data s') x = load_qtd (ehci_data s) x) ∧
      (forall p', p' ≠ p_qhd ->
                  load_qhd (ehci_data s') p' = load_qhd (ehci_data s) p') ∧
      usbh_devices s' = usbh_devices s).
  { intros sb tdb Hokb Hqb Htb Htdb Hub.
    assert (Hlb : qtd_list cfg sb p_qhd l).
    { apply (qtd_list_frame s); [apply Hqb| |done].
      intros x Hx. apply Htb. by intros ->. }
    destruct (qtd_insert_to_qhd_spec sb p_qhd l t Hokb Hlb Hnot Hv Hdec)
      as (s' & qb & q' & Hrun & Hok' & Hl' & Hqb' & Hq' & Hov & _ & Hhalt &
          Hda & Hen & Hcc & Hnx & _ & Hout & Hframe & Hu).
    assert (qb = q) as -> by (rewrite Hqb in Hqb'; congruence).
    exists s', q'. split_and!; try done.
    - by rewrite Hout.
    - intros x Hx Hxt. rewrite Hout by done. by apply Htb.
    - intros p' Hp'. by rewrite Hframe.
    - congruence. }
  unfold hcd_pipe_xfer, qtd_init. rewrite Hget, Hfree.
  cbn [mbind option_bind]. exec_write.
  autorewrite with hcd. rewrite Hq. cbn [mbind option_bind].
  repeat exec_write.
  autorewrite with hcd. rewrite Hq, Ht0.
  cbn [mbind option_bind fmap option_fmap option_map].
  match goal with
  | |- context [mbind _ (if ?c then _ else _)] => destruct c
  end; cbn [mbind option_bind].
  all: match goal with
       | |- context [qtd_insert_to_qhd cfg ?sb _ _] =>
           destruct (Hcont sb
                       (default t0 (load_qtd (ehci_data sb) t)))
             as (s' & q' & Hrun & Hrest)
       end.
  all: try (by repeat apply state_ok_upd_qtd).
  all: try (intros p0; by rewrite !load_qhd_upd_qtd).
  all: try (intros x Hx; by rewrite !load_qtd_upd_qtd_ne).
  all: try (by rewrite !load_qtd_upd_qtd_eq, Ht0).
  all: try (by rewrite !usbh_devices_upd_qtd).
  all: rewrite Hrun; cbn [mbind option_bind];
       destruct Hrest as (Hok' & Hl' & Htd' & Hq' & Hov & Hhalt & Hda & Hen &
                          Hcc & Hnx & Hout & Hframe & Hu);
       eexists s', _, q, q'; split; [reflexivity|];
       split; [done|]; split; [done|]; split; [exact Htd'|];
       rewrite !load_qtd_upd_qtd_eq, Ht0;
       cbn [fmap option_fmap option_map default];
       split_and!; try done; by destruct ioc.
Qed.

(** X21. The life of a bulk transfer on an idle pipe.  [hcd_pipe_xfer]
    with [int_on_complete] puts the first free qTD on the list of the
    pipe's queue head; as long as the controller has not finished it,
    processing the queue head reports nothing and changes nothing; once
    the controller has cleared [active], processing the queue head makes
    exactly one completion call, with the handle the transfer was started
    on and the class code of the queue head, empties the list and frees
    the qTD, which [qtd_find_free] then hands out again. *)
Theorem hcd_pipe_xfer_completion s pipe_hdl buffer total_bytes p_qhd q t
    td_fuel :
  state_ok cfg s ->
  qhd_get_from_pipe_handle pipe_hdl = Some p_qhd ->
  load_qhd (ehci_data s) p_qhd = Some q ->
  halted (qtd_overlay q) = 0 ->
  isr_pipe_handle s p_qhd TUSB_XFER_BULK = Some pipe_hdl ->
  qtd_list cfg s p_qhd [] ->
  qtd_find_free cfg s (hdl_dev_addr pipe_hdl) = Some (Some t) ->
  qtd_of_address cfg (qtd_address t) = Some t ->
  (1 < td_fuel)%nat ->
  exists s1 s2,
    hcd_pipe_xfer cfg s pipe_hdl buffer total_bytes true
      = Some (TUSB_ERROR_NONE, s1) ∧
    qtd_list cfg s1 p_qhd [t] ∧
    process_qhd_isr cfg td_fuel TUSB_XFER_BULK s1 p_qhd = Some (s1, []) ∧
    process_qhd_isr cfg td_fuel TUSB_XFER_BULK
        (upd_qtd s1 t (set_active 0)) p_qhd
      = Some (s2, [ {| isr_pipe_hdl := pipe_hdl;
                       isr_class_code := class_code q;
                       isr_event := BUS_EVENT_XFER_COMPLETE |} ]) ∧
    qtd_list cfg s2 p_qhd [] ∧
    qtd_find_free cfg s2 (hdl_dev_addr pipe_hdl) = Some (Some t).
Proof.
  intros Hok Hget Hq Hhalt Hhdl Hl Hfree Hdec Hfuel.
  assert (Hdev : 1 <= hdl_dev_addr pipe_hdl ∧
                 (Z.to_nat (hdl_dev_addr pipe_hdl - 1)
                  < TUSB_CFG_HOST_DEVICE_MAX cfg)%nat).
  { unfold qhd_get_from_pipe_handle in Hget. case_decide; [|done].
    injection Hget as <-.
    assert (Hv : valid_qhd_ptr cfg
                   (PoolQhd (Z.to_nat (hdl_dev_addr pipe_hdl - 1))
                            (Z.to_nat (hdl_index pipe_hdl))))
      by (apply (load_qhd_is_Some cfg s _ Hok); eauto).
    destruct Hv. split; [lia|done]. }
  destruct Hdev as [Hd1 Hd2].
  destruct (qtd_find_free_inv s _ t Hok Hd1 Hd2 Hfree)
    as (k & td0 & Ht & Hk & Htd0 & Hu0 & Hbefore).
  assert (Hv : valid_qtd_ptr cfg t) by (subst t; split; done).
  destruct (hcd_pipe_xfer_spec s pipe_hdl buffer total_bytes true p_qhd [] t)
    as (s1 & td & q0 & q1 & Hrun & Hok1 & Hl1 & Htd & Hused & Hact & Hioc &
        Hq0 & Hq1 & _ & Hhalt1 & Hda & Hen & Hcc & _ & Hout & Hframe & _);
    try done.
  { apply not_elem_of_nil. }
  assert (q0 = q) as -> by congruence.
  pose proof Hl1 as (q1' & Hq1' & Hhead1 & Htail1 & Hnd1 & _ & _).
  assert (q1' = q1) as -> by congruence.
  cbn [app head] in Hhead1, Htail1.
  set (s1c := upd_qtd s1 t (set_active 0)).
  assert (Hq1c : load_qhd (ehci_data s1c) p_qhd = Some q1)
    by (subst s1c; by rewrite load_qhd_upd_qtd).
  assert (Htdc : load_qtd (ehci_data s1c) t = Some (set_active 0 td))
    by (subst s1c; by rewrite load_qtd_upd_qtd_eq, Htd).
  destruct (retire_qtds_spec TUSB_XFER_BULK p_qhd pipe_hdl [t] [] s1c q1
              td_fuel)
    as (s2 & Hrun2 & Hq2 & Hframe2 & Hd2' & Ho2 & _); try done.
  { apply Forall_singleton. by exists (set_active 0 td). }
  { rewrite <- Hhdl. by apply (isr_pipe_handle_congr s s1c p_qhd q q1). }
  assert (Hp2 : process_qhd_isr cfg td_fuel TUSB_XFER_BULK s1c p_qhd
                = Some (s2, completion_calls s1c pipe_hdl (class_code q1) [t])).
  { unfold process_qhd_isr. rewrite Hq1c. cbn [mbind option_bind].
    by rewrite Hhalt1, Hhalt. }
  pose proof (process_qhd_isr_kept _ _ _ _ _ _ Hp2) as (_ & Hok2 & _).
  exists s1, s2. split_and!; try done.
  - unfold process_qhd_isr. rewrite Hq1. cbn [mbind option_bind].
    rewrite Hhalt1, Hhalt. change (0 =? 0) with true. cbn iota.
    destruct td_fuel as [|fuel]; [lia|]. cbn [retire_qtds].
    rewrite Hq1. cbn [mbind option_bind]. rewrite Hhead1, Htd.
    cbn [mbind option_bind]. by rewrite Hact.
  - fold s1c. rewrite Hp2. do 2 f_equal. unfold completion_calls.
    cbn [mbind list_bind]. rewrite Htdc.
    cbn [int_on_complete set_active]. rewrite Hioc, Hcc. reflexivity.
  - eexists. split; [exact Hq2|]. split_and!; try done. apply NoDup_nil_2.
  - subst t. apply (qtd_find_free_again s s2); try done.
    + apply Hok2. subst s1c. by apply state_ok_upd_qtd.
    + intros j Hj. rewrite Ho2.
      2:{ intros Heq%list_elem_of_singleton. congruence. }
      subst s1c. rewrite load_qtd_upd_qtd_ne by congruence.
      apply Hout; [apply not_elem_of_nil|congruence].
    + eexists. split.
      * rewrite Hd2' by (by left). rewrite Htdc. reflexivity.
      * reflexivity.
Qed.

Lemma xfer_error_isr_loop_spec s head rest : forall p fuel,
  state_ok cfg s ->
  valid_qhd_ptr cfg head ->
  qhd_chain cfg s p rest head ->
  head ∉ rest ->
  (length rest < fuel)%nat ->
  xfer_error_isr_loop cfg fuel s head p = xfer_error_list s (p :: rest).
Proof.
  induction rest as [|p' rest IH]; intros p fuel Hok Hvh Hc Hhead Hfuel;
    (destruct fuel as [|fuel]; [simpl in Hfuel; lia|]);
    cbn [xfer_error_isr_loop xfer_error_list];
    (destruct (xfer_error_qhd s p) as [calls|]; cbn [mbind option_bind];
     [|done]).
  - destruct Hc as (q & Hq & Ha). rewrite Hq. cbn [mbind option_bind].
    rewrite Ha, qhd_of_address_valid by done. cbn [mbind option_bind].
    rewrite decide_False by (intros ?; done). by rewrite app_nil_r.
  - pose proof (qhd_chain_valid cfg s _ _ _ Hok Hc) as Hval.
    apply Forall_cons in Hval as [_ Hval].
    apply Forall_cons in Hval as [Hvp _].
    destruct Hc as [(q & Hq & Ha) Hc]. rewrite Hq. cbn [mbind option_bind].
    apply not_elem_of_cons in Hhead as [Hne Hhead].
    rewrite Ha, qhd_of_address_valid by done. cbn [mbind option_bind].
    rewrite decide_True by (intros ->; done).
    rewrite (IH p' fuel) by (done || simpl in Hfuel; lia).
    reflexivity.
Qed.

(** X22. On a circular asynchronous list, [xfer_error_isr] looks at every
    queue head of the list once, in list order and starting with the
    head, whatever the length of the list, and makes the error calls in
    that order. *)
Theorem xfer_error_isr_visits s hostid path fuel :
  state_ok cfg s ->
  circular_list cfg s (get_async_head cfg hostid) path ->
  (length path < fuel)%nat ->
  xfer_error_isr cfg fuel s hostid
  = xfer_error_list s (get_async_head cfg hostid :: path).
Proof.
  intros Hok [Hnd Hc] Hfuel. unfold xfer_error_isr.
  apply NoDup_cons in Hnd as [Hhead _].
  pose proof (qhd_chain_valid cfg s _ _ _ Hok Hc) as Hval.
  apply Forall_cons in Hval as [Hvh _].
  by apply xfer_error_isr_loop_spec.
Qed.

End Isr.

Lemma lpc_state_xfer_ok : state_ok lpc_cfg lpc_state_xfer.
Proof.
  split_and!; try (vm_compute; lia); try reflexivity.
  repeat constructor.
Qed.

Lemma lpc_state_xfer_done_ok : state_ok lpc_cfg lpc_state_xfer_done.
Proof. apply state_ok_upd_qtd, lpc_state_xfer_ok. Qed.

Lemma lpc_state_xfer_done_list :
  qtd_list lpc_cfg lpc_state_xfer_done (PoolQhd 0 0) [PoolQtd 0 0].
Proof.
  eexists. split; [reflexivity|].
  split_and!; try reflexivity; try done.
  - apply NoDup_singleton.
  - apply Forall_singleton. vm_compute. eauto.
Qed.

Lemma lpc_state_bulk_idle : qtd_list lpc_cfg lpc_state_bulk (PoolQhd 0 0) [].
Proof.
  eexists. split; [reflexivity|].
  split_and!; try reflexivity; try done. apply NoDup_nil_2.
Qed.

(** Witness for X17: the list head -> bulk -> control of device address 1,
    within the bound of two pool queue heads. *)
Lemma async_list_process_isr_visits_witness :
  async_list_process_isr lpc_cfg 8 8 lpc_state_xfer_done (AsyncHead 0)
  = process_qhd_list lpc_cfg 8 TUSB_XFER_BULK lpc_state_xfer_done
      (take 3 [AsyncHead 0; PoolQhd 0 0; ControlQhd 0]).
Proof.
  apply (async_list_process_isr_visits lpc_cfg lpc_state_xfer_done
           (AsyncHead 0) [PoolQhd 0 0; ControlQhd 0] 8 8).
  - exact lpc_state_xfer_done_ok.
  - vm_compute. lia.
  - split.
    + apply (bool_decide_unpack _). vm_compute. exact I.
    + repeat split; eexists; (split; [reflexivity|reflexivity]).
  - cbn; lia.
Defined.

(** Witness for X18: taking the finished qTD off the bulk queue head. *)
Lemma qtd_remove_1st_from_qhd_pops_witness :
  exists s',
    qtd_remove_1st_from_qhd lpc_cfg lpc_state_xfer_done (PoolQhd 0 0)
      = Some s' ∧
    qtd_list lpc_cfg s' (PoolQhd 0 0) [].
Proof.
  destruct (qtd_remove_1st_from_qhd_pops lpc_cfg lpc_state_xfer_done
              (PoolQhd 0 0) (PoolQtd 0 0) [])
    as (s' & Hrun & Hl & _).
  - exact lpc_state_xfer_done_list.
  - by exists s'.
Defined.

(** Witness for X19: the finished bulk transfer of device address 1. *)
Lemma process_qhd_isr_retires_witness :
  exists s',
    process_qhd_isr lpc_cfg 4 TUSB_XFER_BULK lpc_state_xfer_done (PoolQhd 0 0)
      = Some (s', [ {| isr_pipe_hdl := lpc_bulk_handle; isr_class_code := 8;
                       isr_event := BUS_EVENT_XFER_COMPLETE |} ]) ∧
    qtd_list lpc_cfg s' (PoolQhd 0 0) [].
Proof.
  destruct (process_qhd_isr_retires lpc_cfg 4 TUSB_XFER_BULK
              lpc_state_xfer_done (PoolQhd 0 0)
              (default qhd_zero
                 (load_qhd (ehci_data lpc_state_xfer_done) (PoolQhd 0 0)))
              [PoolQtd 0 0] [] lpc_bulk_handle)
    as (s' & Hrun & Hl & _).
  - exact lpc_state_xfer_done_list.
  - reflexivity.
  - reflexivity.
  - apply Forall_singleton. eexists. split; reflexivity.
  - exact I.
  - reflexivity.
  - cbn; lia.
  - exists s'. split; [exact Hrun|exact Hl].
Defined.

(** Witness for X20: the first qTD put on the idle bulk queue head. *)
Lemma qtd_insert_to_qhd_appends_witness :
  exists s',
    qtd_insert_to_qhd lpc_cfg lpc_state_bulk (PoolQhd 0 0) (PoolQtd 0 0)
      = Some s' ∧
    qtd_list lpc_cfg s' (PoolQhd 0 0) [PoolQtd 0 0].
Proof.
  destruct (qtd_insert_to_qhd_appends lpc_cfg lpc_state_bulk (PoolQhd 0 0)
              [] (PoolQtd 0 0))
    as (s' & q & q' & Hrun & Hl & _).
  - exact lpc_state_bulk_ok.
  - exact lpc_state_bulk_idle.
  - apply not_elem_of_nil.
  - vm_compute. split; lia.
  - reflexivity.
  - by exists s'.
Defined.

(** Witness for X21: a 512-byte transfer on the bulk pipe of device
    address 1. *)
Lemma hcd_pipe_xfer_completion_witness :
  exists s1 s2,
    hcd_pipe_xfer lpc_cfg lpc_state_bulk lpc_bulk_handle 0x10000000 512 true
      = Some (TUSB_ERROR_NONE, s1) ∧
    process_qhd_isr lpc_cfg 4 TUSB_XFER_BULK s1 (PoolQhd 0 0)
      = Some (s1, []) ∧
    process_qhd_isr lpc_cfg 4 TUSB_XFER_BULK
        (upd_qtd s1 (PoolQtd 0 0) (set_active 0)) (PoolQhd 0 0)
      = Some (s2, [ {| isr_pipe_hdl := lpc_bulk_handle; isr_class_code := 8;
                       isr_event := BUS_EVENT_XFER_COMPLETE |} ]) ∧
    qtd_find_free lpc_cfg s2 1 = Some (Some (PoolQtd 0 0)).
Proof.
  destruct (hcd_pipe_xfer_completion lpc_cfg lpc_state_bulk lpc_bulk_handle
              0x10000000 512 (PoolQhd 0 0)
              (default qhd_zero
                 (load_qhd (ehci_data lpc_state_bulk) (PoolQhd 0 0)))
              (PoolQtd 0 0) 4)
    as (s1 & s2 & Hrun & _ & Hidle & Hdone & _ & Hfree).
  - exact lpc_state_bulk_ok.
  - reflexivity.
  - reflexivity.
  - reflexivity.
  - reflexivity.
  - exact lpc_state_bulk_idle.
  - reflexivity.
  - reflexivity.
  - lia.
  - exists s1, s2. split_and!; [exact Hrun|exact Hidle|exact Hdone|exact Hfree].
Defined.

(** Witness for X22. *)
Lemma xfer_error_isr_visits_witness :
  xfer_error_isr lpc_cfg 8 lpc_state_bulk 0
  = xfer_error_list lpc_state_bulk [AsyncHead 0; PoolQhd 0 0; ControlQhd 0].
Proof.
  apply (xfer_error_isr_visits lpc_cfg lpc_state_bulk 0
           [PoolQhd 0 0; ControlQhd 0] 8).
  - exact lpc_state_bulk_ok.
  - exact lpc_state_bulk_circular.
  - cbn; lia.
Defined.

(** ** The periodic list *)

Lemma link_terminate_uint32 w : link_terminate (uint32 w) = link_terminate w.
Proof.
  unfold link_terminate, uint32. rewrite <- Z.land_ones by lia.
  by rewrite <- Z.land_assoc.
Qed.

Lemma link_type_uint32 w : link_type (uint32 w) = link_type w.
Proof.
  unfold link_type, uint32. rewrite <- Z.land_ones by lia.
  rewrite Z.shiftr_land, <- Z.land_assoc. reflexivity.
Qed.

Lemma link_terminate_type_bits a t :
  Z.land a 31 = 0 -> link_terminate (uint32 (Z.lor a (Z.shiftl t 1))) = 0.
Proof.
  intros Ha. rewrite link_terminate_uint32. unfold link_terminate.
  apply Z.bits_inj'. intros n Hn.
  rewrite Z.land_spec, Z.lor_spec, Z.bits_0.
  destruct (decide (n = 0)) as [->|Hne].
  - assert (Hbit : Z.testbit (Z.land a 31) 0 = false)
      by (rewrite Ha; apply Z.bits_0).
    rewrite Z.land_spec in Hbit. change (Z.testbit 31 0) with true in Hbit.
    rewrite andb_true_r in Hbit. rewrite Hbit.
    rewrite Z.shiftl_spec by lia. by rewrite Z.testbit_neg_r by lia.
  - change 1 with (Z.ones 1). rewrite Z.ones_spec_high by lia.
    apply andb_false_r.
Qed.

Section Period.

Context (cfg : hcd_config) {L : Layout cfg}.

Lemma period_chain_frame s s' path : forall from,
  (forall p, p ∈ from :: path ->
             load_qhd (ehci_data s') p = load_qhd (ehci_data s) p) ->
  period_chain cfg s from path -> period_chain cfg s' from path.
Proof.
  induction path as [|p rest IH]; intros from Hsame; simpl.
  - intros (h & Hh & Ht). exists h. split; [|done].
    rewrite Hsame; [done|]. by left.
  - intros [(h & Hh & Hl) Hc]. split.
    + exists h. split; [|done]. rewrite Hsame; [done|]. by left.
    + apply IH; [|done]. intros q Hq. apply Hsame. by right.
Qed.

Lemma period_chain_restart s s' from from' path h h' :
  load_qhd (ehci_data s) from = Some h ->
  load_qhd (ehci_data s') from' = Some h' ->
  link_terminate (qhd_next h') = link_terminate (qhd_next h) ->
  link_type (qhd_next h') = link_type (qhd_next h) ->
  align32 (qhd_next h') = align32 (qhd_next h) ->
  (forall p, p ∈ path ->
             load_qhd (ehci_data s') p = load_qhd (ehci_data s) p) ->
  period_chain cfg s from path -> period_chain cfg s' from' path.
Proof.
  intros Hh Hh' Ht Hty Ha Hsame. destruct path as [|p rest]; simpl.
  - intros (h0 & Hh0 & Ht0). assert (h0 = h) as -> by congruence.
    exists h'. split; [done|]. congruence.
  - intros [(h0 & Hh0 & Ht0 & Hty0 & Ha0) Hc].
    assert (h0 = h) as -> by congruence. split.
    + exists h'. split_and!; congruence.
    + by apply (period_chain_frame s).
Qed.

Lemma period_chain_same_links s s' path : forall from,
  same_links s s' ->
  period_chain cfg s from path -> period_chain cfg s' from path.
Proof.
  induction path as [|p rest IH]; intros from Hs; simpl.
  - intros (h & Hh & Ht).
    destruct (same_links_load s s' from h Hs Hh) as (h' & Hh' & Hn).
    exists h'. split; [done|]. by rewrite Hn.
  - intros [(h & Hh & Hl) Hc]. split; [|by apply IH].
    destruct (same_links_load s s' from h Hs Hh) as (h' & Hh' & Hn).
    exists h'. split; [done|]. by rewrite Hn.
Qed.

Lemma period_chain_load s from path :
  period_chain cfg s from path -> is_Some (load_qhd (ehci_data s) from).
Proof. destruct path; simpl; [intros (h & -> & _)|intros [(h & -> & _) _]]; eauto. Qed.

Lemma period_list_process_isr_loop_spec td_fuel itd sitd rest :
  forall s p h (n : nat) fuel,
    state_ok cfg s ->
    (EHCI_MAX_QHD cfg + itd + sitd <= 255)%nat ->
    period_chain cfg s p rest ->
    load_qhd (ehci_data s) p = Some h ->
    (n <= EHCI_MAX_QHD cfg + itd + sitd)%nat ->
    (length rest < fuel)%nat ->
    period_list_process_isr_loop cfg fuel td_fuel itd sitd s (qhd_next h)
      (Z.of_nat n)
    = process_qhd_list cfg td_fuel TUSB_XFER_INTERRUPT s
        (take (EHCI_MAX_QHD cfg + itd + sitd - n) rest).
Proof.
  induction rest as [|p' rest IH]; intros s p h n fuel Hok Hb Hc Hh Hn Hfuel;
    (destruct fuel as [|fuel]; [simpl in Hfuel; lia|]);
    cbn [period_list_process_isr_loop].
  - destruct Hc as (h0 & Hh0 & Ht). assert (h0 = h) as -> by congruence.
    rewrite Ht. change (1 =? 0) with false. cbn [andb].
    by rewrite take_nil.
  - destruct Hc as [(h0 & Hh0 & Ht & Hty & Ha) Hc].
    assert (h0 = h) as -> by congruence.
    rewrite Ht. change (0 =? 0) with true. cbn [andb].
    set (B := (EHCI_MAX_QHD cfg + itd + sitd)%nat) in *.
    destruct (Z.ltb_spec (Z.of_nat n) (Z.of_nat B)) as [Hlt|Hge].
    + rewrite Hty. change (EHCI_QUEUE_ELEMENT_QHD =? EHCI_QUEUE_ELEMENT_QHD)
        with true. cbn iota.
      assert (Hvp : valid_qhd_ptr cfg p').
      { apply (load_qhd_is_Some cfg s _ Hok).
        by apply (period_chain_load s p' rest). }
      rewrite Ha, qhd_of_address_valid by done. cbn [mbind option_bind].
      replace (B - n)%nat with (S (B - S n)) by lia.
      cbn [take process_qhd_list].
      destruct (process_qhd_isr cfg td_fuel TUSB_XFER_INTERRUPT s p')
        as [[s1 calls]|] eqn:Hp; cbn [mbind option_bind]; [|done].
      destruct (process_qhd_isr_kept cfg _ _ _ _ _ _ Hp) as (Hsame & Hok1 & _).
      apply (period_chain_same_links s s1) in Hc; [|done].
      destruct (period_chain_load s1 p' rest Hc) as [h1 Hh1].
      rewrite Hh1. cbn [mbind option_bind].
      assert (Hu8 : uint8 (Z.of_nat n + 1) = Z.of_nat (S n)).
      { unfold uint8. rewrite Z.mod_small; [lia|].
        change (2 ^ 8) with 256. lia. }
      rewrite Hu8.
      rewrite (IH s1 p' h1 (S n) fuel) by (auto; simpl in Hfuel; lia).
      reflexivity.
    + replace (B - n)%nat with 0%nat by lia. by rewrite take_0.
Qed.

(** X23. On a periodic list, [period_list_process_isr] processes the
    queue heads behind the periodic head in list order (the head itself
    is not processed) and stops at the end of the list or after
    [EHCI_MAX_QHD + EHCI_MAX_ITD + EHCI_MAX_SITD] elements. *)
Theorem period_list_process_isr_visits s head path fuel td_fuel itd sitd :
  state_ok cfg s ->
  (EHCI_MAX_QHD cfg + itd + sitd <= 255)%nat ->
  period_list cfg s head path ->
  (length path < fuel)%nat ->
  period_list_process_isr cfg fuel td_fuel itd sitd s head
  = process_qhd_list cfg td_fuel TUSB_XFER_INTERRUPT s
      (take (EHCI_MAX_QHD cfg + itd + sitd) path).
Proof.
  intros Hok Hb [_ Hc] Hfuel. unfold period_list_process_isr.
  destruct (period_chain_load s head path Hc) as [h Hh]. rewrite Hh.
  cbn [mbind option_bind]. change 0 with (Z.of_nat 0).
  rewrite (period_list_process_isr_loop_spec td_fuel itd sitd path s head h
             0 fuel) by (done || lia).
  by rewrite Nat.sub_0_r.
Qed.

Lemma period_chain_valid s path : forall from,
  state_ok cfg s -> period_chain cfg s from path ->
  Forall (valid_qhd_ptr cfg) (from :: path).
Proof.
  induction path as [|p rest IH]; intros from Hok Hc.
  - constructor; [|constructor].
    apply (load_qhd_is_Some cfg s _ Hok). by apply (period_chain_load s _ []).
  - constructor.
    + apply (load_qhd_is_Some cfg s _ Hok).
      by apply (period_chain_load s _ (p :: rest)).
    + destruct Hc as [_ Hc]. by apply IH.
Qed.

Lemma period_chain_prefix s p l2 : forall l1 from,
  period_chain cfg s from (l1 ++ p :: l2) ->
  qhd_chain cfg s from l1 p ∧ period_chain cfg s p l2.
Proof.
  induction l1 as [|a l1 IH]; intros from; simpl.
  - intros [(h & Hh & _ & _ & Ha) Hc]. split; [|done]. by exists h.
  - intros [(h & Hh & _ & _ & Ha) Hc]. destruct (IH a Hc) as [Hq Hp].
    split; [|done]. split; [by exists h|done].
Qed.

Lemma period_chain_remove s s' p l2 hrem hp' : forall l1 from,
  NoDup (from :: l1 ++ p :: l2) ->
  period_chain cfg s from (l1 ++ p :: l2) ->
  load_qhd (ehci_data s) p = Some hrem ->
  load_qhd (ehci_data s') (last_node from l1) = Some hp' ->
  link_terminate (qhd_next hp') = link_terminate (qhd_next hrem) ->
  link_type (qhd_next hp') = link_type (qhd_next hrem) ->
  align32 (qhd_next hp') = align32 (qhd_next hrem) ->
  (forall x, x ≠ last_node from l1 -> x ≠ p ->
             load_qhd (ehci_data s') x = load_qhd (ehci_data s) x) ->
  period_chain cfg s' from (l1 ++ l2).
Proof.
  induction l1 as [|a l1 IH];
    intros from Hnd Hc Hrem Hprev Ht Hty Ha Hsame.
  - cbn [app last_node] in *. destruct Hc as [_ Hc].
    apply NoDup_cons in Hnd as [Hfrom Hnd].
    apply NoDup_cons in Hnd as [Hp Hnd].
    apply (period_chain_restart s s' p from l2 hrem hp'); try done.
    intros x Hx. apply Hsame.
    + intros ->. apply Hfrom. by right.
    + by intros ->.
  - cbn [app last_node period_chain] in *.
    destruct Hc as [(h & Hh & Hl) Hc].
    apply NoDup_cons in Hnd as [Hfrom Hnd]. split.
    + exists h. split; [|done]. rewrite Hsame; [done| |].
      * intros E. apply Hfrom.
        destruct (last_node_elem a l1) as [Hl1|Hl1].
        -- rewrite E, Hl1. by left.
        -- rewrite E. right. apply elem_of_app. by left.
      * intros ->. apply Hfrom. right. apply elem_of_app. right. by left.
    + by apply IH.
Qed.

Lemma list_insert_period_spec s p_head path p_new :
  state_ok cfg s ->
  period_list cfg s p_head path ->
  p_new ∉ p_head :: path ->
  valid_qhd_ptr cfg p_new ->
  exists s' old_new,
    list_insert cfg s p_head p_new EHCI_QUEUE_ELEMENT_QHD = Some s' ∧
    state_ok cfg s' ∧
    period_list cfg s' p_head (p_new :: path) ∧
    load_qhd (ehci_data s) p_new = Some old_new ∧
    (exists nx, load_qhd (ehci_data s') p_new
                = Some (set_qhd_next nx old_new)) ∧
    (forall p, p ≠ p_head -> p ≠ p_new ->
               load_qhd (ehci_data s') p = load_qhd (ehci_data s) p) ∧
    (forall p, load_qtd (ehci_data s') p = load_qtd (ehci_data s) p) ∧
    usbh_devices s' = usbh_devices s.
Proof.
  intros Hok [Hnd Hc] Hnew Hvn.
  apply not_elem_of_cons in Hnew as [Hnh Hnp].
  pose proof (qhd_address_range _ Hvn) as Hrn.
  pose proof (qhd_address_aligned _ Hvn) as Han.
  destruct (period_chain_load s p_head path Hc) as [oh Hoh].
  destruct (proj2 (load_qhd_is_Some cfg s p_new Hok) Hvn) as [on Hon].
  unfold list_insert. rewrite Hoh. cbn [mbind option_bind].
  do 2 exec_write.
  set (s1 := upd_qhd s p_new _). set (s2 := upd_qhd s1 p_head _).
  assert (Hl2h : load_qhd (ehci_data s2) p_head
    = Some (set_qhd_next
              (link_set_address
                 (Z.lor (qhd_address p_new) (Z.shiftl EHCI_QUEUE_ELEMENT_QHD 1))
                 (qhd_next oh)) oh)).
  { subst s2 s1. rewrite load_qhd_upd_qhd_eq, load_qhd_upd_qhd_ne by done.
    by rewrite Hoh. }
  assert (Hl2n : load_qhd (ehci_data s2) p_new
    = Some (set_qhd_next (link_set_address (qhd_next oh) (qhd_next on)) on)).
  { subst s2 s1. rewrite load_qhd_upd_qhd_ne by done.
    by rewrite load_qhd_upd_qhd_eq, Hon. }
  assert (Hframe : forall p, p ≠ p_head -> p ≠ p_new ->
            load_qhd (ehci_data s2) p = load_qhd (ehci_data s) p).
  { intros p Hp1 Hp2. subst s2 s1. by rewrite !load_qhd_upd_qhd_ne. }
  exists s2, on. split; [done|].
  split; [by do 2 apply state_ok_upd_qhd|]. split.
  { split.
    - pose proof Hnd as [Hh Hndp]%NoDup_cons.
      apply NoDup_cons. split.
      + apply not_elem_of_cons. split; [done|done].
      + apply NoDup_cons. split; [done|done].
    - split.
      + eexists. split; [exact Hl2h|]. cbn [qhd_next set_qhd_next].
        unfold link_set_address. split_and!.
        * by apply link_terminate_type_bits.
        * apply link_type_type_bits; (done || lia).
        * rewrite align32_uint32. apply align32_type_bits; (done || lia).
      + apply (period_chain_restart s s2 p_head p_new path oh _ Hoh Hl2n);
          cbn [qhd_next set_qhd_next]; unfold link_set_address.
        * apply link_terminate_uint32.
        * apply link_type_uint32.
        * apply align32_uint32.
        * intros p Hp. apply Hframe.
          -- intros ->. by apply NoDup_cons in Hnd as [? _].
          -- by intros ->.
        * done. }
  split; [done|]. split; [eauto|]. split; [done|]. split.
  - intros p. subst s2 s1. by rewrite !load_qtd_upd_qhd.
  - subst s2 s1. by rewrite !usbh_devices_upd_qhd.
Qed.

Lemma period_list_upd_other s p_head path p f :
  p ∉ p_head :: path ->
  period_list cfg s p_head path ->
  period_list cfg (upd_qhd s p f) p_head path.
Proof.
  intros Hp [Hnd Hc]. split; [done|].
  apply (period_chain_frame s); [|done].
  intros p' Hp'. apply load_qhd_upd_qhd_ne. intros ->. done.
Qed.

(** X24. [hcd_pipe_open] of an interrupt endpoint, for a device with a
    free queue head that is not linked: the queue head is initialised
    with the S-mask of its speed (all micro-frames for high speed, the
    first one otherwise) and C-mask 28, and is linked right behind the
    periodic head, in front of the queue heads already on the periodic
    list, whose end stays the end.  The handle names the queue head. *)
Theorem hcd_pipe_open_interrupt s dev_addr desc cc dev path p_qhd :
  state_ok cfg s ->
  1 <= dev_addr <= Z.of_nat (TUSB_CFG_HOST_DEVICE_MAX cfg) ->
  bmAttributes_xfer desc = TUSB_XFER_INTERRUPT ->
  usbh_devices s !! Z.to_nat dev_addr = Some dev ->
  period_list cfg s (get_period_head cfg (core_id dev)) path ->
  qhd_find_free cfg s dev_addr = Some (Some p_qhd) ->
  p_qhd ∉ path ->
  exists i s' q,
    p_qhd = PoolQhd (Z.to_nat (dev_addr - 1)) i ∧
    hcd_pipe_open cfg s dev_addr desc cc
      = Some ({| hdl_dev_addr := dev_addr;
                 hdl_xfer_type := TUSB_XFER_INTERRUPT;
                 hdl_index := Z.of_nat i |}, s') ∧
    state_ok cfg s' ∧
    period_list cfg s' (get_period_head cfg (core_id dev)) (p_qhd :: path) ∧
    load_qhd (ehci_data s') p_qhd = Some q ∧
    qhd_used q = 1 ∧ device_address q = dev_addr ∧
    interrupt_smask q = (if speed dev =? TUSB_SPEED_HIGH then 0xFF else 1) ∧
    non_hs_interrupt_cmask q = 28 ∧
    data_toggle_control q = 0 ∧ non_hs_control_endpoint q = 0 ∧
    p_qtd_list_head q = None ∧ halted (qtd_overlay q) = 0 ∧
    (forall p, p ≠ get_period_head cfg (core_id dev) -> p ≠ p_qhd ->
               load_qhd (ehci_data s') p = load_qhd (ehci_data s) p) ∧
    (forall p, load_qtd (ehci_data s') p = load_qtd (ehci_data s) p).
Proof.
  intros Hok Hdev Hint Hd Hlist Hfind Hnot.
  destruct (qhd_find_free_inv cfg s dev_addr p_qhd Hok Hdev Hfind)
    as (i & q0 & -> & Hi & Hq0 & Hu0).
  set (d := Z.to_nat (dev_addr - 1)) in *.
  set (p_qhd := PoolQhd d i) in *.
  set (head := get_period_head cfg (core_id dev)) in *.
  assert (Hv : valid_qhd_ptr cfg p_qhd) by (simpl; subst d; lia).
  assert (Hfresh : p_qhd ∉ head :: path).
  { apply not_elem_of_cons. split; [done|done]. }
  set (f1 := fun old => qhd_init_value old dev dev_addr
                          (wMaxPacketSize_size desc) (bEndpointAddress desc)
                          (bmAttributes_xfer desc)).
  set (s2 := upd_qhd (upd_qhd s p_qhd f1) p_qhd (set_class_code cc)).
  assert (Hok2 : state_ok cfg s2) by (by do 2 apply state_ok_upd_qhd).
  assert (Hlist2 : period_list cfg s2 head path).
  { subst s2. apply period_list_upd_other; [done|].
    by apply period_list_upd_other. }
  destruct (list_insert_period_spec s2 head path p_qhd Hok2 Hlist2 Hfresh Hv)
    as (s3 & on & Hrun & Hok3 & Hl3 & Hon & (nx & Hln) & Hq & Ht & Hud).
  assert (Hon' : on = set_class_code cc (f1 q0)).
  { subst s2. rewrite !load_qhd_upd_qhd_eq, Hq0 in Hon. simpl in Hon.
    congruence. }
  destruct Hok as (Hcfg & Hrest). destruct Hcfg as (Hdm & Hqm & Htm).
  assert (Hbf : bitfield 7 dev_addr = dev_addr).
  { unfold bitfield. rewrite Z.land_ones by lia. apply Z.mod_small.
    change (2 ^ 7) with 128. lia. }
  exists i, s3. eexists. split; [done|]. split.
  { unfold hcd_pipe_open.
    replace (0 <? dev_addr) with true by (symmetry; apply Z.ltb_lt; lia).
    cbn [negb]. rewrite Hint.
    change (TUSB_XFER_INTERRUPT =? TUSB_XFER_ISOCHRONOUS) with false.
    change (TUSB_XFER_INTERRUPT =? TUSB_XFER_BULK) with false.
    change (TUSB_XFER_INTERRUPT =? TUSB_XFER_INTERRUPT) with true.
    cbn iota. rewrite Hfind. cbn [mbind option_bind].
    unfold qhd_init. rewrite Hd. cbn [mbind option_bind].
    rewrite <- Hint. fold f1. fold p_qhd.
    do 2 exec_write. autorewrite with hcd. rewrite Hd.
    cbn [mbind option_bind]. fold s2. fold head. rewrite Hrun.
    cbn [mbind option_bind].
    unfold qhd_get_index. rewrite Hln. cbn [mbind option_bind].
    subst p_qhd. cbn iota. rewrite Hon'.
    cbn [device_address set_qhd_next set_class_code]. unfold f1.
    cbn [device_address qhd_init_value]. rewrite Hbf.
    rewrite decide_True by (subst d; split; [lia|done]).
    cbn [mbind option_bind]. rewrite Hint. do 3 f_equal.
    unfold uint8. apply Z.mod_small. lia. }
  split; [done|]. split; [done|]. split; [exact Hln|].
  rewrite Hon'. unfold f1. rewrite Hint.
  cbn -[bitfield Z.land uint8 link_terminate link_set_terminate].
  split_and!; try done.
  - intros p Hp1 Hp2. rewrite Hq by done. subst s2.
    by rewrite !load_qhd_upd_qhd_ne.
  - intros p. rewrite Ht. subst s2. by rewrite !load_qtd_upd_qhd.
Qed.

(** X25. [hcd_pipe_close] of an interrupt pipe whose queue head is on the
    periodic list marks the queue head as being removed and unlinks it:
    its predecessor takes over its link, so the periodic list goes on
    with the queue heads behind it, or ends where it ended. *)
Theorem hcd_pipe_close_interrupt s pipe_hdl dev l1 l2 fuel :
  state_ok cfg s ->
  0 < hdl_dev_addr pipe_hdl ->
  hdl_xfer_type pipe_hdl = TUSB_XFER_INTERRUPT ->
  usbh_devices s !! Z.to_nat (hdl_dev_addr pipe_hdl) = Some dev ->
  let p_qhd := PoolQhd (Z.to_nat (hdl_dev_addr pipe_hdl - 1))
                       (Z.to_nat (hdl_index pipe_hdl)) in
  let head := get_period_head cfg (core_id dev) in
  period_list cfg s head (l1 ++ p_qhd :: l2) ->
  (length l1 < fuel)%nat ->
  exists s' q,
    hcd_pipe_close cfg fuel s pipe_hdl = Some (TUSB_ERROR_NONE, s') ∧
    period_list cfg s' head (l1 ++ l2) ∧
    load_qhd (ehci_data s') p_qhd = Some q ∧
    is_removing q = 1 ∧
    align32 (qhd_next q) = qhd_address head ∧
    link_type (qhd_next q) = EHCI_QUEUE_ELEMENT_QHD.
Proof.
  intros Hok Hpos Hint Hd p_qhd head [Hnd Hc] Hfuel.
  pose proof (period_chain_valid s _ _ Hok Hc) as Hval.
  apply Forall_cons in Hval as [Hvh Hval].
  apply Forall_app in Hval as [Hval1 Hval2].
  apply Forall_cons in Hval2 as [Hv _].
  destruct (proj2 (load_qhd_is_Some cfg s p_qhd Hok) Hv) as [q0 Hq0].
  pose proof Hnd as Hnd'.
  apply NoDup_cons in Hnd' as [Hhead Hnd'].
  apply not_elem_of_app in Hhead as [Hhead1 Hhead2].
  apply not_elem_of_cons in Hhead2 as [Hhne Hhead2].
  apply NoDup_app in Hnd' as (Hnd1 & Hdisj & Hnd2).
  assert (Hr1 : p_qhd ∉ l1).
  { intros Hin. apply (Hdisj _ Hin). by left. }
  set (s1 := upd_qhd s p_qhd (set_is_removing 1)).
  assert (Hok1 : state_ok cfg s1) by (by apply state_ok_upd_qhd).
  assert (Hc1 : period_chain cfg s1 head (l1 ++ p_qhd :: l2)).
  { apply (period_chain_same_links s); [|done]. by apply same_links_upd_qhd. }
  destruct (period_chain_prefix s1 p_qhd l2 l1 head Hc1) as [Hq1 Hp2].
  set (prev := last_node head l1).
  assert (Hpv : valid_qhd_ptr cfg prev ∧ prev ≠ p_qhd).
  { subst prev. destruct (last_node_elem head l1) as [->|Hin]; [done|].
    split; [by apply (proj1 (Forall_forall _ _) Hval1)|by intros E; rewrite E in Hin]. }
  destruct Hpv as [Hvprev Hprevne].
  assert (Hwalk : list_find_previous_qhd cfg fuel s1 head p_qhd
                  = Some (Some prev)).
  { unfold list_find_previous_qhd.
    rewrite (list_find_previous_qhd_walk_chain cfg s1 head p_qhd l1 fuel head
               p_qhd); try done; [|by right|].
    - cbn [mbind option_bind]. fold prev.
      destruct (qhd_chain_last_link cfg s1 l1 _ _ Hq1) as (hp & Hhp & Hap).
      fold prev in Hhp. rewrite Hhp. cbn [mbind option_bind].
      rewrite decide_True; [done|]. rewrite Hap. intros E.
      by apply qhd_address_inj in E.
    - apply Forall_forall. intros x Hx. split_and!.
      + by apply (proj1 (Forall_forall _ _) Hval1).
      + by intros ->.
      + by intros ->. }
  assert (Hq1' : load_qhd (ehci_data s1) p_qhd = Some (set_is_removing 1 q0)).
  { subst s1. by rewrite load_qhd_upd_qhd_eq, Hq0. }
  destruct (proj2 (load_qhd_is_Some cfg s1 prev Hok1) Hvprev) as [hp Hhp].
  eexists _, _. split.
  { unfold hcd_pipe_close, qhd_get_from_pipe_handle.
    replace (0 <? hdl_dev_addr pipe_hdl) with true
      by (symmetry; apply Z.ltb_lt; lia).
    cbn [negb]. rewrite Hint.
    change (TUSB_XFER_INTERRUPT =? TUSB_XFER_ISOCHRONOUS) with false.
    change (TUSB_XFER_INTERRUPT =? TUSB_XFER_BULK) with false.
    cbn iota. rewrite decide_True by lia. cbn [mbind option_bind].
    fold p_qhd. exec_write. fold s1.
    replace (usbh_devices s1) with (usbh_devices s)
      by (symmetry; apply usbh_devices_upd_qhd).
    rewrite Hd. cbn [mbind option_bind]. fold head.
    unfold list_remove_qhd. rewrite Hwalk. cbn [mbind option_bind].
    rewrite Hq1'. cbn [mbind option_bind].
    do 3 exec_write. reflexivity. }
  match goal with
  | |- period_list cfg ?st _ _ ∧ _ => set (s3 := st)
  end.
  assert (Hl3p : load_qhd (ehci_data s3) p_qhd
    = Some (set_qhd_next
              (link_set_type EHCI_QUEUE_ELEMENT_QHD
                 (link_set_address (qhd_address head)
                    (qhd_next (set_is_removing 1 q0))))
              (set_is_removing 1 q0))).
  { subst s3. rewrite !load_qhd_upd_qhd_eq.
    rewrite load_qhd_upd_qhd_ne by done. by rewrite Hq1'. }
  split_and!.
  - split.
    + apply NoDup_cons. split.
      * apply not_elem_of_app. by split.
      * apply NoDup_app. split_and!; [done| |by apply NoDup_cons in Hnd2 as [_ ?]].
        intros x Hx1 Hx2. apply (Hdisj x Hx1). by right.
    + apply (period_chain_remove s1 s3 p_qhd l2 (set_is_removing 1 q0)
               (set_qhd_next
                  (link_set_address (qhd_next (set_is_removing 1 q0))
                                    (qhd_next hp)) hp) l1 head);
        try done.
      * fold prev. subst s3. rewrite !load_qhd_upd_qhd_ne by done.
        by rewrite load_qhd_upd_qhd_eq, Hhp.
      * apply link_terminate_uint32.
      * apply link_type_uint32.
      * apply align32_uint32.
      * fold prev. intros x Hx1 Hx2. subst s3.
        by rewrite !load_qhd_upd_qhd_ne.
  - exact Hl3p.
  - reflexivity.
  - cbn [qhd_next set_qhd_next]. rewrite align32_link_set_type.
    unfold link_set_address. rewrite align32_uint32.
    pose proof (qhd_address_range _ Hvh).
    apply align32_aligned; [lia|by apply qhd_address_aligned].
  - cbn [qhd_next set_qhd_next]. apply link_type_link_set_type.
Qed.

End Period.

Lemma lpc_state_int_ok : state_ok lpc_cfg lpc_state_int.
Proof.
  split_and!; try (vm_compute; lia); try reflexivity.
  repeat constructor.
Qed.

Lemma lpc_state_int_list :
  period_list lpc_cfg lpc_state_int (PeriodHead 0) [PoolQhd 0 0].
Proof.
  split.
  - apply (bool_decide_unpack _). vm_compute. exact I.
  - split.
    + eexists. split; [reflexivity|]. split_and!; reflexivity.
    + eexists. split; reflexivity.
Qed.

(** Witness for X23: the periodic list with the interrupt pipe of device
    address 1. *)
Lemma period_list_process_isr_visits_witness :
  period_list_process_isr lpc_cfg 8 8 0 0 lpc_state_int (PeriodHead 0)
  = process_qhd_list lpc_cfg 8 TUSB_XFER_INTERRUPT lpc_state_int
      (take 2 [PoolQhd 0 0]).
Proof.
  apply (period_list_process_isr_visits lpc_cfg lpc_state_int (PeriodHead 0)
           [PoolQhd 0 0] 8 8 0 0).
  - exact lpc_state_int_ok.
  - vm_compute. lia.
  - exact lpc_state_int_list.
  - cbn; lia.
Defined.

(** Witness for X24: opening the interrupt IN pipe of device address 1. *)
Lemma hcd_pipe_open_interrupt_witness :
  exists s' q,
    hcd_pipe_open lpc_cfg lpc_state_control 1 lpc_int_in_desc 3
      = Some (lpc_int_handle, s') ∧
    period_list lpc_cfg s' (PeriodHead 0) [PoolQhd 0 0] ∧
    load_qhd (ehci_data s') (PoolQhd 0 0) = Some q ∧
    interrupt_smask q = 0xFF.
Proof.
  destruct (hcd_pipe_open_interrupt lpc_cfg lpc_state_control 1
              lpc_int_in_desc 3 (lpc_usbh_device TUSB_SPEED_HIGH) []
              (PoolQhd 0 0))
    as (i & s' & q & Hp & Hrun & _ & Hl & Hq & _ & _ & Hsm & _).
  - exact lpc_state_control_ok.
  - vm_compute. split; discriminate.
  - reflexivity.
  - reflexivity.
  - split.
    + apply (bool_decide_unpack _). vm_compute. exact I.
    + eexists. split; reflexivity.
  - reflexivity.
  - apply not_elem_of_nil.
  - exists s', q. injection Hp as <-. split_and!; done.
Defined.

(** Witness for X25: closing the interrupt pipe of device address 1. *)
Lemma hcd_pipe_close_interrupt_witness :
  exists s' q,
    hcd_pipe_close lpc_cfg 8 lpc_state_int lpc_int_handle
      = Some (TUSB_ERROR_NONE, s') ∧
    period_list lpc_cfg s' (PeriodHead 0) [] ∧
    load_qhd (ehci_data s') (PoolQhd 0 0) = Some q ∧
    is_removing q = 1.
Proof.
  destruct (hcd_pipe_close_interrupt lpc_cfg lpc_state_int lpc_int_handle
              (lpc_usbh_device TUSB_SPEED_HIGH) [] [] 8)
    as (s' & q & Hrun & Hl & Hq & Hr & _).
  - exact lpc_state_int_ok.
  - reflexivity.
  - reflexivity.
  - reflexivity.
  - exact lpc_state_int_list.
  - cbn; lia.
  - exists s', q. split_and!; done.
Defined.

(** ** The life of a control transfer *)

Section ControlCompletion.

Context (cfg : hcd_config) {L : Layout cfg}.

Lemma hcd_pipe_control_xfer_spec s dev_addr req data q0 :
  state_ok cfg s ->
  1 <= dev_addr <= Z.of_nat (TUSB_CFG_HOST_DEVICE_MAX cfg) ->
  0 < wLength req ->
  let p_qhd := ControlQhd (Z.to_nat (dev_addr - 1)) in
  let p_setup := get_control_qtds dev_addr in
  let p_data := qtd_ptr_add p_setup 1 in
  let p_status := qtd_ptr_add p_setup 2 in
  load_qhd (ehci_data s) p_qhd = Some q0 ->
  exists s1 td_setup td_data td_status q1,
    hcd_pipe_control_xfer cfg s dev_addr req data
      = Some (TUSB_ERROR_NONE, s1) ∧
    state_ok cfg s1 ∧
    load_qtd (ehci_data s1) p_setup = Some td_setup ∧
    load_qtd (ehci_data s1) p_data = Some td_data ∧
    load_qtd (ehci_data s1) p_status = Some td_status ∧
    load_qhd (ehci_data s1) p_qhd = Some q1 ∧
    qtd_next td_setup = uint32 (qtd_address p_data) ∧
    qtd_next td_data = uint32 (qtd_address p_status) ∧
    (active td_setup = 1 ∧ active td_data = 1 ∧ active td_status = 1) ∧
    (int_on_complete td_setup = 0 ∧ int_on_complete td_data = 0 ∧
     int_on_complete td_status = 1) ∧
    p_qtd_list_head q1 = Some p_setup ∧
    p_qtd_list_tail q1 = Some p_status ∧
    halted (qtd_overlay q1) = halted (qtd_overlay q0) ∧
    device_address q1 = device_address q0 ∧
    endpoint_number q1 = endpoint_number q0 ∧
    class_code q1 = class_code q0.
Proof.
  intros Hok Hdev Hlen p_qhd p_setup p_data p_status Eh.
  assert (Hdev' : 0 <= dev_addr <= Z.of_nat (TUSB_CFG_HOST_DEVICE_MAX cfg))
    by lia.
  pose proof (valid_control_qtds cfg dev_addr 0 Hdev' ltac:(lia)) as V0.
  pose proof (valid_control_qtds cfg dev_addr 1 Hdev' ltac:(lia)) as V1.
  pose proof (valid_control_qtds cfg dev_addr 2 Hdev' ltac:(lia)) as V2.
  rewrite qtd_ptr_add_0 in V0.
  pose proof (control_qtds_distinct dev_addr 0 1 ltac:(lia)) as D01.
  pose proof (control_qtds_distinct dev_addr 0 2 ltac:(lia)) as D02.
  pose proof (control_qtds_distinct dev_addr 1 2 ltac:(lia)) as D12.
  rewrite qtd_ptr_add_0 in D01, D02.
  apply (load_qtd_is_Some cfg s _ Hok) in V0 as [t0 E0].
  apply (load_qtd_is_Some cfg s _ Hok) in V1 as [t1 E1].
  apply (load_qtd_is_Some cfg s _ Hok) in V2 as [t2 E2].
  unfold hcd_pipe_control_xfer, qtd_init, get_control_qhd.
  replace (dev_addr =? 0) with false by (symmetry; apply Z.eqb_neq; lia).
  fold p_qhd.
  fold p_setup in E0, E1, E2, D01, D02, D12 |- *.
  fold p_data in E1, D01, D12 |- *. fold p_status in E2, D02, D12 |- *.
  clearbody p_setup p_data p_status.
  rewrite (proj2 (Z.ltb_lt 0 (wLength req)) Hlen).
  cbn [mbind option_bind].
  repeat exec_write.
  eexists _, _, _, _, _. split; [reflexivity|].
  split.
  { repeat first [apply state_ok_upd_qhd | apply state_ok_upd_qtd]. done. }
  split; [autorewrite with hcd; rewrite E0; reflexivity|].
  split; [autorewrite with hcd; rewrite E1; reflexivity|].
  split; [autorewrite with hcd; rewrite E2; reflexivity|].
  split; [autorewrite with hcd; rewrite Eh; reflexivity|].
  split_and!; try done.
  all: by destruct (bmRequestType_direction req =? 0).
Qed.

(** X26. The life of a control transfer with a data stage on a device
    address other than 0.  [hcd_pipe_control_xfer] leaves the three
    control qTDs as the list SETUP, DATA, STATUS of the control queue head;
    with the SETUP qTD still active, processing the queue head reports
    nothing; with SETUP and DATA finished but STATUS active it frees those
    two and still reports nothing; with all three finished it makes
    exactly one completion call, for the device address of the queue head
    with transfer type and index 0, and leaves the list empty. *)
Theorem hcd_pipe_control_xfer_completion s dev_addr req data q0 td_fuel :
  state_ok cfg s ->
  1 <= dev_addr <= Z.of_nat (TUSB_CFG_HOST_DEVICE_MAX cfg) ->
  0 < wLength req ->
  let p_qhd := ControlQhd (Z.to_nat (dev_addr - 1)) in
  let p_setup := get_control_qtds dev_addr in
  let p_data := qtd_ptr_add p_setup 1 in
  let p_status := qtd_ptr_add p_setup 2 in
  load_qhd (ehci_data s) p_qhd = Some q0 ->
  halted (qtd_overlay q0) = 0 ->
  endpoint_number q0 = 0 ->
  qtd_of_address cfg (qtd_address p_data) = Some p_data ->
  qtd_of_address cfg (qtd_address p_status) = Some p_status ->
  (3 < td_fuel)%nat ->
  exists s1 s2 s3,
    hcd_pipe_control_xfer cfg s dev_addr req data
      = Some (TUSB_ERROR_NONE, s1) ∧
    qtd_list cfg s1 p_qhd [p_setup; p_data; p_status] ∧
    process_qhd_isr cfg td_fuel TUSB_XFER_BULK s1 p_qhd = Some (s1, []) ∧
    process_qhd_isr cfg td_fuel TUSB_XFER_BULK
        (upd_qtd (upd_qtd s1 p_setup (set_active 0)) p_data (set_active 0))
        p_qhd
      = Some (s2, []) ∧
    qtd_list cfg s2 p_qhd [p_status] ∧
    process_qhd_isr cfg td_fuel TUSB_XFER_BULK
        (upd_qtd
           (upd_qtd (upd_qtd s1 p_setup (set_active 0)) p_data (set_active 0))
           p_status (set_active 0))
        p_qhd
      = Some (s3, [ {| isr_pipe_hdl :=
                         {| hdl_dev_addr := device_address q0;
                            hdl_xfer_type := 0; hdl_index := 0 |};
                       isr_class_code := class_code q0;
                       isr_event := BUS_EVENT_XFER_COMPLETE |} ]) ∧
    qtd_list cfg s3 p_qhd [].
Proof.
  intros Hok Hdev Hlen p_qhd p_setup p_data p_status Hq0 Hhalt Hen
         Hdec1 Hdec2 Hfuel.
  assert (Hdev' : 0 <= dev_addr <= Z.of_nat (TUSB_CFG_HOST_DEVICE_MAX cfg))
    by lia.
  pose proof (valid_control_qtds cfg dev_addr 1 Hdev' ltac:(lia)) as V1.
  pose proof (valid_control_qtds cfg dev_addr 2 Hdev' ltac:(lia)) as V2.
  pose proof (control_qtds_distinct dev_addr 0 1 ltac:(lia)) as D01.
  pose proof (control_qtds_distinct dev_addr 0 2 ltac:(lia)) as D02.
  pose proof (control_qtds_distinct dev_addr 1 2 ltac:(lia)) as D12.
  rewrite qtd_ptr_add_0 in D01, D02.
  destruct (hcd_pipe_control_xfer_spec s dev_addr req data q0 Hok Hdev Hlen
              Hq0)
    as (s1 & tds & tdd & tdt & q1 & Hrun & Hok1 & Es & Ed & Et & Eq & Hns &
        Hnd & (Has & Had & Hat) & (His & Hid & Hit) & Hhead & Htail & Hh1 &
        Hda & Hen1 & Hcc).
  fold p_qhd in Eq. subst p_setup p_data p_status.
  set (p_setup := get_control_qtds dev_addr) in *.
  set (p_data := qtd_ptr_add p_setup 1) in *.
  set (p_status := qtd_ptr_add p_setup 2) in *.
  clearbody p_setup p_data p_status.
  assert (Hnodup : NoDup [p_setup; p_data; p_status]).
  { apply NoDup_cons. split.
    - intros [?|[?|[]%elem_of_nil]%elem_of_cons]%elem_of_cons; done.
    - apply NoDup_cons. split; [|apply NoDup_singleton].
      intros ?%list_elem_of_singleton. done. }
  exists s1.
  set (sb := upd_qtd (upd_qtd s1 p_setup (set_active 0)) p_data (set_active 0)).
  set (sc := upd_qtd sb p_status (set_active 0)).
  assert (Hchain : forall st,
    (exists a, load_qtd (ehci_data st) p_setup = Some a ∧
               qtd_next a = qtd_next tds) ->
    (exists a, load_qtd (ehci_data st) p_data = Some a ∧
               qtd_next a = qtd_next tdd) ->
    qtd_chain cfg st p_setup [p_data; p_status]).
  { intros st (a & Ha & Hna) (b & Hb & Hnb). split; [|split; [|done]].
    - exists a. split; [done|]. rewrite Hna, Hns.
      by apply qtd_ptr_of_link_address.
    - exists b. split; [done|]. rewrite Hnb, Hnd.
      by apply qtd_ptr_of_link_address. }
  assert (Hhdl : forall st,
    load_qhd (ehci_data st) p_qhd = Some q1 ->
    isr_pipe_handle st p_qhd TUSB_XFER_BULK
    = Some {| hdl_dev_addr := device_address q0; hdl_xfer_type := 0;
              hdl_index := 0 |}).
  { intros st Hst. unfold isr_pipe_handle. rewrite Hst.
    cbn [mbind option_bind]. by rewrite Hen1, Hen, Hda. }
  (* SETUP and DATA finished *)
  destruct (retire_qtds_spec cfg TUSB_XFER_BULK p_qhd
              {| hdl_dev_addr := device_address q0; hdl_xfer_type := 0;
                 hdl_index := 0 |}
              [p_setup; p_data] [p_status] sb q1 td_fuel)
    as (s2 & Hrun2 & Hq2 & _ & _ & Ho2 & _).
  { subst sb. by rewrite !load_qhd_upd_qtd. }
  { done. }
  { done. }
  { done. }
  { apply Hchain; eexists; (split;
      [subst sb; autorewrite with hcd; rewrite ?Es, ?Ed; reflexivity|done]). }
  { repeat (apply Forall_cons_2; [|]); [| |apply Forall_nil_2];
      eexists; (split;
        [subst sb; autorewrite with hcd; rewrite ?Es, ?Ed; reflexivity|done]). }
  { exists tdt. split; [|lia]. subst sb. autorewrite with hcd. done. }
  { apply Hhdl. subst sb. by rewrite !load_qhd_upd_qtd. }
  { simpl. lia. }
  (* all three finished *)
  destruct (retire_qtds_spec cfg TUSB_XFER_BULK p_qhd
              {| hdl_dev_addr := device_address q0; hdl_xfer_type := 0;
                 hdl_index := 0 |}
              [p_setup; p_data; p_status] [] sc q1 td_fuel)
    as (s3 & Hrun3 & Hq3 & _ & _ & _ & _).
  { subst sc sb. by rewrite !load_qhd_upd_qtd. }
  { done. }
  { done. }
  { by rewrite app_nil_r. }
  { apply Hchain; eexists; (split;
      [subst sc sb; autorewrite with hcd; rewrite ?Es, ?Ed; reflexivity|done]). }
  { repeat (apply Forall_cons_2; [|]); [| | |apply Forall_nil_2];
      eexists; (split;
        [subst sc sb; autorewrite with hcd; rewrite ?Es, ?Ed, ?Et;
         reflexivity|done]). }
  { done. }
  { apply Hhdl. subst sc sb. by rewrite !load_qhd_upd_qtd. }
  { simpl. lia. }
  exists s2, s3. split_and!.
  - done.
  - exists q1. split_and!; try done.
    + repeat (apply Forall_cons_2; [by eauto|]). apply Forall_nil_2.
    + apply Hchain; eauto.
  - unfold process_qhd_isr. rewrite Eq. cbn [mbind option_bind].
    rewrite Hh1, Hhalt. change (0 =? 0) with true. cbn iota.
    destruct td_fuel as [|fuel]; [lia|]. cbn [retire_qtds].
    rewrite Eq. cbn [mbind option_bind]. rewrite Hhead, Es.
    cbn [mbind option_bind]. by rewrite Has.
  - unfold process_qhd_isr.
    replace (load_qhd (ehci_data sb) p_qhd) with (Some q1)
      by (subst sb; by rewrite !load_qhd_upd_qtd).
    cbn [mbind option_bind]. rewrite Hh1, Hhalt.
    change (0 =? 0) with true. cbn iota. rewrite Hrun2. do 2 f_equal.
    unfold completion_calls. cbn [mbind list_bind].
    subst sb. autorewrite with hcd. rewrite Es, Ed.
    cbn [fmap option_fmap option_map int_on_complete set_active].
    by rewrite His, Hid.
  - eexists. split; [exact Hq2|]. split_and!; try done.
    + apply NoDup_singleton.
    + apply Forall_singleton. rewrite Ho2.
      * subst sb. autorewrite with hcd. eauto.
      * intros [?|[?|[]%elem_of_nil]%elem_of_cons]%elem_of_cons; done.
  - unfold process_qhd_isr.
    replace (load_qhd (ehci_data sc) p_qhd) with (Some q1)
      by (subst sc sb; by rewrite !load_qhd_upd_qtd).
    cbn [mbind option_bind]. rewrite Hh1, Hhalt.
    change (0 =? 0) with true. cbn iota. rewrite Hrun3. do 2 f_equal.
    unfold completion_calls. cbn [mbind list_bind].
    subst sc sb. autorewrite with hcd. rewrite Es, Ed, Et.
    cbn [fmap option_fmap option_map int_on_complete set_active].
    rewrite His, Hid, Hit, Hcc. reflexivity.
  - eexists. split; [exact Hq3|]. split_and!; try done. apply NoDup_nil_2.
Qed.

(** X27. Closing the control pipe of device address 0 only marks the
    asynchronous list head; the async-advance interrupt that follows
    clears the mark, empties the qTD list of the head and halts its
    overlay again.  The head keeps its link, and a device whose control
    queue head is not being removed is not touched. *)
Theorem hcd_pipe_control_close_addr0 s dev0 h0 fuel :
  state_ok cfg s ->
  usbh_devices s !! 0%nat = Some dev0 ->
  let head := get_async_head cfg (core_id dev0) in
  load_qhd (ehci_data s) head = Some h0 ->
  exists s1 s2 h,
    hcd_pipe_control_close cfg fuel s 0 = Some (TUSB_ERROR_NONE, s1) ∧
    load_qhd (ehci_data s1) head = Some (set_is_removing 1 h0) ∧
    async_advance_isr cfg s1 head = Some s2 ∧
    load_qhd (ehci_data s2) head = Some h ∧
    is_removing h = 0 ∧ halted (qtd_overlay h) = 1 ∧
    p_qtd_list_head h = None ∧ p_qtd_list_tail h = None ∧
    qhd_next h = qhd_next h0 ∧
    (forall d c, load_qhd (ehci_data s) (ControlQhd d) = Some c ->
                 is_removing c = 0 -> device_untouched s s2 d).
Proof.
  intros Hok Hd head Hh0.
  assert (Hv : valid_qhd_ptr cfg head)
    by (apply (load_qhd_is_Some cfg s _ Hok); eauto).
  set (s1 := upd_qhd s head (set_is_removing 1)).
  assert (Hok1 : state_ok cfg s1) by (by apply state_ok_upd_qhd).
  assert (Hh1 : load_qhd (ehci_data s1) head = Some (set_is_removing 1 h0))
    by (subst s1; by rewrite load_qhd_upd_qhd_eq, Hh0).
  destruct (async_advance_isr_spec cfg s1 (core_id dev0) Hok1 Hv)
    as (s2 & Hadv & _ & Hdevs & Hhead).
  fold head in Hadv, Hhead. specialize (Hhead _ Hh1).
  cbn [is_removing set_is_removing] in Hhead.
  change (bitfield 1 1 =? 0) with false in Hhead. cbn iota in Hhead.
  exists s1, s2. eexists. split_and!.
  - unfold hcd_pipe_control_close, get_control_qhd.
    change (0 =? 0) with true. cbn iota. change (Z.to_nat 0) with 0%nat.
    rewrite Hd. cbn [mbind option_bind]. fold head. by exec_write.
  - done.
  - done.
  - exact Hhead.
  - reflexivity.
  - reflexivity.
  - reflexivity.
  - reflexivity.
  - reflexivity.
  - intros d c Hc Hrem.
    assert (Hc1 : load_qhd (ehci_data s1) (ControlQhd d) = Some c).
    { subst s1. rewrite load_qhd_upd_qhd_ne; done. }
    destruct (Hdevs d c Hc1) as [_ Hun]. specialize (Hun Hrem).
    destruct Hun as (U1 & U2 & U3 & U4 & U5).
    subst s1. split_and!.
    + rewrite U1. by rewrite load_qhd_upd_qhd_ne.
    + intros i. rewrite U2. by rewrite load_qhd_upd_qhd_ne.
    + intros i. rewrite U3. by rewrite load_qtd_upd_qhd.
    + intros i. rewrite U4. by rewrite load_qtd_upd_qhd.
    + rewrite U5. by rewrite usbh_devices_upd_qhd.
Qed.

End ControlCompletion.

(** Witness for X26: GET_DESCRIPTOR (device to host, 18 bytes) on device
    address 1. *)
Lemma hcd_pipe_control_xfer_completion_witness :
  exists s1 s3,
    hcd_pipe_control_xfer lpc_cfg lpc_state_control 1
        {| request_address := 0x10000100; bmRequestType_direction := 1;
           wLength := 18 |} 0x10000200
      = Some (TUSB_ERROR_NONE, s1) ∧
    process_qhd_isr lpc_cfg 8 TUSB_XFER_BULK
        (upd_qtd
           (upd_qtd (upd_qtd s1 (ControlQtd 0 0) (set_active 0))
                    (ControlQtd 0 1) (set_active 0))
           (ControlQtd 0 2) (set_active 0))
        (ControlQhd 0)
      = Some (s3, [ {| isr_pipe_hdl :=
                         {| hdl_dev_addr := 1; hdl_xfer_type := 0;
                            hdl_index := 0 |};
                       isr_class_code := 0;
                       isr_event := BUS_EVENT_XFER_COMPLETE |} ]) ∧
    qtd_list lpc_cfg s3 (ControlQhd 0) [].
Proof.
  destruct (hcd_pipe_control_xfer_completion lpc_cfg lpc_state_control 1
              {| request_address := 0x10000100; bmRequestType_direction := 1;
                 wLength := 18 |} 0x10000200
              (default qhd_zero
                 (load_qhd (ehci_data lpc_state_control) (ControlQhd 0))) 8)
    as (s1 & s2 & s3 & Hrun & _ & _ & _ & _ & Hdone & Hl).
  - exact lpc_state_control_ok.
  - vm_compute. split; discriminate.
  - reflexivity.
  - reflexivity.
  - reflexivity.
  - reflexivity.
  - reflexivity.
  - reflexivity.
  - lia.
  - exists s1, s3. split_and!; [exact Hrun|exact Hdone|exact Hl].
Defined.

(** Witness for X27: the address-0 pipe on controller 0. *)
Lemma hcd_pipe_control_close_addr0_witness :
  exists s1 s2 h,
    hcd_pipe_control_close lpc_cfg 8 lpc_state_bulk 0
      = Some (TUSB_ERROR_NONE, s1) ∧
    async_advance_isr lpc_cfg s1 (AsyncHead 0) = Some s2 ∧
    load_qhd (ehci_data s2) (AsyncHead 0) = Some h ∧
    is_removing h = 0 ∧ halted (qtd_overlay h) = 1.
Proof.
  destruct (hcd_pipe_control_close_addr0 lpc_cfg lpc_state_bulk
              (lpc_usbh_device TUSB_SPEED_FULL)
              (default qhd_zero
                 (load_qhd (ehci_data lpc_state_bulk) (AsyncHead 0))) 8)
    as (s1 & s2 & h & Hrun & _ & Hadv & Hh & Hr & Hhalt & _).
  - exact lpc_state_bulk_ok.
  - reflexivity.
  - reflexivity.
  - exists s1, s2, h. split_and!; done.
Defined.
